(** * cozy-stack storage core: vfsafero write pipeline, directory operator,
      and the application copiers (bulk installer)

    Shallow embedding of [pkg/vfs/vfsafero] (the afero-backed VFS) and of
    [pkg/apps/copier.go].  The Go code talks to three collaborators it does
    not own: an [afero.Fs] backend, the [vfs.Indexer] and a
    [swift.Connection].  Every call to one of them is an operation [op]
    whose answer [resp] is chosen by the environment; a Go function becomes
    a program [prog] issuing such operations.  Programs are run against any
    handler (any backend), which yields the outcome, the final environment
    and the sequence of operations issued. *)

From Stdlib Require Import ZArith Lia.
From Stdlib Require Import Strings.String Strings.Ascii Strings.Byte.
From stdpp Require Import base option list strings pretty gmap.

Local Open Scope string_scope.
Local Open Scope list_scope.

(** ** Go [error] values

    One constructor per sentinel the code compares against or returns, the
    wrappers of package [os], and [ErrOther] for any other error value
    (identified by its message). *)

Inductive error : Type :=
| ErrNotExist                 (* os.ErrNotExist *)
| ErrExist                    (* os.ErrExist *)
| ErrInvalid                  (* os.ErrInvalid *)
| ENOENT                      (* syscall.ENOENT *)
| ENOSPC                      (* syscall.ENOSPC *)
| PathError (op path : string) (err : error)      (* *os.PathError *)
| LinkError (op old new : string) (err : error)   (* *os.LinkError *)
| ErrConflict                 (* vfs.ErrConflict *)
| ErrInvalidHash              (* vfs.ErrInvalidHash *)
| ErrContentLengthMismatch    (* vfs.ErrContentLengthMismatch *)
| ErrNonAbsolutePath          (* vfs.ErrNonAbsolutePath *)
| ErrForbiddenDocMove         (* vfs.ErrForbiddenDocMove *)
| ErrIteratorDone             (* vfs.ErrIteratorDone *)
| ObjectNotFound              (* swift.ObjectNotFound *)
| ContainerNotFound           (* swift.ContainerNotFound *)
| ErrOther (msg : string).

#[global] Instance error_eq_dec : EqDecision error.
Proof. solve_decision. Defined.

(** [os.IsNotExist]: the error, once unwrapped, is [ErrNotExist] or
    [ENOENT]. *)
Fixpoint IsNotExist (e : error) : bool :=
  match e with
  | ErrNotExist | ENOENT => true
  | PathError _ _ e' | LinkError _ _ _ e' => IsNotExist e'
  | _ => false
  end.

(** [os.IsExist]: the error, once unwrapped, is [ErrExist]. *)
Fixpoint IsExist (e : error) : bool :=
  match e with
  | ErrExist => true
  | PathError _ _ e' | LinkError _ _ _ e' => IsExist e'
  | _ => false
  end.

(** The two integrity failures of a write session. *)
Definition is_integrity_error (e : error) : bool :=
  match e with
  | ErrInvalidHash | ErrContentLengthMismatch => true
  | _ => false
  end.

(** ** Package [path] and [strings] (lexical path handling) *)

Module path.

Definition slash : ascii := "/"%char.

(** The elements of a path between slashes. *)
Fixpoint split (s : string) : list string :=
  match s with
  | EmptyString => [EmptyString]
  | String c s' =>
      if Ascii.eqb c slash then EmptyString :: split s'
      else match split s' with
           | e :: es => String c e :: es
           | [] => [String c EmptyString]
           end
  end.

Fixpoint join_slash (es : list string) : string :=
  match es with
  | [] => ""
  | [e] => e
  | e :: es' => e ++ "/" ++ join_slash es'
  end.

(** Elimination of empty, [.] and [..] elements; [acc] holds the kept
    elements, last one first. *)
Fixpoint clean_elems (rooted : bool) (acc es : list string) : list string :=
  match es with
  | [] => rev acc
  | e :: es' =>
      if String.eqb e "" || String.eqb e "." then clean_elems rooted acc es'
      else if String.eqb e ".." then
        match acc with
        | a :: acc' =>
            if String.eqb a ".." then clean_elems rooted (e :: acc) es'
            else clean_elems rooted acc' es'
        | [] =>
            if rooted then clean_elems rooted [] es'
            else clean_elems rooted [e] es'
        end
      else clean_elems rooted (e :: acc) es'
  end.

Definition IsAbs (p : string) : bool :=
  match p with
  | String c _ => Ascii.eqb c slash
  | EmptyString => false
  end.

Definition Clean (p : string) : string :=
  if String.eqb p "" then "."
  else
    let out := join_slash (clean_elems (IsAbs p) [] (split p)) in
    if IsAbs p then "/" ++ out
    else if String.eqb out "" then "." else out.

Definition Join (elem : list string) : string :=
  match List.filter (fun e => negb (String.eqb e "")) elem with
  | [] => ""
  | es => Clean (join_slash es)
  end.

(** [path.Dir]: everything up to the last slash, cleaned. *)
Definition Dir (p : string) : string :=
  Clean (join_slash (removelast (split p)) ++
         (if Nat.ltb 1 (List.length (split p)) then "/" else "")).

(** [path.Ext]: the suffix of the last element that starts at its last
    dot, or the empty string. *)
Fixpoint last_dot (s : string) : option string :=
  match s with
  | EmptyString => None
  | String c s' =>
      match last_dot s' with
      | Some r => Some r
      | None => if Ascii.eqb c "."%char then Some s else None
      end
  end.

Definition Ext (p : string) : string :=
  default "" (last_dot (List.last (split p) "")).

(** The elements of a cleaned path: [/a/b] has [a; b], [/] has none. *)
Definition elems (p : string) : list string :=
  List.filter (fun e => negb (String.eqb e "")) (split p).

End path.

Module strings.

Definition HasPrefix (s pre : string) : bool := String.prefix pre s.

Definition TrimPrefix (s pre : string) : string :=
  if HasPrefix s pre
  then String.substring (String.length pre)
                        (String.length s - String.length pre) s
  else s.

End strings.

(** ** Data model *)

Abbreviation bytes := (list Byte.byte).

(** [vfs.Metadata]: extracted key/value pairs. *)
Definition Metadata := list (string * string).

(** [vfs.FileDoc], with the fields the storage layer reads or writes.
    [MD5Sum = None] is the nil slice (no expected hash declared); a negative
    [ByteSize] declares no expected size. *)
Record FileDoc : Type := mkFileDoc {
  DocID : string;
  DocRev : string;
  DirID : string;
  DocName : string;
  CreatedAt : Z;
  ByteSize : Z;
  MD5Sum : option bytes;
  Executable : bool;
  FileMetadata : option Metadata
}.

(** [vfs.DirDoc]. *)
Record DirDoc : Type := mkDirDoc {
  DirDocID : string;
  DirDocRev : string;
  Fullpath : string
}.

(** [FileDoc.Mode] of package vfs: 0755 for executables, 0644 otherwise. *)
Definition Mode (d : FileDoc) : Z := if Executable d then 493%Z else 420%Z.

Definition SetID (d : FileDoc) (id : string) : FileDoc :=
  mkFileDoc id (DocRev d) (DirID d) (DocName d) (CreatedAt d) (ByteSize d)
            (MD5Sum d) (Executable d) (FileMetadata d).
Definition SetRev (d : FileDoc) (rev : string) : FileDoc :=
  mkFileDoc (DocID d) rev (DirID d) (DocName d) (CreatedAt d) (ByteSize d)
            (MD5Sum d) (Executable d) (FileMetadata d).
Definition SetCreatedAt (d : FileDoc) (t : Z) : FileDoc :=
  mkFileDoc (DocID d) (DocRev d) (DirID d) (DocName d) t (ByteSize d)
            (MD5Sum d) (Executable d) (FileMetadata d).
Definition SetMetadata (d : FileDoc) (m : Metadata) : FileDoc :=
  mkFileDoc (DocID d) (DocRev d) (DirID d) (DocName d) (CreatedAt d)
            (ByteSize d) (MD5Sum d) (Executable d) (Some m).
Definition SetMD5Sum (d : FileDoc) (h : bytes) : FileDoc :=
  mkFileDoc (DocID d) (DocRev d) (DirID d) (DocName d) (CreatedAt d)
            (ByteSize d) (Some h) (Executable d) (FileMetadata d).
Definition SetByteSize (d : FileDoc) (n : Z) : FileDoc :=
  mkFileDoc (DocID d) (DocRev d) (DirID d) (DocName d) (CreatedAt d) n
            (MD5Sum d) (Executable d) (FileMetadata d).

(** Handles handed out by the environment: an open [afero.File] or
    [swift.ObjectCreateFile] is known by the name it was opened under, a
    [vfs.MetaExtractor] by a number. *)
Definition File := string.
Definition MetaExtractor := nat.

(** An [io.Reader]: the bytes it yields, then [io.EOF] ([None]) or a read
    error. *)
Record Reader : Type := mkReader { rd_data : bytes; rd_err : option error }.

(** [os.FileInfo] as the copiers use it: [Name] and [Size]. *)
Record FileInfo : Type := mkFileInfo { fi_name : string; fi_size : Z }.

(** Go's [int64(x)]: two's complement wrap-around. *)
Definition int64 (z : Z) : Z := ((z + 2 ^ 63) mod 2 ^ 64 - 2 ^ 63)%Z.

(** ** Operations on the environment *)

Inductive op : Type :=
(* afero.Fs *)
| FsStat (name : string)
| FsRename (oldname newname : string)
| FsRemove (name : string)
| FsRemoveAll (name : string)
| FsMkdirAll (name : string) (perm : Z)
| FsOpenFile (name : string) (flag perm : Z)
| FsCreate (name : string)
| FsDirExists (name : string)               (* afero.DirExists(fs, name) *)
| FsTempDir (dir pre : string)              (* afero.TempDir(fs, dir, pre) *)
| FsMkdir (name : string) (perm : Z)
| FsChmod (name : string) (mode : Z)
| FsOpen (name : string)
(* afero.NewOsFs(): the file system of the host *)
| OsMkdirAll (name : string) (perm : Z)
| OsRemoveAll (name : string)
(* afero.File *)
| FileWrite (f : File) (p : bytes)
| FileClose (f : File)
(* vfs.Indexer, and the path lookups that go through it *)
| IdxCreateFileDoc (doc : FileDoc)
| IdxUpdateFileDoc (olddoc newdoc : FileDoc)
| IdxDeleteFileDoc (doc : FileDoc)
| IdxUpdateDirDoc (olddoc newdoc : DirDoc)
| IdxDeleteDirDoc (doc : DirDoc)
| IdxCreateDirDoc (doc : DirDoc)
| IdxInitIndex
| FilePath (doc : FileDoc)                  (* doc.Path(afs) *)
| DirPath (doc : DirDoc)                    (* doc.Path(afs) *)
(* vfs.MetaExtractor *)
| MetaNew (doc : FileDoc)
| MetaWrite (m : MetaExtractor) (p : bytes)
| MetaAbort (m : MetaExtractor) (e : error)
| MetaClose (m : MetaExtractor)
| MetaResult (m : MetaExtractor)
(* swift.Connection and swift.ObjectCreateFile *)
| SwObject (container name : string)
| SwContainer (container : string)
| SwContainerCreate (container : string)
| SwObjectNamesAll (container pre : string)
| SwBulkDelete (container : string) (names : list string)
| SwObjectMove (srcContainer src dstContainer dst : string)
| SwObjectCreate (container name : string) (checkHash : bool)
                 (hash contentType : string) (headers : list (string * string))
| SwFileWrite (f : File) (p : bytes)
| SwFileClose (f : File)
(* utils.RandomString *)
| RandomString (n : nat).

(** The answer to each operation.  A Go [error] result is [option error]
    ([None] is nil); [(value, error)] results whose value is only used when
    the error is nil are sums. *)
Definition resp (o : op) : Type :=
  match o with
  | FsStat _ | FsRename _ _ | FsRemove _ | FsRemoveAll _ | FsMkdirAll _ _
  | FileClose _ | SwFileClose _ => option error
  | FsMkdir _ _ | FsChmod _ _ | OsMkdirAll _ _ | OsRemoveAll _ => option error
  | IdxCreateDirDoc _ | IdxInitIndex => option error
  | FsOpen _ => (File + error)%type
  | FsOpenFile _ _ _ | FsCreate _ => (File + error)%type
  | FsDirExists _ => (bool * option error)%type
  | FsTempDir _ _ => (string + error)%type
  | FileWrite _ _ | SwFileWrite _ _ => (Z * option error)%type
  | IdxCreateFileDoc _ | IdxUpdateFileDoc _ _ | IdxDeleteFileDoc _
  | IdxUpdateDirDoc _ _ | IdxDeleteDirDoc _ => option error
  | FilePath _ | DirPath _ => (string + error)%type
  | MetaNew _ => option MetaExtractor
  | MetaWrite _ _ | MetaClose _ => option error
  | MetaAbort _ _ => unit
  | MetaResult _ => Metadata
  | SwObject _ _ | SwContainer _ | SwContainerCreate _ | SwBulkDelete _ _
  | SwObjectMove _ _ _ _ => option error
  | SwObjectNamesAll _ _ => (list string + error)%type
  | SwObjectCreate _ _ _ _ _ _ => (File + error)%type
  | RandomString _ => string
  end.

(** Operations that change the backend store (afero or swift). *)
Definition mutates_store (o : op) : bool :=
  match o with
  | FsRename _ _ | FsRemove _ | FsRemoveAll _ | FsMkdirAll _ _
  | FsMkdir _ _ | FsChmod _ _ | OsMkdirAll _ _ | OsRemoveAll _
  | FsOpenFile _ _ _ | FsCreate _ | FsTempDir _ _ | FileWrite _ _
  | SwContainerCreate _ | SwBulkDelete _ _ | SwObjectMove _ _ _ _
  | SwObjectCreate _ _ _ _ _ _ | SwFileWrite _ _ => true
  | _ => false
  end.

(** Operations that create, update or delete a document of the Indexer. *)
Definition is_index_write (o : op) : bool :=
  match o with
  | IdxCreateFileDoc _ | IdxUpdateFileDoc _ _ | IdxDeleteFileDoc _
  | IdxUpdateDirDoc _ _ | IdxDeleteDirDoc _ => true
  | IdxCreateDirDoc _ | IdxInitIndex => true
  | _ => false
  end.

(** Calls on the afero backend (the Fs and its open files). *)
Definition is_fs_op (o : op) : bool :=
  match o with
  | FsStat _ | FsRename _ _ | FsRemove _ | FsRemoveAll _ | FsMkdirAll _ _
  | FsOpenFile _ _ _ | FsCreate _ | FsDirExists _ | FsTempDir _ _
  | FsMkdir _ _ | FsChmod _ _ | FsOpen _
  | FileWrite _ _ | FileClose _ => true
  | _ => false
  end.

(** ** Programs *)

Inductive prog (R : Type) : Type :=
| Ret (r : R)
| Panic (msg : string)
| Vis (o : op) (k : resp o -> prog R).
Arguments Ret {R} r.
Arguments Panic {R} msg.
Arguments Vis {R} o k.

Fixpoint bind {A B : Type} (p : prog A) (f : A -> prog B) : prog B :=
  match p with
  | Ret a => f a
  | Panic msg => Panic msg
  | Vis o k => Vis o (fun x => bind (k x) f)
  end.

#[global] Instance prog_ret : MRet prog := @Ret.
#[global] Instance prog_bind : MBind prog := fun A B f p => bind p f.

(** Issue one operation and return its answer. *)
Definition call (o : op) : prog (resp o) := Vis o Ret.

(** How a Go call ends: it returns, or it panics. *)
Inductive outcome (R : Type) : Type :=
| Returned (r : R)
| Panicked (msg : string).
Arguments Returned {R} r.
Arguments Panicked {R} msg.

Section Run.
Context {W : Type}.

(** An environment: how each operation is answered in a state of the
    world, and the state it leaves. *)
Definition handler : Type := forall o : op, W -> resp o * W.

Variable h : handler.

(** Outcome, final world and operations issued, in order. *)
Fixpoint run {R : Type} (p : prog R) (w : W) : outcome R * W * list op :=
  match p with
  | Ret r => (Returned r, w, [])
  | Panic msg => (Panicked msg, w, [])
  | Vis o k =>
      let '(x, w1) := h o w in
      let '(r, w2, tr) := run (k x) w1 in
      (r, w2, o :: tr)
  end.

Definition result {R} (p : prog R) (w : W) : outcome R := (run p w).1.1.
Definition final {R} (p : prog R) (w : W) : W := (run p w).1.2.
Definition trace {R} (p : prog R) (w : W) : list op := (run p w).2.

End Run.

#[global] Instance byte_eq_dec : EqDecision Byte.byte := Byte.byte_eq_dec.

(** [bytes.Equal]: nil and the empty slice are equal. *)
Definition bytes_Equal (a : option bytes) (b : bytes) : bool :=
  bool_decide (default [] a = b).

(** ** Package vfsafero *)

Module vfsafero.

Section WithHash.

(** [crypto/md5]: the digest of the bytes fed to the hash. *)
Variable md5sum : bytes -> bytes.

(** [aferoFileCreation]: a file open for writing.  [fc_hash] holds the
    bytes fed to the running hash; [fc_olddoc = None] is a nil [olddoc]. *)
Record aferoFileCreation : Type := mkFileCreation {
  fc_f : File;
  fc_w : Z;
  fc_newdoc : FileDoc;
  fc_olddoc : option FileDoc;
  fc_newpath : string;
  fc_bakpath : string;
  fc_hash : bytes;
  fc_meta : option MetaExtractor;
  fc_err : option error
}.

(** [os.O_WRONLY | os.O_CREATE | os.O_EXCL] *)
Definition O_WRONLY_CREATE_EXCL : Z := Z.lor 1 (Z.lor 64 128).

Definition safeCreateFile (name : string) (mode : Z) : prog (File + error) :=
  call (FsOpenFile name O_WRONLY_CREATE_EXCL mode).

Definition safeRenameFile (oldpath newpath : string) : prog (option error) :=
  let newpath := path.Clean newpath in
  let oldpath := path.Clean oldpath in
  if negb (path.IsAbs newpath) || negb (path.IsAbs oldpath)
  then mret (Some ErrNonAbsolutePath)
  else
    err ← call (FsStat newpath);
    match err with
    | None => mret (Some ErrExist)
    | Some e =>
        if negb (IsNotExist e) then mret (Some e)
        else call (FsRename oldpath newpath)
    end.

Definition safeRenameDir (oldpath newpath : string) : prog (option error) :=
  let newpath := path.Clean newpath in
  let oldpath := path.Clean oldpath in
  if negb (path.IsAbs newpath) || negb (path.IsAbs oldpath)
  then mret (Some ErrNonAbsolutePath)
  else if strings.HasPrefix newpath (oldpath ++ "/")
  then mret (Some ErrForbiddenDocMove)
  else
    err ← call (FsStat newpath);
    match err with
    | None => mret (Some ErrExist)
    | Some e =>
        if negb (IsNotExist e) then mret (Some e)
        else call (FsRename oldpath newpath)
    end.

(** The hidden backup path of a document being overwritten. *)
Definition backup_path (olddoc : FileDoc) : string :=
  "/." ++ DocID olddoc ++ "_" ++ DocRev olddoc.

Definition CreateFile (newdoc : FileDoc) (olddoc : option FileDoc)
  : prog (aferoFileCreation + error) :=
  r ← call (FilePath newdoc);
  match r with
  | inr e => mret (inr e)
  | inl newpath =>
      let bakpath := from_option backup_path "" olddoc in
      renamed ← match olddoc with
                | Some _ => safeRenameFile newpath bakpath
                | None => mret None
                end;
      match renamed with
      | Some e =>
          (* a concurrent writer already moved the file *)
          mret (inr (if IsNotExist e then ErrConflict else e))
      | None =>
          let newdoc :=
            match olddoc with
            | Some o =>
                SetCreatedAt (SetRev (SetID newdoc (DocID o)) (DocRev o))
                             (CreatedAt o)
            | None => newdoc
            end in
          f ← safeCreateFile newpath (Mode newdoc);
          match f with
          | inr e => mret (inr e)
          | inl f =>
              extractor ← call (MetaNew newdoc);
              mret (inl (mkFileCreation f 0 newdoc olddoc newpath bakpath
                                        [] extractor None))
          end
      end
  end.

Definition set_err (fc : aferoFileCreation) (e : error) :=
  mkFileCreation (fc_f fc) (fc_w fc) (fc_newdoc fc) (fc_olddoc fc)
    (fc_newpath fc) (fc_bakpath fc) (fc_hash fc) (fc_meta fc) (Some e).

(** [aferoFileCreation.Write]: the updated session, and the returned
    [(n, err)]. *)
Definition Write (fc : aferoFileCreation) (p : bytes)
  : prog (aferoFileCreation * (Z * option error)) :=
  '(n, err) ← call (FileWrite (fc_f fc) p);
  match err with
  | Some e => mret (set_err fc e, (n, Some e))
  | None =>
      let w := int64 (fc_w fc + int64 n) in
      meta ← match fc_meta fc with
             | Some m =>
                 merr ← call (MetaWrite m p);
                 match merr with
                 | Some e => call (MetaAbort m e);; mret None
                 | None => mret (Some m)
                 end
             | None => mret None
             end;
      (* hash.Write never returns an error *)
      mret (mkFileCreation (fc_f fc) w (fc_newdoc fc) (fc_olddoc fc)
              (fc_newpath fc) (fc_bakpath fc) (fc_hash fc ++ p) meta
              (fc_err fc),
            (n, None))
  end.

(** The hash and size checks of [Close] (source lines 363-380): the error,
    if any, and the document with the digest and count adopted. *)
Definition check_integrity (newdoc : FileDoc) (sum : bytes) (written : Z)
  : option error * FileDoc :=
  let newdoc := if MD5Sum newdoc is None then SetMD5Sum newdoc sum else newdoc in
  if negb (bytes_Equal (MD5Sum newdoc) sum) then (Some ErrInvalidHash, newdoc)
  else
    let newdoc :=
      if (ByteSize newdoc <? 0)%Z then SetByteSize newdoc written else newdoc in
    if negb (ByteSize newdoc =? written)%Z
    then (Some ErrContentLengthMismatch, newdoc)
    else (None, newdoc).

(** The metadata block of [Close]: when an extractor is still attached and
    closes cleanly, its result is stored in the document. *)
Definition Close_metadata (fc : aferoFileCreation) : prog FileDoc :=
  match fc_meta fc with
  | Some m =>
      errc ← call (MetaClose m);
      match errc with
      | None =>
          res ← call (MetaResult m);
          mret (SetMetadata (fc_newdoc fc) res)
      | Some _ => mret (fc_newdoc fc)
      end
  | None => mret (fc_newdoc fc)
  end.

(** The Indexer call that ends [Close]. *)
Definition Close_index (fc : aferoFileCreation) (newdoc : FileDoc) : op :=
  match fc_olddoc fc with
  | Some olddoc => IdxUpdateFileDoc olddoc newdoc
  | None => IdxCreateFileDoc newdoc
  end.

(** The body of [Close]: the value of the named result [err] when the body
    returns, and [newdoc] as the body leaves it. *)
Definition Close_body (fc : aferoFileCreation) : prog (option error * FileDoc) :=
  cerr ← call (FileClose (fc_f fc));
  match cerr with
  | Some e =>
      match fc_meta fc with
      | Some m => call (MetaAbort m e);; mret (Some e, fc_newdoc fc)
      | None => mret (Some e, fc_newdoc fc)
      end
  | None =>
      match fc_err fc with
      | Some e => mret (Some e, fc_newdoc fc)
      | None =>
          newdoc ← Close_metadata fc;
          match check_integrity newdoc (md5sum (fc_hash fc)) (fc_w fc) with
          | (Some e, newdoc) => mret (Some e, newdoc)
          | (None, newdoc) =>
              err ← match fc_olddoc fc with
                    | Some olddoc => call (IdxUpdateFileDoc olddoc newdoc)
                    | None => call (IdxCreateFileDoc newdoc)
                    end;
              mret (err, newdoc)
          end
      end
  end.

(** The deferred function of [Close]; the errors of its backend calls are
    dropped. *)
Definition Close_deferred (fc : aferoFileCreation) (err : option error)
  : prog unit :=
  match err, fc_olddoc fc with
  | None, Some _ => call (FsRemove (fc_bakpath fc));; mret tt
  | Some _, Some _ =>
      call (FsRename (fc_bakpath fc) (fc_newpath fc));; mret tt
  | Some _, None => call (FsRemove (fc_newpath fc));; mret tt
  | None, None => mret tt
  end.

Definition Close (fc : aferoFileCreation) : prog (option error * FileDoc) :=
  '(err, newdoc) ← Close_body fc;
  Close_deferred fc err;;
  mret (err, newdoc).

End WithHash.

Definition UpdateDirDoc (olddoc newdoc : DirDoc) : prog (option error) :=
  if bool_decide (Fullpath newdoc ≠ Fullpath olddoc) then
    err ← safeRenameDir (Fullpath olddoc) (Fullpath newdoc);
    match err with
    | Some e => mret (Some e)
    | None => call (IdxUpdateDirDoc olddoc newdoc)
    end
  else call (IdxUpdateDirDoc olddoc newdoc).

Definition DestroyFile (doc : FileDoc) : prog (option error) :=
  r ← call (FilePath doc);
  match r with
  | inr e => mret (Some e)
  | inl pth =>
      err ← call (FsRemove pth);
      match err with
      | Some e => mret (Some e)
      | None => call (IdxDeleteFileDoc doc)
      end
  end.

(** Modelled from the spec: the Indexer's [DirIterator], of package vfs, is
    not part of the sources.  It is "a lazy, finite, non-restartable
    sequence of (subdirectory | file) terminated by an end-of-iteration
    sentinel": an [entry] is a document together with, for a directory, the
    sequence its iterator yields; [Next] pops the head of the sequence and
    answers [ErrIteratorDone] on the empty one. *)
#[warnings="-register-all"]
Inductive entry : Type :=
| EFile (f : FileDoc)
| EDir (d : DirDoc) (children : list entry).

Fixpoint DestroyEntry (e : entry) : prog (option error) :=
  match e with
  | EFile f => DestroyFile f
  | EDir doc children =>
      (* DestroyDirAndContent *)
      err ← (fix loop (iter : list entry) : prog (option error) :=
               match iter with
               | [] => mret None
               | c :: iter' =>
                   err ← DestroyEntry c;
                   match err with
                   | Some e => mret (Some e)
                   | None => loop iter'
                   end
               end) children;
      match err with
      | Some e => mret (Some e)
      | None =>
          r ← call (DirPath doc);
          match r with
          | inr e => mret (Some e)
          | inl dirpath =>
              err ← call (FsRemoveAll dirpath);
              match err with
              | Some e => mret (Some e)
              | None => call (IdxDeleteDirDoc doc)
              end
          end
      end
  end.

(** [DestroyDirContent], on the sequence the directory's iterator yields. *)
Fixpoint DestroyDirContent (iter : list entry) : prog (option error) :=
  match iter with
  | [] => mret None
  | c :: iter' =>
      err ← DestroyEntry c;
      match err with
      | Some e => mret (Some e)
      | None => DestroyDirContent iter'
      end
  end.

Definition DestroyDirAndContent (doc : DirDoc) (children : list entry)
  : prog (option error) :=
  err ← DestroyDirContent children;
  match err with
  | Some e => mret (Some e)
  | None =>
      r ← call (DirPath doc);
      match r with
      | inr e => mret (Some e)
      | inl dirpath =>
          err ← call (FsRemoveAll dirpath);
          match err with
          | Some e => mret (Some e)
          | None => call (IdxDeleteDirDoc doc)
          end
      end
  end.

(** [url.URL], with the fields [New] reads and its [String()]. *)
Record URL : Type := mkURL {
  Scheme : string;
  Path : string;
  URLString : string
}.

(** The [afero.Fs] that [New] builds. *)
Inductive backend : Type :=
| BasePathOsFs (base : string)    (* afero.NewBasePathFs(afero.NewOsFs(), base) *)
| MemMapFs.                       (* afero.NewMemMapFs() *)

(** [aferoVFS]; the Indexer is part of the environment. *)
Record aferoVFS : Type := mkAferoVFS {
  afs_fs : backend;
  afs_pth : string;
  afs_osFS : bool
}.

Definition New (fsURL : URL) (domain : string) : aferoVFS + error :=
  if negb (String.eqb (Scheme fsURL) "mem") && String.eqb (Path fsURL) ""
  then inr (ErrOther ("vfsafero: please check the supplied fs url: "
                      ++ URLString fsURL))
  else if String.eqb domain ""
  then inr (ErrOther "vfsafero: specified domain is empty")
  else
    let pth := path.Join [Path fsURL; domain] in
    if String.eqb (Scheme fsURL) "file"
    then inl (mkAferoVFS (BasePathOsFs pth) pth true)
    else if String.eqb (Scheme fsURL) "mem"
    then inl (mkAferoVFS MemMapFs pth false)
    else inr (ErrOther ("vfsafero: non supported scheme " ++ Scheme fsURL)).

Section WithTrash.

(** [vfs.TrashDirName], a constant of package vfs. *)
Variable TrashDirName : string.

Definition InitFs (afs : aferoVFS) : prog (option error) :=
  err ← call IdxInitIndex;
  match err with
  | Some e => mret (Some e)
  | None =>
      err ← (if afs_osFS afs then call (OsMkdirAll (afs_pth afs) 493)
             else mret None);
      match err with
      | Some e => mret (Some e)
      | None =>
          err ← call (FsMkdir TrashDirName 493);
          match err with
          | Some e => if negb (IsExist e) then mret (Some e) else mret None
          | None => mret None
          end
      end
  end.

End WithTrash.

Definition Delete (afs : aferoVFS) : prog (option error) :=
  if afs_osFS afs then call (OsRemoveAll (afs_pth afs)) else mret None.

Definition CreateDir (doc : DirDoc) : prog (option error) :=
  r ← call (DirPath doc);
  match r with
  | inr e => mret (Some e)
  | inl pth =>
      err ← call (FsMkdir pth 493);
      match err with
      | Some e => mret (Some e)
      | None =>
          err ← call (IdxCreateDirDoc doc);
          match err with
          | Some e => call (FsRemove pth);; mret (Some e)
          | None => mret None
          end
      end
  end.

(** [aferoVFS.UpdateFileDoc], which overrides the Indexer's. *)
Definition UpdateFileDoc (olddoc newdoc : FileDoc) : prog (option error) :=
  err ← (if bool_decide (DirID newdoc ≠ DirID olddoc)
            || bool_decide (DocName newdoc ≠ DocName olddoc)
         then
           r ← call (FilePath olddoc);
           match r with
           | inr e => mret (Some e)
           | inl oldpath =>
               r ← call (FilePath newdoc);
               match r with
               | inr e => mret (Some e)
               | inl newpath => safeRenameFile oldpath newpath
               end
           end
         else mret None);
  match err with
  | Some e => mret (Some e)
  | None =>
      err ← (if bool_decide (Executable newdoc ≠ Executable olddoc)
             then
               r ← call (FilePath newdoc);
               match r with
               | inr e => mret (Some e)
               | inl newpath => call (FsChmod newpath (Mode newdoc))
               end
             else mret None);
      match err with
      | Some e => mret (Some e)
      | None => call (IdxUpdateFileDoc olddoc newdoc)
      end
  end.

(** [aferoFileOpen]: a file handle opened for reading. *)
Record aferoFileOpen : Type := mkFileOpen { fo_f : File }.

Definition OpenFile (doc : FileDoc) : prog (aferoFileOpen + error) :=
  r ← call (FilePath doc);
  match r with
  | inr e => mret (inr e)
  | inl name =>
      f ← call (FsOpen name);
      match f with
      | inr e => mret (inr e)
      | inl f => mret (inl (mkFileOpen f))
      end
  end.

(** [aferoFileOpen.Write], and [Read] and [Seek] of [aferoFileCreation]. *)
Definition FileOpen_Write (f : aferoFileOpen) (p : bytes)
  : prog (Z * option error) := mret (0%Z, Some ErrInvalid).

Definition FileCreation_Read (fc : aferoFileCreation) (p : bytes)
  : prog (Z * option error) := mret (0%Z, Some ErrInvalid).

Definition FileCreation_Seek (fc : aferoFileCreation) (offset whence : Z)
  : prog (Z * option error) := mret (0%Z, Some ErrInvalid).

End vfsafero.

(** ** Package apps: the copiers *)

Module apps.

Section WithCodecs.

(** [compress/gzip] at [gzip.BestCompression]: the compressed stream of the
    bytes written. *)
Variable gzip : bytes -> bytes.
(** [magic.MIMETypeByExtension] and the sniffing of
    [magic.MIMETypeFromReader], which hands back a reader of the same
    content. *)
Variable MIMETypeByExtension : string -> string.
Variable MIMETypeFromReader : Reader -> string * Reader.

Record swiftCopier : Type := mkSwiftCopier {
  sc_appObj : string;
  sc_tmpObj : string;
  sc_container : string;
  sc_started : bool
}.

Record aferoCopier : Type := mkAferoCopier {
  ac_appDir : string;
  ac_tmpDir : string;
  ac_started : bool
}.

(** [NewSwiftCopier], given the container name of the application type. *)
Definition NewSwiftCopier (container : string) : swiftCopier :=
  mkSwiftCopier "" "" container false.

Definition NewAferoCopier : aferoCopier := mkAferoCopier "" "" false.

Definition panic_msg : string := "copier should call Start() before Copy()".

(** The content type of a copied file. *)
Definition content_type (stat : FileInfo) (src : Reader) : string * Reader :=
  let contentType := MIMETypeByExtension (path.Ext (fi_name stat)) in
  let '(contentType, src) :=
    if String.eqb contentType "" then MIMETypeFromReader src
    else (contentType, src) in
  if String.eqb contentType "" then ("application/octet-stream", src)
  else (contentType, src).

(** [swift.Metadata.ObjectHeaders] *)
Definition ObjectHeaders (m : list (string * string)) : list (string * string) :=
  List.map (fun kv : string * string => (("X-Object-Meta-" ++ kv.1)%string, kv.2)) m.

(** *** swiftCopier *)

Definition swift_Start (f : swiftCopier) (slug version : string)
  : prog (swiftCopier * (bool * option error)) :=
  let f := mkSwiftCopier (path.Join [slug; version]) (sc_tmpObj f)
                         (sc_container f) (sc_started f) in
  err ← call (SwObject (sc_container f) (sc_appObj f));
  match err with
  | None => mret (f, (true, None))
  | Some e =>
      if bool_decide (e ≠ ObjectNotFound) then mret (f, (false, Some e))
      else
        err ← call (SwContainer (sc_container f));
        created ←
          (if bool_decide (err = Some ContainerNotFound) then
             err ← call (SwContainerCreate (sc_container f));
             mret (if err is Some e then inr e else inl None)
           else mret (inl err));
        match created with
        | inr e => mret (f, (false, Some e))
        | inl err =>
            rnd ← call (RandomString 20);
            mret (mkSwiftCopier (sc_appObj f) ("tmp-" ++ rnd ++ "/")
                                (sc_container f) true,
                  (false, err))
        end
  end.

(** [swiftCopier.Copy].  The compressor hands its output to the object
    when it is closed; the two deferred closes run in reverse order of
    their registration. *)
Definition swift_Copy (f : swiftCopier) (stat : FileInfo) (src : Reader)
  : prog (option error) :=
  if negb (sc_started f) then Panic panic_msg
  else
    let objName := path.Join [sc_tmpObj f; fi_name stat] in
    let objMeta := [("content-encoding", "gzip");
                    ("original-content-length", pretty (fi_size stat))] in
    let '(contentType, src) := content_type stat src in
    file ← call (SwObjectCreate (sc_container f) objName true ""
                                contentType (ObjectHeaders objMeta));
    match file with
    | inr e => mret (Some e)
    | inl file =>
        (* io.Copy(gw, src) *)
        let err := rd_err src in
        (* deferred: gw.Close() *)
        '(_, errc) ← call (SwFileWrite file (gzip (rd_data src)));
        let err := if err is None then errc else err in
        (* deferred: file.Close() *)
        errc ← call (SwFileClose file);
        mret (if errc is Some e then Some e else err)
    end.

Definition swift_Abort (f : swiftCopier) : prog (option error) :=
  r ← call (SwObjectNamesAll (sc_container f) (sc_tmpObj f));
  match r with
  | inr e => mret (Some e)
  | inl objectNames => call (SwBulkDelete (sc_container f) objectNames)
  end.

(** The final name of a staged object. *)
Definition dst_name (f : swiftCopier) (srcObjectName : string) : string :=
  path.Join [sc_appObj f; strings.TrimPrefix srcObjectName (sc_tmpObj f)].

(** The end of [swiftCopier.Commit]: the object at [appObj]. *)
Definition swift_marker (f : swiftCopier) : prog (option error) :=
  o ← call (SwObjectCreate (sc_container f) (sc_appObj f) true "" "" []);
  match o with
  | inr e => mret (Some e)
  | inl o => call (SwFileClose o)
  end.

(** The loop of [swiftCopier.Commit] over the staged object names. *)
Fixpoint swift_moves (f : swiftCopier) (objectNames : list string)
  : prog (option error) :=
  match objectNames with
  | [] => swift_marker f
  | srcObjectName :: rest =>
      err ← call (SwObjectMove (sc_container f) srcObjectName
                               (sc_container f) (dst_name f srcObjectName));
      match err with
      | Some _ => swift_Abort f
      | None => swift_moves f rest
      end
  end.

Definition swift_Commit (f : swiftCopier) : prog (option error) :=
  r ← call (SwObjectNamesAll (sc_container f) (sc_tmpObj f));
  match r with
  | inr e => mret (Some e)
  | inl objectNames => swift_moves f objectNames
  end.

(** *** aferoCopier *)

Definition afero_Start (f : aferoCopier) (slug version : string)
  : prog (aferoCopier * (bool * option error)) :=
  let f := mkAferoCopier (path.Join ["/"; slug; version]) (ac_tmpDir f)
                         (ac_started f) in
  '(exists_, err) ← call (FsDirExists (ac_appDir f));
  if bool_decide (err ≠ None) || exists_ then mret (f, (exists_, err))
  else
    let dir := path.Dir (ac_appDir f) in
    err ← call (FsMkdirAll dir 493);
    match err with
    | Some e => mret (f, (false, Some e))
    | None =>
        r ← call (FsTempDir dir "tmp");
        match r with
        | inr e =>
            mret (mkAferoCopier (ac_appDir f) "" (ac_started f), (false, Some e))
        | inl tmpDir =>
            mret (mkAferoCopier (ac_appDir f) tmpDir true, (false, None))
        end
    end.

Definition afero_Copy (f : aferoCopier) (stat : FileInfo) (src : Reader)
  : prog (option error) :=
  if negb (ac_started f) then Panic panic_msg
  else
    let fullpath := (path.Join [ac_tmpDir f; fi_name stat] ++ ".gz")%string in
    let dir := path.Dir fullpath in
    err ← call (FsMkdirAll dir 493);
    match err with
    | Some e => mret (Some e)
    | None =>
        dst ← call (FsCreate fullpath);
        match dst with
        | inr e => mret (Some e)
        | inl dst =>
            (* io.Copy(gw, src) *)
            let err := rd_err src in
            (* deferred: gw.Close() *)
            '(_, errc) ← call (FileWrite dst (gzip (rd_data src)));
            let err := if err is None then errc else err in
            (* deferred: dst.Close() *)
            errc ← call (FileClose dst);
            mret (if errc is Some e then Some e else err)
        end
    end.

Definition afero_Commit (f : aferoCopier) : prog (option error) :=
  call (FsRename (ac_tmpDir f) (ac_appDir f)).

Definition afero_Abort (f : aferoCopier) : prog (option error) :=
  call (FsRemoveAll (ac_tmpDir f)).

End WithCodecs.

End apps.

(** ** A reference environment

    An in-memory store in the manner of afero's [MemMapFs], a document
    index and a Swift account, all of which may fail: [faults] scripts, for
    each request that reaches the backend, the index or the object store,
    whether it fails and with which error.  An empty script is a healthy
    environment.  The backend is the in-memory one: requests to the file
    system of the host are answered and change nothing. *)

Module Env.

Record World : Type := mkWorld {
  files : gmap string bytes;          (* afero: regular files by path *)
  dirs : gset string;                 (* afero: directories *)
  tmp_count : nat;                    (* afero: temporary names handed out *)
  file_docs : gmap string FileDoc;    (* index: file documents by id *)
  dir_docs : gmap string DirDoc;      (* index: directory documents by id *)
  objects : gmap string bytes;        (* swift: objects by container/name *)
  containers : gset string;           (* swift: containers *)
  seed : nat;                         (* utils.RandomString *)
  faults : list (option error)
}.

Definition with_files (w : World) (fs : gmap string bytes) : World :=
  mkWorld fs (dirs w) (tmp_count w) (file_docs w) (dir_docs w) (objects w)
          (containers w) (seed w) (faults w).
Definition with_dirs (w : World) (ds : gset string) : World :=
  mkWorld (files w) ds (tmp_count w) (file_docs w) (dir_docs w) (objects w)
          (containers w) (seed w) (faults w).
Definition with_tmp_count (w : World) (n : nat) : World :=
  mkWorld (files w) (dirs w) n (file_docs w) (dir_docs w) (objects w)
          (containers w) (seed w) (faults w).
Definition with_file_docs (w : World) (ds : gmap string FileDoc) : World :=
  mkWorld (files w) (dirs w) (tmp_count w) ds (dir_docs w) (objects w)
          (containers w) (seed w) (faults w).
Definition with_dir_docs (w : World) (ds : gmap string DirDoc) : World :=
  mkWorld (files w) (dirs w) (tmp_count w) (file_docs w) ds (objects w)
          (containers w) (seed w) (faults w).
Definition with_objects (w : World) (os : gmap string bytes) : World :=
  mkWorld (files w) (dirs w) (tmp_count w) (file_docs w) (dir_docs w) os
          (containers w) (seed w) (faults w).
Definition with_containers (w : World) (cs : gset string) : World :=
  mkWorld (files w) (dirs w) (tmp_count w) (file_docs w) (dir_docs w)
          (objects w) cs (seed w) (faults w).
Definition with_seed (w : World) (n : nat) : World :=
  mkWorld (files w) (dirs w) (tmp_count w) (file_docs w) (dir_docs w)
          (objects w) (containers w) n (faults w).
Definition with_faults (w : World) (fl : list (option error)) : World :=
  mkWorld (files w) (dirs w) (tmp_count w) (file_docs w) (dir_docs w)
          (objects w) (containers w) (seed w) fl.

(** The empty, healthy environment: only the root directory exists. *)
Definition empty : World :=
  mkWorld ∅ {["/"]} 0 ∅ ∅ ∅ ∅ 0 [].

(** Requests served by the environment's stores, which may fail. *)
Definition fallible (o : op) : bool :=
  match o with
  | MetaNew _ | MetaWrite _ _ | MetaAbort _ _ | MetaClose _ | MetaResult _
  | RandomString _ | DirPath _ => false
  | _ => true
  end.

(** The answer of a failed request. *)
Definition failure (o : op) (e : error) : resp o :=
  match o with
  | FsStat _ | FsRename _ _ | FsRemove _ | FsRemoveAll _ | FsMkdirAll _ _
  | FileClose _ | SwFileClose _ => Some e
  | FsMkdir _ _ | FsChmod _ _ | OsMkdirAll _ _ | OsRemoveAll _ => Some e
  | IdxCreateDirDoc _ | IdxInitIndex => Some e
  | FsOpen _ => inr e
  | FsOpenFile _ _ _ | FsCreate _ => inr e
  | FsDirExists _ => (false, Some e)
  | FsTempDir _ _ => inr e
  | FileWrite _ _ | SwFileWrite _ _ => (0%Z, Some e)
  | IdxCreateFileDoc _ | IdxUpdateFileDoc _ _ | IdxDeleteFileDoc _
  | IdxUpdateDirDoc _ _ | IdxDeleteDirDoc _ => Some e
  | FilePath _ | DirPath _ => inr e
  | MetaNew _ => None
  | MetaWrite _ _ | MetaClose _ => Some e
  | MetaAbort _ _ => tt
  | MetaResult _ => []
  | SwObject _ _ | SwContainer _ | SwContainerCreate _ | SwBulkDelete _ _
  | SwObjectMove _ _ _ _ => Some e
  | SwObjectNamesAll _ _ => inr e
  | SwObjectCreate _ _ _ _ _ _ => inr e
  | RandomString _ => ""
  end.

Definition exists_path (w : World) (p : string) : bool :=
  bool_decide (is_Some (files w !! p)) || bool_decide (p ∈ dirs w).

(** Is [p] the path [a] or a path below it? *)
Definition under (a p : string) : bool :=
  String.eqb p a || strings.HasPrefix p (a ++ "/").

(** [p], with its prefix [a] replaced by [b]. *)
Definition rebase (a b p : string) : string :=
  if under a p then (b ++ strings.TrimPrefix p a)%string else p.

(** A path and its ancestors. *)
Definition ancestors (p : string) : list string :=
  List.map (fun es => ("/" ++ path.join_slash es)%string)
           (List.map (fun n => take n (path.elems p))
                     (seq 0 (S (List.length (path.elems p))))).

Definition object_key (container name : string) : string :=
  (container ++ "/" ++ name)%string.

(** A name of [n] characters drawn from the seed. *)
Definition random_name (n : nat) (s : nat) : string :=
  String.substring 0 n
    (pretty s ++ string_of_list_ascii (List.repeat "x"%char n)).

(** The healthy answer to each request. *)
Definition serve (o : op) (w : World) : resp o * World :=
  match o return resp o * World with
  | FsStat name =>
      (if exists_path w name then None
       else Some (PathError "open" name ErrNotExist), w)
  | FsRename oldname newname =>
      match files w !! oldname with
      | Some c => (None, with_files w (<[newname := c]> (delete oldname (files w))))
      | None =>
          if bool_decide (oldname ∈ dirs w) then
            (None,
             with_dirs
               (with_files w (kmap (rebase oldname newname) (files w)))
               (set_map (rebase oldname newname) (dirs w)))
          else (Some (PathError "rename" oldname ErrNotExist), w)
      end
  | FsRemove name =>
      if exists_path w name
      then (None, with_dirs (with_files w (delete name (files w)))
                            (dirs w ∖ {[name]}))
      else (Some (PathError "remove" name ErrNotExist), w)
  | FsRemoveAll name =>
      (None, with_dirs
               (with_files w (filter (fun kv => negb (under name kv.1)) (files w)))
               (filter (fun p => negb (under name p)) (dirs w)))
  | FsMkdirAll name _ =>
      (None, with_dirs w (dirs w ∪ list_to_set (ancestors name)))
  | FsMkdir name _ =>
      if exists_path w name then (Some (PathError "mkdir" name ErrExist), w)
      else (None, with_dirs w (dirs w ∪ {[name]}))
  | FsChmod name _ =>
      (if exists_path w name then None
       else Some (PathError "chmod" name ErrNotExist), w)
  | FsOpen name =>
      (if bool_decide (is_Some (files w !! name)) then inl name
       else inr (PathError "open" name ErrNotExist), w)
  | OsMkdirAll _ _ => (None, w)
  | OsRemoveAll _ => (None, w)
  | IdxCreateDirDoc doc =>
      (None, with_dir_docs w (<[DirDocID doc := doc]> (dir_docs w)))
  | IdxInitIndex => (None, w)
  | FsOpenFile name _ _ =>
      if exists_path w name then (inr (PathError "open" name ErrExist), w)
      else (inl name, with_files w (<[name := []]> (files w)))
  | FsCreate name => (inl name, with_files w (<[name := []]> (files w)))
  | FsDirExists name => ((bool_decide (name ∈ dirs w), None), w)
  | FsTempDir dir pre =>
      let name := path.Join [dir; (pre ++ pretty (tmp_count w))%string] in
      (inl name, with_tmp_count (with_dirs w (dirs w ∪ {[name]}))
                                (S (tmp_count w)))
  | FileWrite f p =>
      match files w !! f with
      | Some c => ((Z.of_nat (List.length p), None),
                   with_files w (<[f := c ++ p]> (files w)))
      | None => ((0%Z, Some (PathError "write" f ErrNotExist)), w)
      end
  | FileClose _ => (None, w)
  | IdxCreateFileDoc doc =>
      (None, with_file_docs w (<[DocID doc := doc]> (file_docs w)))
  | IdxUpdateFileDoc _ newdoc =>
      (None, with_file_docs w (<[DocID newdoc := newdoc]> (file_docs w)))
  | IdxDeleteFileDoc doc =>
      (None, with_file_docs w (delete (DocID doc) (file_docs w)))
  | IdxUpdateDirDoc _ newdoc =>
      (None, with_dir_docs w (<[DirDocID newdoc := newdoc]> (dir_docs w)))
  | IdxDeleteDirDoc doc =>
      (None, with_dir_docs w (delete (DirDocID doc) (dir_docs w)))
  | FilePath doc =>
      (match dir_docs w !! DirID doc with
       | Some d => inl (path.Join [Fullpath d; DocName doc])
       | None => inr (ErrOther "parent directory does not exist")
       end, w)
  | DirPath doc => (inl (Fullpath doc), w)
  | MetaNew _ => (None, w)
  | MetaWrite _ _ => (None, w)
  | MetaAbort _ _ => (tt, w)
  | MetaClose _ => (None, w)
  | MetaResult _ => ([], w)
  | SwObject container name =>
      (if objects w !! object_key container name is Some _ then None
       else Some ObjectNotFound, w)
  | SwContainer container =>
      (if bool_decide (container ∈ containers w) then None
       else Some ContainerNotFound, w)
  | SwContainerCreate container =>
      (None, with_containers w (containers w ∪ {[container]}))
  | SwObjectNamesAll container pre =>
      (inl (List.map (fun k => strings.TrimPrefix k (container ++ "/"))
              (List.filter (fun k => strings.HasPrefix k (object_key container pre))
                           (map_to_list (objects w)).*1)), w)
  | SwBulkDelete container names =>
      (None, with_objects w
               (foldr (fun n os => delete (object_key container n) os)
                      (objects w) names))
  | SwObjectMove srcContainer src dstContainer dst =>
      match objects w !! object_key srcContainer src with
      | Some c =>
          (None, with_objects w
                   (<[object_key dstContainer dst := c]>
                      (delete (object_key srcContainer src) (objects w))))
      | None => (Some ObjectNotFound, w)
      end
  | SwObjectCreate container name _ _ _ _ =>
      (inl (object_key container name),
       with_objects w (<[object_key container name := []]> (objects w)))
  | SwFileWrite f p =>
      match objects w !! f with
      | Some c => ((Z.of_nat (List.length p), None),
                   with_objects w (<[f := c ++ p]> (objects w)))
      | None => ((0%Z, Some ObjectNotFound), w)
      end
  | SwFileClose _ => (None, w)
  | RandomString n => (random_name n (seed w), with_seed w (S (seed w)))
  end.

(** The environment: a fallible request consumes one entry of the fault
    script and fails, leaving the stores as they are, if the entry says
    so. *)
Definition handle : @handler World := fun o w =>
  if fallible o then
    match faults w with
    | Some e :: fl => (failure o e, with_faults w fl)
    | None :: fl => serve o (with_faults w fl)
    | [] => serve o w
    end
  else serve o w.

End Env.


Arguments path.Clean : simpl never.
Arguments path.IsAbs : simpl never.
Arguments path.Join : simpl never.
Arguments strings.HasPrefix : simpl never.
Arguments vfsafero.backup_path : simpl never.
Arguments vfsafero.Close_deferred : simpl never.
Arguments apps.swift_marker : simpl never.
Arguments apps.swift_Abort : simpl never.
Arguments vfsafero.DestroyEntry : simpl never.
Arguments vfsafero.DestroyFile : simpl never.
Arguments vfsafero.safeRenameFile : simpl never.
Arguments vfsafero.safeRenameDir : simpl never.
Arguments vfsafero.Close : simpl never.
Arguments vfsafero.Write : simpl never.

(** ** Vocabulary of the properties *)

(** The claim's notion of descendant, on cleaned absolute paths: the
    elements of the source path are a strict prefix of the elements of the
    destination. *)
Definition strict_descendant (dst src : string) : bool :=
  bool_decide (path.elems src `prefix_of` path.elems dst) &&
  bool_decide (path.elems src ≠ path.elems dst).

(** The declared hash disagrees with the digest of what was written. *)
Definition hash_mismatch (newdoc : FileDoc) (sum : bytes) : Prop :=
  exists s, MD5Sum newdoc = Some s /\ s <> sum.

(** The declared size disagrees with the number of bytes written. *)
Definition size_mismatch (newdoc : FileDoc) (written : Z) : Prop :=
  (0 <= ByteSize newdoc)%Z /\ ByteSize newdoc <> written.

#[global] Instance hash_mismatch_dec newdoc sum : Decision (hash_mismatch newdoc sum).
Proof.
  unfold hash_mismatch. destruct (MD5Sum newdoc) as [s|].
  - destruct (decide (s = sum)) as [->|Hne].
    + right. intros (s' & [= <-] & Hs). congruence.
    + left. eauto.
  - right. intros (s' & [=] & _).
Defined.

#[global] Instance size_mismatch_dec newdoc written : Decision (size_mismatch newdoc written).
Proof. unfold size_mismatch. apply _. Defined.

(** The backend calls of the deferred function of [Close]. *)
Definition rollback_ops (fc : vfsafero.aferoFileCreation) (err : option error)
  : list op :=
  match err, vfsafero.fc_olddoc fc with
  | None, Some _ => [FsRemove (vfsafero.fc_bakpath fc)]
  | Some _, Some _ =>
      [FsRename (vfsafero.fc_bakpath fc) (vfsafero.fc_newpath fc)]
  | Some _, None => [FsRemove (vfsafero.fc_newpath fc)]
  | None, None => []
  end.

(** The answer of the Indexer to the call that ends [Close]. *)
Definition index_answer {W} (h : @handler W) (fc : vfsafero.aferoFileCreation)
    (newdoc : FileDoc) (w : W) : option error * W :=
  match vfsafero.fc_olddoc fc with
  | Some olddoc => h (IdxUpdateFileDoc olddoc newdoc) w
  | None => h (IdxCreateFileDoc newdoc) w
  end.

(** A caller that issues one [Write] per chunk, whatever they return. *)
Fixpoint write_each (fc : vfsafero.aferoFileCreation) (chunks : list bytes)
  : prog vfsafero.aferoFileCreation :=
  match chunks with
  | [] => mret fc
  | p :: ps => '(fc, _) ← vfsafero.Write fc p; write_each fc ps
  end.

(** The move of one staged object by [swiftCopier.Commit]. *)
Definition move_op (f : apps.swiftCopier) (srcObjectName : string) : op :=
  SwObjectMove (apps.sc_container f) srcObjectName
               (apps.sc_container f) (apps.dst_name f srcObjectName).

(** Every move of the listed staged objects, in order, is answered without
    error: the world after the last one. *)
Fixpoint all_moved {W} (h : @handler W) (f : apps.swiftCopier)
    (objectNames : list string) (w : W) : option W :=
  match objectNames with
  | [] => Some w
  | n :: rest =>
      match h (move_op f n) w with
      | (None, w1) => all_moved h f rest w1
      | (Some _, _) => None
      end
  end.

(** Operations that write bytes into, create or move an object or a file. *)
Definition is_write (o : op) : bool :=
  match o with
  | FileWrite _ _ | SwFileWrite _ _ => true
  | _ => false
  end.

Definition is_create (o : op) : bool :=
  match o with
  | FsOpenFile _ _ _ | FsCreate _ | SwObjectCreate _ _ _ _ _ _ => true
  | _ => false
  end.

Definition is_move (o : op) : bool :=
  match o with
  | SwObjectMove _ _ _ _ | FsRename _ _ => true
  | _ => false
  end.

(** The documents of a tree in post-order: the children of a directory, in
    the order of its iterator, before the directory itself. *)
Fixpoint postorder (e : vfsafero.entry) : list op :=
  match e with
  | vfsafero.EFile f => [IdxDeleteFileDoc f]
  | vfsafero.EDir d children =>
      (fix go (cs : list vfsafero.entry) : list op :=
         match cs with
         | [] => []
         | c :: cs' => postorder c ++ go cs'
         end) children ++ [IdxDeleteDirDoc d]
  end.

Fixpoint postorder_all (cs : list vfsafero.entry) : list op :=
  match cs with
  | [] => []
  | c :: cs' => postorder c ++ postorder_all cs'
  end.

(** The calls by which a directory removes itself, once its content is
    gone. *)
Definition remove_dir (doc : DirDoc) : prog (option error) :=
  r ← call (DirPath doc);
  match r with
  | inr e => mret (Some e)
  | inl dirpath =>
      err ← call (FsRemoveAll dirpath);
      match err with
      | Some e => mret (Some e)
      | None => call (IdxDeleteDirDoc doc)
      end
  end.

Definition is_chmod (o : op) : bool :=
  match o with
  | FsChmod _ _ => true
  | _ => false
  end.

Definition is_stat (o : op) : bool :=
  match o with
  | FsStat _ => true
  | _ => false
  end.

(** Requests to the file system of the host. *)
Definition is_os_op (o : op) : bool :=
  match o with
  | OsMkdirAll _ _ | OsRemoveAll _ => true
  | _ => false
  end.

Arguments postorder : simpl never.

(** What every run of a destruction guarantees: it returns, the documents
    it asked the Indexer to delete are an initial segment of [order], and
    all of it when no error is returned. *)
Definition destroys {W} (h : @handler W) (p : prog (option error))
    (order : list op) : Prop :=
  forall w, exists r w1 t,
    run h p w = (Returned r, w1, t) /\
    List.filter is_index_write t `prefix_of` order /\
    (r = None -> List.filter is_index_write t = order).

(** The worlds [w] and [w'] differ at most by their files. *)
Definition same_but_files (w w' : Env.World) : Prop :=
  Env.dirs w' = Env.dirs w /\ Env.tmp_count w' = Env.tmp_count w /\
  Env.file_docs w' = Env.file_docs w /\ Env.dir_docs w' = Env.dir_docs w /\
  Env.objects w' = Env.objects w /\ Env.containers w' = Env.containers w /\
  Env.seed w' = Env.seed w /\ Env.faults w' = Env.faults w.

(** In the reference environment, the next request is not scripted to
    fail. *)
Definition next_ok (w : Env.World) : bool :=
  match Env.faults w with
  | Some _ :: _ => false
  | _ => true
  end.

(** ** Fixtures *)

Module Fixtures.

(** A root directory document, a file [/foo] in it, and its previous
    revision. *)
Definition root : DirDoc := mkDirDoc "root" "1-r" "/".
Definition foo (size : Z) (sum : option bytes) : FileDoc :=
  mkFileDoc "" "" "root" "foo" 0 size sum false None.
Definition foo_old : FileDoc :=
  mkFileDoc "id1" "1-a" "root" "foo" 0 3 None false None.

(** An environment whose index knows the root directory. *)
Definition indexed : Env.World :=
  Env.with_dir_docs Env.empty {["root" := root]}.

(** The same, with [/foo] holding [content]. *)
Definition with_foo (content : bytes) : Env.World :=
  Env.with_files indexed {["/foo" := content]}.

Definition abc : bytes := list_byte_of_string "abc".
Definition hello : bytes := list_byte_of_string "hello".

(** A stand-in for the digest: the bytes themselves. *)
Definition plain_sum (b : bytes) : bytes := b.

(** A caller of the write pipeline: create the file, write the chunks
    until one fails, close. *)
Fixpoint write_chunks (fc : vfsafero.aferoFileCreation) (chunks : list bytes)
  : prog vfsafero.aferoFileCreation :=
  match chunks with
  | [] => mret fc
  | p :: ps =>
      '(fc, (_, err)) ← vfsafero.Write fc p;
      if err is Some _ then mret fc else write_chunks fc ps
  end.

Definition open_and_write (newdoc : FileDoc) (olddoc : option FileDoc)
    (chunks : list bytes) : prog (option vfsafero.aferoFileCreation) :=
  r ← vfsafero.CreateFile newdoc olddoc;
  match r with
  | inr _ => mret None
  | inl fc => fc ← write_chunks fc chunks; mret (Some fc)
  end.

Definition upload (md5sum : bytes -> bytes) (newdoc : FileDoc)
    (olddoc : option FileDoc) (chunks : list bytes) : prog (option error) :=
  r ← vfsafero.CreateFile newdoc olddoc;
  match r with
  | inr e => mret (Some e)
  | inl fc =>
      fc ← write_chunks fc chunks;
      '(err, _) ← vfsafero.Close md5sum fc;
      mret err
  end.

(** The session that overwrites [/foo], after [hello] was written, and the
    backend at that point: the previous content sits at the backup path. *)
Definition overwrite_session (size : Z) (sum : option bytes)
  : vfsafero.aferoFileCreation :=
  vfsafero.mkFileCreation "/foo" 5
    (SetCreatedAt (SetRev (SetID (foo size sum) "id1") "1-a") 0)
    (Some foo_old) "/foo" "/.id1_1-a" hello None None.

Definition overwrite_world : Env.World :=
  Env.with_files indexed {["/.id1_1-a" := abc; "/foo" := hello]}.

(** The session that creates [/foo], after [hello] was written. *)
Definition create_session (size : Z) (sum : option bytes)
  : vfsafero.aferoFileCreation :=
  vfsafero.mkFileCreation "/foo" 5 (foo size sum) None "/foo" "" hello None None.

Definition create_world : Env.World :=
  Env.with_files indexed {["/foo" := hello]}.

(** The reference environment, except that a metadata extractor is
    attached to every new file and refuses whatever it is fed. *)
Definition with_picky_extractor : @handler Env.World := fun o w =>
  match o as o' return resp o' * Env.World with
  | MetaNew _ => (Some 0, w)
  | MetaWrite _ _ => (Some (ErrOther "unsupported format"), w)
  | o' => Env.handle o' w
  end.

(** A directory [/d] holding the files [a] and [b]; the document [ghost]
    has no object in the backend. *)
Definition dir_d : DirDoc := mkDirDoc "d" "1-d" "/d".
Definition file_in_d (name : string) : FileDoc :=
  mkFileDoc name "1-f" "d" name 0 3 None false None.

Definition tree_world : Env.World :=
  Env.with_file_docs
    (Env.with_dir_docs
       (Env.with_dirs
          (Env.with_files Env.empty {["/d/a" := abc; "/d/b" := hello]})
          {["/"; "/d"]})
       {["root" := root; "d" := dir_d]})
    {["a" := file_in_d "a"; "b" := file_in_d "b"; "ghost" := file_in_d "ghost"]}.

(** Stand-ins for the codecs of the copiers: no compression, no type
    known. *)
Definition store (b : bytes) : bytes := b.
Definition no_type (ext : string) : string := "".
Definition no_sniff (r : Reader) : string * Reader := ("", r).

Definition manifest : FileInfo := mkFileInfo "manifest.json" 10.
Definition manifest_src : Reader :=
  mkReader (list_byte_of_string "0123456789") None.
Definition icon : FileInfo := mkFileInfo "icon.png" 3.
Definition icon_src : Reader := mkReader abc None.

(** The swift copier after [Start("weather", "1.0.0")] on the empty
    account. *)
Definition weather : apps.swiftCopier :=
  apps.mkSwiftCopier "weather/1.0.0" "tmp-0xxxxxxxxxxxxxxxxxxx/" "apps" true.

(** [Start], then the two files copied into the staging namespace. *)
Definition swift_stage : prog apps.swiftCopier :=
  '(c, _) ← apps.swift_Start (apps.NewSwiftCopier "apps") "weather" "1.0.0";
  apps.swift_Copy store no_type no_sniff c manifest manifest_src;;
  apps.swift_Copy store no_type no_sniff c icon icon_src;;
  mret c.

Definition swift_staged : Env.World := final Env.handle swift_stage Env.empty.

Definition swift_committed : Env.World :=
  final Env.handle (apps.swift_Commit weather) swift_staged.

(** The afero copier after [Start("weather", "1.0.0")] on the empty
    backend. *)
Definition weather_fs : apps.aferoCopier :=
  apps.mkAferoCopier "/weather/1.0.0" "/weather/tmp0" true.

Definition afero_stage : prog apps.aferoCopier :=
  '(c, _) ← apps.afero_Start apps.NewAferoCopier "weather" "1.0.0";
  apps.afero_Copy store c manifest manifest_src;;
  apps.afero_Copy store c icon icon_src;;
  mret c.

Definition afero_staged : Env.World := final Env.handle afero_stage Env.empty.

Definition afero_committed : Env.World :=
  final Env.handle (apps.afero_Commit weather_fs) afero_staged.

End Fixtures.

(** * Properties *)

(** Closed goals: split the conjunctions, then evaluate each part. *)
Ltac compute_conj :=
  intros;
  repeat match goal with |- _ /\ _ => split end;
  vm_compute;
  repeat match goal with |- _ /\ _ => split end;
  first [reflexivity | discriminate | intro; discriminate | congruence].

Example Clean_examples :
  path.Clean "/a//b/./c/.." = "/a/b" /\ path.Clean "/../a/" = "/a" /\
  path.Clean "a/../.." = ".." /\ path.Clean "" = "." /\ path.Clean "/" = "/" /\
  path.Join ["weather"; "1.0.0"] = "weather/1.0.0" /\
  path.Join ["/"; "weather"; "1.0.0"] = "/weather/1.0.0" /\
  path.Dir "/weather/1.0.0" = "/weather" /\ path.Dir "/weather" = "/" /\
  strings.TrimPrefix "tmp-x/a/b" "tmp-x/" = "a/b" /\
  path.Ext "a.b/icon.png" = ".png" /\ path.Ext "a.b/icon" = "".
Proof. repeat split; reflexivity. Qed.

Example strict_descendant_examples :
  strict_descendant "/a/b/a" "/a" = true /\ strict_descendant "/a" "/a" = false /\
  strict_descendant "/ab" "/a" = false /\ strict_descendant "/c" "/a" = false /\
  strict_descendant "/a" "/" = true.
Proof. compute_conj. Qed.

(** Symbolic execution: answer the next operation issued in a world that
    is a variable. *)
Ltac answer h :=
  match goal with
  | |- context [h ?o ?w] =>
      is_var w;
      let x := fresh "x" in
      let w' := fresh "w" in
      let E := fresh "E" in
      destruct (h o w) as [x w'] eqn:E; simpl in x; simpl
  | H : context [h ?o ?w] |- _ =>
      is_var w;
      let x := fresh "x" in
      let w' := fresh "w" in
      let E := fresh "E" in
      destruct (h o w) as [x w'] eqn:E; simpl in x; simpl in H
  end.

(** ** Running programs *)

Section RunLemmas.
Context {W : Type} (h : @handler W).

Lemma run_bind {A B} (p : prog A) (f : A -> prog B) (w : W) :
  run h (bind p f) w =
  match run h p w with
  | (Returned a, w1, t1) =>
      let '(r, w2, t2) := run h (f a) w1 in (r, w2, t1 ++ t2)
  | (Panicked msg, w1, t1) => (Panicked msg, w1, t1)
  end.
Proof.
  revert w. induction p as [a|msg|o k IH]; intros w; simpl.
  - destruct (run h (f a) w) as [[r w2] t2]. reflexivity.
  - reflexivity.
  - destruct (h o w) as [x w1]. rewrite IH.
    destruct (run h (k x) w1) as [[[a|msg] w2] t1]; [|reflexivity].
    destruct (run h (f a) w2) as [[r w3] t2]. reflexivity.
Qed.

Lemma run_mbind {A B} (p : prog A) (f : A -> prog B) (w : W) :
  run h (p ≫= f) w =
  match run h p w with
  | (Returned a, w1, t1) =>
      let '(r, w2, t2) := run h (f a) w1 in (r, w2, t1 ++ t2)
  | (Panicked msg, w1, t1) => (Panicked msg, w1, t1)
  end.
Proof. apply run_bind. Qed.

Lemma run_Vis {R} (o : op) (k : resp o -> prog R) (w : W) :
  run h (Vis o k) w =
  let '(r, w2, tr) := run h (k (h o w).1) (h o w).2 in (r, w2, o :: tr).
Proof. simpl. destruct (h o w). reflexivity. Qed.

Lemma result_Vis {R} (o : op) (k : resp o -> prog R) (w : W) :
  result h (Vis o k) w = result h (k (h o w).1) (h o w).2.
Proof.
  unfold result. rewrite run_Vis.
  destruct (run h (k (h o w).1) (h o w).2) as [[r w2] tr]. reflexivity.
Qed.

Lemma final_Vis {R} (o : op) (k : resp o -> prog R) (w : W) :
  final h (Vis o k) w = final h (k (h o w).1) (h o w).2.
Proof.
  unfold final. rewrite run_Vis.
  destruct (run h (k (h o w).1) (h o w).2) as [[r w2] tr]. reflexivity.
Qed.

Lemma result_bind {A B} (p : prog A) (f : A -> prog B) (w : W) :
  result h (p ≫= f) w =
  match result h p w with
  | Returned a => result h (f a) (final h p w)
  | Panicked msg => Panicked msg
  end.
Proof.
  unfold result, final. rewrite run_mbind.
  destruct (run h p w) as [[[a|msg] w1] t1]; simpl; [|reflexivity].
  destruct (run h (f a) w1) as [[r w2] t2]. reflexivity.
Qed.

Lemma final_bind {A B} (p : prog A) (f : A -> prog B) (w : W) :
  final h (p ≫= f) w =
  match result h p w with
  | Returned a => final h (f a) (final h p w)
  | Panicked msg => final h p w
  end.
Proof.
  unfold result, final. rewrite run_mbind.
  destruct (run h p w) as [[[a|msg] w1] t1]; simpl; [|reflexivity].
  destruct (run h (f a) w1) as [[r w2] t2]. reflexivity.
Qed.

Lemma run_call_bind {R} (o : op) (k : resp o -> prog R) (w : W) :
  run h (call o ≫= k) w =
  let '(x, w1) := h o w in
  let '(r, w2, t) := run h (k x) w1 in (r, w2, o :: t).
Proof. reflexivity. Qed.

End RunLemmas.

Lemma clean_is_abs (p : string) :
  path.IsAbs p = true -> path.IsAbs (path.Clean p) = true.
Proof.
  intros H. unfold path.Clean. rewrite H.
  destruct p as [|c p]; [discriminate|]. reflexivity.
Qed.

(** ** Overwrite protocol: the backup rename of [CreateFile] *)



Section CreateFile.
Context {W : Type} (h : @handler W).

(** C2: when [CreateFile] overwrites a document and the backup rename
    fails, it returns [ErrConflict] if the failure is a not-exist error
    (the source was already moved by a concurrent writer) and the rename's
    own error otherwise; in no case is the returned error a not-exist
    error. *)
Theorem CreateFile_backup_rename_failure
    (w w1 : W) (newdoc olddoc : FileDoc) (newpath : string) (e : error) :
  h (FilePath newdoc) w = (inl newpath, w1) ->
  result h (vfsafero.safeRenameFile newpath (vfsafero.backup_path olddoc)) w1
    = Returned (Some e) ->
  let r := result h (vfsafero.CreateFile newdoc (Some olddoc)) w in
  (IsNotExist e = true -> r = Returned (inr ErrConflict)) /\
  (IsNotExist e = false -> r = Returned (inr e)) /\
  (forall e', r = Returned (inr e') -> IsNotExist e' = false).
Proof.
  intros Hp Hr r.
  assert (Er : r = Returned (inr (if IsNotExist e then ErrConflict else e))).
  { subst r. unfold vfsafero.CreateFile, result in *. simpl. rewrite Hp. simpl.
    rewrite run_mbind.
    destruct (run h _ w1) as [[r1 w2] t1]. simpl in Hr. subst r1. reflexivity. }
  rewrite Er. repeat split.
  - intros ->. reflexivity.
  - intros ->. reflexivity.
  - intros e' [= <-]. destruct (IsNotExist e) eqn:He; [reflexivity | exact He].
Qed.

(** When the backup path is free and the backend's rename answers with an
    error, that error is what [safeRenameFile] returns. *)
Lemma safeRenameFile_rename_error (w w1 w2 : W) (newpath bakpath : string) e0 e :
  path.IsAbs newpath = true -> path.IsAbs bakpath = true ->
  h (FsStat (path.Clean bakpath)) w = (Some e0, w1) -> IsNotExist e0 = true ->
  h (FsRename (path.Clean newpath) (path.Clean bakpath)) w1 = (Some e, w2) ->
  result h (vfsafero.safeRenameFile newpath bakpath) w = Returned (Some e).
Proof.
  intros Hn Hb Hs He0 Hr. unfold vfsafero.safeRenameFile, result.
  rewrite !clean_is_abs by assumption. simpl. rewrite Hs, He0. simpl.
  rewrite Hr. reflexivity.
Qed.

End CreateFile.

(** The loser of a race: [/foo] was already moved away. *)
Lemma CreateFile_backup_rename_failure_witness :
  Env.handle (FilePath (Fixtures.foo 3 None)) Fixtures.indexed
    = (inl "/foo", Fixtures.indexed) /\
  result Env.handle
    (vfsafero.safeRenameFile "/foo" (vfsafero.backup_path Fixtures.foo_old))
    Fixtures.indexed = Returned (Some (PathError "rename" "/foo" ErrNotExist)) /\
  result Env.handle
    (vfsafero.CreateFile (Fixtures.foo 3 None) (Some Fixtures.foo_old))
    Fixtures.indexed = Returned (inr ErrConflict).
Proof.
  assert (H1 : Env.handle (FilePath (Fixtures.foo 3 None)) Fixtures.indexed
               = (inl "/foo", Fixtures.indexed)) by (vm_compute; reflexivity).
  assert (H2 : result Env.handle
    (vfsafero.safeRenameFile "/foo" (vfsafero.backup_path Fixtures.foo_old))
    Fixtures.indexed = Returned (Some (PathError "rename" "/foo" ErrNotExist)))
    by (vm_compute; reflexivity).
  split; [exact H1|]. split; [exact H2|].
  apply (CreateFile_backup_rename_failure Env.handle _ _ _ _ _ _ H1 H2).
  reflexivity.
Defined.

(** ** Directory moves: the validations of [safeRenameDir] *)

Section RenameDir.
Context {W : Type} (h : @handler W).

(** The validations in the order the code performs them, and what reaches
    the backend in each case. *)
Lemma safeRenameDir_validation (oldpath newpath : string) (w : W) :
  let old := path.Clean oldpath in
  let new := path.Clean newpath in
  let r := run h (vfsafero.safeRenameDir oldpath newpath) w in
  (path.IsAbs new && path.IsAbs old = false ->
     r = (Returned (Some ErrNonAbsolutePath), w, [])) /\
  (path.IsAbs new && path.IsAbs old = true ->
   strings.HasPrefix new (old ++ "/") = true ->
     r = (Returned (Some ErrForbiddenDocMove), w, [])) /\
  (path.IsAbs new && path.IsAbs old = true ->
   strings.HasPrefix new (old ++ "/") = false ->
   forall st w1, h (FsStat new) w = (st, w1) ->
     match st with
     | None => r = (Returned (Some ErrExist), w1, [FsStat new])
     | Some e =>
         if IsNotExist e
         then r = (Returned (h (FsRename old new) w1).1,
                   (h (FsRename old new) w1).2,
                   [FsStat new; FsRename old new])
         else r = (Returned (Some e), w1, [FsStat new])
     end).
Proof.
  intros old new r. subst r old new. unfold vfsafero.safeRenameDir.
  repeat split.
  - intros H. apply andb_false_iff in H as [->| ->]; simpl;
      rewrite ?orb_true_r; reflexivity.
  - intros [-> ->]%andb_true_iff ->. reflexivity.
  - intros [-> ->]%andb_true_iff -> st w1 Hs. simpl. rewrite Hs.
    destruct st as [e|]; [|reflexivity].
    destruct (IsNotExist e); simpl; [|reflexivity].
    destruct (h (FsRename _ _) w1). reflexivity.
Qed.

(** C6, at the root: [/a] is a strict descendant of [/], yet when [/a] does
    not exist [safeRenameDir "/" "/a"] is not refused: the rename reaches
    the backend and its answer is returned. *)
Theorem safeRenameDir_root_not_refused (w w1 : W) (e : error) :
  h (FsStat "/a") w = (Some e, w1) -> IsNotExist e = true ->
  strict_descendant (path.Clean "/a") (path.Clean "/") = true /\
  run h (vfsafero.safeRenameDir "/" "/a") w =
    (Returned (h (FsRename "/" "/a") w1).1, (h (FsRename "/" "/a") w1).2,
     [FsStat "/a"; FsRename "/" "/a"]).
Proof.
  intros Hs He. split; [vm_compute; reflexivity|].
  pose proof (safeRenameDir_validation "/" "/a" w) as (_ & _ & H).
  specialize (H eq_refl eq_refl _ _ Hs). simpl in H. rewrite He in H. exact H.
Qed.

End RenameDir.

(** On the reference backend the root is moved under [/a] and nil is
    returned. *)
Lemma safeRenameDir_root_not_refused_witness :
  Env.handle (FsStat "/a") Env.empty
    = (Some (PathError "open" "/a" ErrNotExist), Env.empty) /\
  IsNotExist (PathError "open" "/a" ErrNotExist) = true /\
  result Env.handle (vfsafero.safeRenameDir "/" "/a") Env.empty = Returned None /\
  trace Env.handle (vfsafero.safeRenameDir "/" "/a") Env.empty
    = [FsStat "/a"; FsRename "/" "/a"].
Proof.
  assert (H1 : Env.handle (FsStat "/a") Env.empty
    = (Some (PathError "open" "/a" ErrNotExist), Env.empty))
    by (vm_compute; reflexivity).
  split; [exact H1|]. split; [reflexivity|].
  destruct (safeRenameDir_root_not_refused Env.handle _ _ _ H1 eq_refl) as [_ H].
  unfold result, trace. rewrite H. split; [vm_compute|]; reflexivity.
Defined.

(** ** The write session: [Close] *)

Section CloseSession.
Variable md5sum : bytes -> bytes.
Context {W : Type} (h : @handler W).

Import vfsafero.



Lemma check_integrity_hash newdoc sum written :
  hash_mismatch newdoc sum ->
  check_integrity newdoc sum written = (Some ErrInvalidHash, newdoc).
Proof.
  intros (s & Hs & Hne). unfold check_integrity. rewrite Hs. simpl.
  unfold bytes_Equal. rewrite Hs. simpl. rewrite bool_decide_eq_false_2 by exact Hne.
  reflexivity.
Qed.

Lemma hash_check_passes newdoc sum :
  ~ hash_mismatch newdoc sum ->
  bytes_Equal (MD5Sum (if MD5Sum newdoc is None then SetMD5Sum newdoc sum else newdoc)) sum
    = true.
Proof.
  intros Hn. unfold bytes_Equal. apply bool_decide_eq_true_2.
  destruct (MD5Sum newdoc) as [s|] eqn:Hs; simpl; [|reflexivity].
  rewrite Hs. simpl. destruct (decide (s = sum)); [assumption|].
  exfalso. apply Hn. exists s. auto.
Qed.

Lemma check_integrity_size newdoc sum written :
  ~ hash_mismatch newdoc sum -> size_mismatch newdoc written ->
  (check_integrity newdoc sum written).1 = Some ErrContentLengthMismatch.
Proof.
  intros Hn [Hge Hne]. unfold check_integrity.
  rewrite hash_check_passes by exact Hn. simpl.
  replace (ByteSize (if MD5Sum newdoc is None then SetMD5Sum newdoc sum else newdoc))
    with (ByteSize newdoc) by (destruct (MD5Sum newdoc); reflexivity).
  destruct (Z.ltb_spec (ByteSize newdoc) 0); [lia|].
  destruct (Z.eqb_spec (ByteSize (if MD5Sum newdoc is None then SetMD5Sum newdoc sum else newdoc)) written) as [E|E];
    [|reflexivity].
  exfalso. apply Hne. rewrite <- E. destruct (MD5Sum newdoc); reflexivity.
Qed.

Lemma check_integrity_pass newdoc sum written :
  ~ hash_mismatch newdoc sum -> ~ size_mismatch newdoc written ->
  exists doc, check_integrity newdoc sum written = (None, doc) /\
    MD5Sum doc = Some (default sum (MD5Sum newdoc)) /\ ByteSize doc = written.
Proof.
  intros Hn Hs. unfold check_integrity.
  rewrite hash_check_passes by exact Hn. simpl.
  assert (Hb : ByteSize (if MD5Sum newdoc is None then SetMD5Sum newdoc sum else newdoc)
               = ByteSize newdoc) by (destruct (MD5Sum newdoc); reflexivity).
  assert (Hm : MD5Sum (if MD5Sum newdoc is None then SetMD5Sum newdoc sum else newdoc)
               = Some (default sum (MD5Sum newdoc)))
    by (destruct (MD5Sum newdoc) eqn:E; simpl; [exact E | reflexivity]).
  rewrite Hb.
  destruct (Z.ltb_spec (ByteSize newdoc) 0) as [Hlt|Hge]; simpl.
  - rewrite Z.eqb_refl. simpl. eexists. split; [reflexivity|]. simpl. auto.
  - rewrite Hb. destruct (Z.eqb_spec (ByteSize newdoc) written) as [E|E]; simpl.
    + eexists. split; [reflexivity|]. split; [exact Hm | congruence].
    + exfalso. apply Hs. split; assumption.
Qed.

(** With no expectation declared, the digest and the count are adopted and
    both checks pass. *)
Lemma check_integrity_undeclared newdoc sum written :
  MD5Sum newdoc = None -> (ByteSize newdoc < 0)%Z ->
  check_integrity newdoc sum written
    = (None, SetByteSize (SetMD5Sum newdoc sum) written).
Proof.
  intros Hm Hb. unfold check_integrity. rewrite Hm. simpl.
  unfold bytes_Equal. simpl. rewrite bool_decide_eq_true_2 by reflexivity. simpl.
  destruct (Z.ltb_spec (ByteSize newdoc) 0); [|lia]. simpl.
  rewrite Z.eqb_refl. reflexivity.
Qed.

(** The metadata block returns the document with its declared hash and size
    untouched, and reaches neither the backend nor the Indexer. *)
Lemma Close_metadata_run (fc : aferoFileCreation) (w : W) :
  exists doc w2 tm,
    run h (Close_metadata fc) w = (Returned doc, w2, tm) /\
    MD5Sum doc = MD5Sum (fc_newdoc fc) /\
    ByteSize doc = ByteSize (fc_newdoc fc) /\
    List.filter is_fs_op tm = [] /\ List.filter is_index_write tm = [].
Proof.
  unfold Close_metadata. destruct (fc_meta fc) as [m|]; simpl.
  - answer h. destruct x as [e|]; simpl.
    + do 3 eexists. split; [reflexivity|]. auto.
    + answer h. do 3 eexists. split; [reflexivity|]. auto.
  - do 3 eexists. split; [reflexivity|]. auto.
Qed.



Lemma Close_deferred_run (fc : aferoFileCreation) (err : option error) (w : W) :
  run h (Close_deferred fc err) w =
  (Returned tt, final h (Close_deferred fc err) w, rollback_ops fc err).
Proof.
  unfold Close_deferred, rollback_ops, final.
  destruct err, (fc_olddoc fc); simpl; try reflexivity; answer h; reflexivity.
Qed.



Lemma Close_from_body (fc : aferoFileCreation) (w w2 : W) err doc t :
  run h (Close_body md5sum fc) w = (Returned (err, doc), w2, t) ->
  run h (Close md5sum fc) w =
  (Returned (err, doc), final h (Close_deferred fc err) w2,
   t ++ rollback_ops fc err).
Proof.
  intros H. unfold vfsafero.Close. rewrite run_mbind, H.
  cbv beta iota. rewrite run_mbind, Close_deferred_run. simpl.
  rewrite app_nil_r. reflexivity.
Qed.

(** [Close], once the backend has closed the file and when no write error
    was recorded. *)
Lemma Close_run (fc : aferoFileCreation) (w w1 w2 : W) doc0 tm :
  h (FileClose (fc_f fc)) w = (None, w1) ->
  fc_err fc = None ->
  run h (Close_metadata fc) w1 = (Returned doc0, w2, tm) ->
  run h (Close md5sum fc) w =
  match check_integrity doc0 (md5sum (fc_hash fc)) (fc_w fc) with
  | (Some e, doc) =>
      (Returned (Some e, doc), final h (Close_deferred fc (Some e)) w2,
       FileClose (fc_f fc) :: tm ++ rollback_ops fc (Some e))
  | (None, doc) =>
      let '(err, w3) := index_answer h fc doc w2 in
      (Returned (err, doc), final h (Close_deferred fc err) w3,
       FileClose (fc_f fc) :: tm ++ Close_index fc doc :: rollback_ops fc err)
  end.
Proof.
  intros Hc He Hm.
  destruct (check_integrity doc0 _ _) as [[e|] doc] eqn:Hk.
  - rewrite (Close_from_body fc w w2 (Some e) doc (FileClose (fc_f fc) :: tm));
      [reflexivity|].
    unfold Close_body. rewrite run_mbind. simpl. rewrite Hc, He.
    rewrite run_mbind, Hm, Hk. simpl. rewrite app_nil_r. reflexivity.
  - destruct (index_answer h fc doc w2) as [err w3] eqn:Hi.
    rewrite (Close_from_body fc w w3 err doc
               (FileClose (fc_f fc) :: tm ++ [Close_index fc doc])).
    { simpl. rewrite <- app_assoc. reflexivity. }
    unfold Close_body. rewrite run_mbind. simpl. rewrite Hc, He.
    rewrite run_mbind, Hm, Hk.
    unfold index_answer, Close_index in *.
    destruct (fc_olddoc fc) as [o|]; simpl; rewrite Hi; reflexivity.
Qed.

(** [Close] when the backend fails to close the file, or when a write error
    was recorded: that error is returned, after the same rollback. *)
Lemma Close_run_failed (fc : aferoFileCreation) (w w1 : W) cerr e :
  h (FileClose (fc_f fc)) w = (cerr, w1) ->
  (cerr = Some e \/ cerr = None /\ fc_err fc = Some e) ->
  result h (Close md5sum fc) w = Returned (Some e, fc_newdoc fc) /\
  List.filter is_fs_op (trace h (Close md5sum fc) w)
    = FileClose (fc_f fc) :: rollback_ops fc (Some e) /\
  List.filter is_index_write (trace h (Close md5sum fc) w) = [].
Proof.
  intros Hc Hcase.
  assert (exists t w2, run h (Close_body md5sum fc) w
                    = (Returned (Some e, fc_newdoc fc), w2, FileClose (fc_f fc) :: t)
                    /\ List.filter is_fs_op t = [] /\ List.filter is_index_write t = [])
    as (t & w2 & Hb & Hf & Hi).
  { unfold Close_body. rewrite run_mbind. simpl. rewrite Hc.
    destruct Hcase as [-> | [-> He]].
    - destruct (fc_meta fc) as [m|]; simpl.
      + answer h. do 2 eexists. split; [reflexivity|]. auto.
      + do 2 eexists. split; [reflexivity|]. auto.
    - rewrite He. simpl. do 2 eexists. split; [reflexivity|]. auto. }
  unfold result, trace. rewrite (Close_from_body _ _ _ _ _ _ Hb). simpl.
  rewrite !List.filter_app, Hf, Hi. simpl.
  unfold rollback_ops. destruct (fc_olddoc fc); auto.
Qed.

End CloseSession.

(** *** [Close] on the reference backend *)

Section CloseEnv.
Variable md5sum : bytes -> bytes.
Import vfsafero.



Lemma Env_FileClose_frame (f : File) (w : Env.World) :
  Env.files (Env.handle (FileClose f) w).2 = Env.files w /\
  Env.file_docs (Env.handle (FileClose f) w).2 = Env.file_docs w.
Proof.
  unfold Env.handle. simpl. destruct (Env.faults w) as [|[?|] ?]; auto.
Qed.

Lemma Env_Close_metadata_frame (fc : aferoFileCreation) (w : Env.World) :
  final Env.handle (Close_metadata fc) w = w /\
  exists d, result Env.handle (Close_metadata fc) w = Returned d.
Proof. unfold Close_metadata. destruct (fc_meta fc); simpl; eauto. Qed.

(** The body of [Close] leaves every file of the backend as it is, and the
    documents of the index too when it returns an error. *)
Lemma Env_Close_body_frame (fc : aferoFileCreation) (w : Env.World) :
  Env.files (final Env.handle (Close_body md5sum fc) w) = Env.files w /\
  (forall e doc,
     result Env.handle (Close_body md5sum fc) w = Returned (Some e, doc) ->
     Env.file_docs (final Env.handle (Close_body md5sum fc) w) = Env.file_docs w).
Proof.
  unfold Close_body. rewrite final_bind, result_bind. unfold call.
  rewrite result_Vis, final_Vis. simpl result at 1 2. simpl final at 2 4.
  pose proof (Env_FileClose_frame (fc_f fc) w) as [Hf Hd].
  destruct (Env.handle (FileClose (fc_f fc)) w) as [cerr w1]. simpl in *.
  rewrite <- Hf, <- Hd. clear Hf Hd.
  destruct cerr as [e0|].
  { destruct (fc_meta fc); split; reflexivity. }
  destruct (fc_err fc); [split; reflexivity|].
  rewrite final_bind, result_bind.
  change (final Env.handle (Ret None) w1) with w1.
  destruct (Env_Close_metadata_frame fc w1) as [Hm [d Hd]]. rewrite Hd, Hm.
  destruct (check_integrity d _ _) as [[e0|] doc0]; [split; reflexivity|].
  destruct (fc_olddoc fc); simpl; unfold final, result; simpl;
    unfold Env.handle; simpl;
    destruct (Env.faults w1) as [|[?|] ?]; simpl; split; try reflexivity;
    intros ? ? [=].
Qed.

(** The deferred function never touches the index. *)
Lemma Env_deferred_docs (fc : aferoFileCreation) (err : option error)
    (w : Env.World) :
  Env.file_docs (final Env.handle (Close_deferred fc err) w) = Env.file_docs w.
Proof.
  unfold Close_deferred, final.
  destruct err, (fc_olddoc fc); simpl; try reflexivity;
    unfold Env.handle; simpl;
    destruct (Env.faults w) as [|[?|] ?]; simpl; try reflexivity;
    repeat (case_match; simplify_eq/=); reflexivity.
Qed.

(** The rollback of an overwrite puts the backup back at the final path. *)
Lemma Env_rollback_restores (fc : aferoFileCreation) (w : Env.World) o c e :
  fc_olddoc fc = Some o ->
  Env.files w !! fc_bakpath fc = Some c ->
  next_ok w = true ->
  let w' := final Env.handle (Close_deferred fc (Some e)) w in
  Env.files w' !! fc_newpath fc = Some c /\
  (fc_bakpath fc <> fc_newpath fc -> Env.files w' !! fc_bakpath fc = None) /\
  Env.file_docs w' = Env.file_docs w.
Proof.
  intros Ho Hc Hok. unfold Close_deferred, final, next_ok in *. rewrite Ho. simpl.
  unfold Env.handle. simpl.
  destruct (Env.faults w) as [|[?|] ?]; try discriminate Hok; simpl;
    rewrite Hc; simpl; (split; [apply lookup_insert_eq|]);
    (split; [|reflexivity]); intros Hne;
    rewrite lookup_insert_ne by auto; apply lookup_delete_eq.
Qed.

(** The rollback of a creation removes the new file. *)
Lemma Env_rollback_removes (fc : aferoFileCreation) (w : Env.World) e :
  fc_olddoc fc = None ->
  next_ok w = true ->
  let w' := final Env.handle (Close_deferred fc (Some e)) w in
  Env.files w' !! fc_newpath fc = None /\
  Env.file_docs w' = Env.file_docs w.
Proof.
  intros Ho Hok. unfold Close_deferred, final, next_ok in *. rewrite Ho. simpl.
  unfold Env.handle. simpl.
  destruct (Env.faults w) as [|[?|] ?]; try discriminate Hok; simpl;
    unfold Env.exists_path; simpl;
    destruct (Env.files w !! fc_newpath fc) eqn:Hn; simpl;
    try (split; [apply lookup_delete_eq | reflexivity]);
    case_bool_decide; simpl; rewrite ?lookup_delete_eq; auto.
Qed.

End CloseEnv.

(** [Close] returns what its body returns, after the deferred function has
    run in the world the body leaves. *)
Lemma Close_final (md5sum : bytes -> bytes) {W} (h : @handler W)
    (fc : vfsafero.aferoFileCreation) (w : W) :
  exists err doc,
    result h (vfsafero.Close_body md5sum fc) w = Returned (err, doc) /\
    result h (vfsafero.Close md5sum fc) w = Returned (err, doc) /\
    final h (vfsafero.Close md5sum fc) w
      = final h (vfsafero.Close_deferred fc err)
              (final h (vfsafero.Close_body md5sum fc) w).
Proof.
  assert (exists err doc w2 t,
            run h (vfsafero.Close_body md5sum fc) w = (Returned (err, doc), w2, t))
    as (err & doc & w2 & t & Hb).
  { unfold vfsafero.Close_body. rewrite run_mbind. simpl.
    destruct (h (FileClose _) w) as [[e|] w1]; simpl.
    - destruct (vfsafero.fc_meta fc); simpl.
      + answer h. eauto 10.
      + eauto 10.
    - destruct (vfsafero.fc_err fc); simpl; [eauto 10|].
      rewrite run_mbind.
      destruct (Close_metadata_run h fc w1) as (d & w2 & tm & -> & _).
      destruct (vfsafero.check_integrity d _ _) as [[e|] doc]; simpl; [eauto 10|].
      destruct (vfsafero.fc_olddoc fc); simpl; answer h; eauto 10. }
  exists err, doc. unfold result, final.
  rewrite (Close_from_body md5sum h fc w w2 err doc t Hb), Hb. auto.
Qed.

(** C1, as the code has it.  On any backend: once the backend has closed
    the file and when no write error was recorded, a declared hash that
    disagrees with the digest of the written bytes makes [Close] return
    [ErrInvalidHash], and otherwise a declared size that disagrees with the
    written count makes it return [ErrContentLengthMismatch]; the Indexer
    is not asked to create or update any document, and the backend sees the
    close followed by the rollback: the backup renamed onto the final path
    when a document is overwritten, the new file removed otherwise.  On the
    reference backend, when the rollback request is served, the index is
    unchanged and the final path holds the content the backup held (or no
    file at all for a creation). *)
Theorem Close_integrity_failure (md5sum : bytes -> bytes) :
  (forall (W : Type) (h : @handler W) (fc : vfsafero.aferoFileCreation) (w w1 : W),
     h (FileClose (vfsafero.fc_f fc)) w = (None, w1) ->
     vfsafero.fc_err fc = None ->
     hash_mismatch (vfsafero.fc_newdoc fc) (md5sum (vfsafero.fc_hash fc)) \/
     size_mismatch (vfsafero.fc_newdoc fc) (vfsafero.fc_w fc) ->
     (exists doc,
        result h (vfsafero.Close md5sum fc) w =
        Returned (Some (if decide (hash_mismatch (vfsafero.fc_newdoc fc)
                                                 (md5sum (vfsafero.fc_hash fc)))
                        then ErrInvalidHash else ErrContentLengthMismatch), doc)) /\
     List.filter is_index_write (trace h (vfsafero.Close md5sum fc) w) = [] /\
     List.filter is_fs_op (trace h (vfsafero.Close md5sum fc) w) =
       [FileClose (vfsafero.fc_f fc);
        if vfsafero.fc_olddoc fc is Some _
        then FsRename (vfsafero.fc_bakpath fc) (vfsafero.fc_newpath fc)
        else FsRemove (vfsafero.fc_newpath fc)]) /\
  (forall (fc : vfsafero.aferoFileCreation) (w : Env.World) e doc,
     result Env.handle (vfsafero.Close md5sum fc) w = Returned (Some e, doc) ->
     is_integrity_error e = true ->
     next_ok (final Env.handle (vfsafero.Close_body md5sum fc) w) = true ->
     let w' := final Env.handle (vfsafero.Close md5sum fc) w in
     Env.file_docs w' = Env.file_docs w /\
     match vfsafero.fc_olddoc fc with
     | Some _ =>
         forall c, Env.files w !! vfsafero.fc_bakpath fc = Some c ->
                   Env.files w' !! vfsafero.fc_newpath fc = Some c
     | None => Env.files w' !! vfsafero.fc_newpath fc = None
     end).
Proof.
  split.
  - intros W h fc w w1 Hc He Hmis.
    destruct (Close_metadata_run h fc w1) as (d & w2 & tm & Hm & Hsum & Hsize & Hfs & Hidx).
    pose proof (Close_run md5sum h fc w w1 w2 d tm Hc He Hm) as Hrun.
    assert (Hk : exists doc,
               vfsafero.check_integrity d (md5sum (vfsafero.fc_hash fc)) (vfsafero.fc_w fc)
               = (Some (if decide (hash_mismatch (vfsafero.fc_newdoc fc)
                                                 (md5sum (vfsafero.fc_hash fc)))
                        then ErrInvalidHash else ErrContentLengthMismatch), doc)).
    { assert (Hh : hash_mismatch d (md5sum (vfsafero.fc_hash fc)) <->
                   hash_mismatch (vfsafero.fc_newdoc fc) (md5sum (vfsafero.fc_hash fc)))
        by (unfold hash_mismatch; rewrite Hsum; reflexivity).
      assert (Hs : size_mismatch d (vfsafero.fc_w fc) <->
                   size_mismatch (vfsafero.fc_newdoc fc) (vfsafero.fc_w fc))
        by (unfold size_mismatch; rewrite Hsize; reflexivity).
      destruct (decide (hash_mismatch (vfsafero.fc_newdoc fc) _)) as [Hy|Hn].
      - eexists. apply check_integrity_hash. apply Hh, Hy.
      - destruct Hmis as [Hy|Hy]; [contradiction|].
        pose proof (check_integrity_size d (md5sum (vfsafero.fc_hash fc))
                      (vfsafero.fc_w fc)) as Hc'.
        destruct (vfsafero.check_integrity d _ _) as [o doc]. simpl in Hc'.
        rewrite Hc'; [eauto| tauto | tauto]. }
    destruct Hk as [doc Hk]. rewrite Hk in Hrun.
    unfold result, trace. rewrite Hrun. simpl.
    rewrite !List.filter_app, Hfs, Hidx. unfold rollback_ops.
    split; [eauto|]. destruct (vfsafero.fc_olddoc fc); auto.
  - intros fc w e doc Hr _ Hok w'. subst w'.
    destruct (Close_final md5sum Env.handle fc w) as (err & doc' & Hb & Hr' & ->).
    rewrite Hr in Hr'. injection Hr' as <- <-.
    destruct (Env_Close_body_frame md5sum fc w) as [Hf Hd].
    specialize (Hd _ _ Hb).
    destruct (vfsafero.fc_olddoc fc) as [o|] eqn:Ho.
    + split.
      * rewrite <- Hd. apply Env_deferred_docs.
      * intros c Hc. rewrite <- Hf in Hc.
        apply (Env_rollback_restores fc _ o c e Ho Hc Hok).
    + rewrite <- Hd. destruct (Env_rollback_removes fc _ e Ho Hok) as [H1 H2].
      auto.
Qed.

(** The fixtures are what [CreateFile] and [Write] produce. *)
Example overwrite_session_reached (size : Z) (sum : option bytes) :
  run Env.handle
      (Fixtures.open_and_write (Fixtures.foo size sum) (Some Fixtures.foo_old)
                               [Fixtures.hello])
      (Fixtures.with_foo Fixtures.abc)
  = (Returned (Some (Fixtures.overwrite_session size sum)),
     Fixtures.overwrite_world,
     [FilePath (Fixtures.foo size sum); FsStat "/.id1_1-a";
      FsRename "/foo" "/.id1_1-a";
      FsOpenFile "/foo" vfsafero.O_WRONLY_CREATE_EXCL 420;
      MetaNew (SetCreatedAt (SetRev (SetID (Fixtures.foo size sum) "id1") "1-a") 0);
      FileWrite "/foo" Fixtures.hello]).
Proof. vm_compute. reflexivity. Qed.

Example create_session_reached (size : Z) (sum : option bytes) :
  run Env.handle
      (Fixtures.open_and_write (Fixtures.foo size sum) None [Fixtures.hello])
      Fixtures.indexed
  = (Returned (Some (Fixtures.create_session size sum)),
     Fixtures.create_world,
     [FilePath (Fixtures.foo size sum);
      FsOpenFile "/foo" vfsafero.O_WRONLY_CREATE_EXCL 420;
      MetaNew (Fixtures.foo size sum);
      FileWrite "/foo" Fixtures.hello]).
Proof. vm_compute. reflexivity. Qed.

(** An overwrite of [/foo] with a wrong declared hash: [ErrInvalidHash],
    the index untouched, and [/foo] holds its previous content again. *)
Lemma Close_integrity_failure_witness :
  let fc := Fixtures.overwrite_session (-1) (Some Fixtures.abc) in
  let w := Fixtures.overwrite_world in
  (Env.handle (FileClose (vfsafero.fc_f fc)) w = (None, w) /\
   vfsafero.fc_err fc = None /\
   hash_mismatch (vfsafero.fc_newdoc fc)
                 (Fixtures.plain_sum (vfsafero.fc_hash fc))) /\
  (result Env.handle (vfsafero.Close Fixtures.plain_sum fc) w
     = Returned (Some ErrInvalidHash, vfsafero.fc_newdoc fc) /\
   List.filter is_index_write
     (trace Env.handle (vfsafero.Close Fixtures.plain_sum fc) w) = [] /\
   List.filter is_fs_op
     (trace Env.handle (vfsafero.Close Fixtures.plain_sum fc) w)
     = [FileClose "/foo"; FsRename "/.id1_1-a" "/foo"]) /\
  (Env.file_docs (final Env.handle (vfsafero.Close Fixtures.plain_sum fc) w)
     = Env.file_docs w /\
   Env.files (final Env.handle (vfsafero.Close Fixtures.plain_sum fc) w) !! "/foo"
     = Some Fixtures.abc).
Proof.
  intros fc w.
  assert (H1 : Env.handle (FileClose (vfsafero.fc_f fc)) w = (None, w))
    by reflexivity.
  assert (H2 : vfsafero.fc_err fc = None) by reflexivity.
  assert (H3 : hash_mismatch (vfsafero.fc_newdoc fc)
                             (Fixtures.plain_sum (vfsafero.fc_hash fc))).
  { exists Fixtures.abc. split; [reflexivity | discriminate]. }
  assert (Hr : result Env.handle (vfsafero.Close Fixtures.plain_sum fc) w
               = Returned (Some ErrInvalidHash, vfsafero.fc_newdoc fc))
    by (vm_compute; reflexivity).
  destruct (Close_integrity_failure Fixtures.plain_sum) as [Hany Href].
  destruct (Hany _ Env.handle fc w w H1 H2 (or_introl H3)) as (_ & Hi & Hf).
  destruct (Href fc w ErrInvalidHash _ Hr eq_refl eq_refl) as [Hd Hc].
  split; [auto|]. split; [auto|]. split; [exact Hd|].
  apply (Hc Fixtures.abc). reflexivity.
Defined.

(** The claim fails when a write error was recorded: [/foo] is created with
    a declared size of 11 bytes, the second write fails for lack of space
    after 5 bytes, and [Close] returns that write error, not
    [ErrContentLengthMismatch]. *)
Lemma Close_write_error_masks_mismatch :
  let w0 := Env.with_faults Fixtures.indexed [None; None; None; Some ENOSPC] in
  let chunks := [Fixtures.hello; list_byte_of_string " world"] in
  let fc := vfsafero.set_err (Fixtures.create_session 11 None) ENOSPC in
  run Env.handle (Fixtures.open_and_write (Fixtures.foo 11 None) None chunks) w0
    = (Returned (Some fc), Fixtures.create_world,
       [FilePath (Fixtures.foo 11 None);
        FsOpenFile "/foo" vfsafero.O_WRONLY_CREATE_EXCL 420;
        MetaNew (Fixtures.foo 11 None);
        FileWrite "/foo" Fixtures.hello;
        FileWrite "/foo" (list_byte_of_string " world")]) /\
  size_mismatch (vfsafero.fc_newdoc fc) (vfsafero.fc_w fc) /\
  result Env.handle (vfsafero.Close Fixtures.plain_sum fc) Fixtures.create_world
    = Returned (Some ENOSPC, vfsafero.fc_newdoc fc) /\
  is_integrity_error ENOSPC = false /\
  result Env.handle (Fixtures.upload Fixtures.plain_sum (Fixtures.foo 11 None) None chunks) w0
    = Returned (Some ENOSPC).
Proof.
  compute_conj.
Qed.

(** C8, as the code has it.  On any backend: when the file was written and
    closed without error and the declared hash and size are met, but the
    Indexer answers the final call with an error, [Close] returns that
    error and the deferred function rolls the backend back as for any other
    error: the backup is renamed onto the final path when a document is
    overwritten, the new file is removed otherwise.  On the reference
    backend, when the rollback request is served, the final path holds the
    content the backup held (or no file at all for a creation): the newly
    written content does not stay. *)
Theorem Close_index_failure (md5sum : bytes -> bytes) :
  (forall (W : Type) (h : @handler W) (fc : vfsafero.aferoFileCreation)
          (w w1 w2 w3 : W) doc0 tm e,
     h (FileClose (vfsafero.fc_f fc)) w = (None, w1) ->
     vfsafero.fc_err fc = None ->
     ~ hash_mismatch (vfsafero.fc_newdoc fc) (md5sum (vfsafero.fc_hash fc)) ->
     ~ size_mismatch (vfsafero.fc_newdoc fc) (vfsafero.fc_w fc) ->
     run h (vfsafero.Close_metadata fc) w1 = (Returned doc0, w2, tm) ->
     let doc := (vfsafero.check_integrity doc0 (md5sum (vfsafero.fc_hash fc))
                                          (vfsafero.fc_w fc)).2 in
     index_answer h fc doc w2 = (Some e, w3) ->
     result h (vfsafero.Close md5sum fc) w = Returned (Some e, doc) /\
     List.filter is_fs_op (trace h (vfsafero.Close md5sum fc) w) =
       [FileClose (vfsafero.fc_f fc);
        if vfsafero.fc_olddoc fc is Some _
        then FsRename (vfsafero.fc_bakpath fc) (vfsafero.fc_newpath fc)
        else FsRemove (vfsafero.fc_newpath fc)]) /\
  (forall (fc : vfsafero.aferoFileCreation) (w w1 : Env.World) e fl,
     Env.handle (FileClose (vfsafero.fc_f fc)) w = (None, w1) ->
     vfsafero.fc_err fc = None ->
     ~ hash_mismatch (vfsafero.fc_newdoc fc) (md5sum (vfsafero.fc_hash fc)) ->
     ~ size_mismatch (vfsafero.fc_newdoc fc) (vfsafero.fc_w fc) ->
     Env.faults w1 = Some e :: fl ->
     next_ok (Env.with_faults w1 fl) = true ->
     let w' := final Env.handle (vfsafero.Close md5sum fc) w in
     (exists doc, result Env.handle (vfsafero.Close md5sum fc) w
                  = Returned (Some e, doc)) /\
     Env.file_docs w' = Env.file_docs w /\
     match vfsafero.fc_olddoc fc with
     | Some _ =>
         forall c, Env.files w !! vfsafero.fc_bakpath fc = Some c ->
                   Env.files w' !! vfsafero.fc_newpath fc = Some c
     | None => Env.files w' !! vfsafero.fc_newpath fc = None
     end).
Proof.
  assert (Hpass : forall fc doc0,
            MD5Sum doc0 = MD5Sum (vfsafero.fc_newdoc fc) ->
            ByteSize doc0 = ByteSize (vfsafero.fc_newdoc fc) ->
            ~ hash_mismatch (vfsafero.fc_newdoc fc) (md5sum (vfsafero.fc_hash fc)) ->
            ~ size_mismatch (vfsafero.fc_newdoc fc) (vfsafero.fc_w fc) ->
            exists doc, vfsafero.check_integrity doc0 (md5sum (vfsafero.fc_hash fc))
                          (vfsafero.fc_w fc) = (None, doc)).
  { intros fc doc0 Hsum Hsize Hh Hs.
    destruct (check_integrity_pass doc0 (md5sum (vfsafero.fc_hash fc))
                (vfsafero.fc_w fc)) as (doc & Hk & _).
    - unfold hash_mismatch. rewrite Hsum. exact Hh.
    - unfold size_mismatch. rewrite Hsize. exact Hs.
    - eauto. }
  split.
  - intros W h fc w w1 w2 w3 doc0 tm e Hc He Hh Hs Hm doc Hi.
    destruct (Close_metadata_run h fc w1)
      as (d & w2' & tm' & Hm' & Hsum & Hsize & Hfs & Hidx).
    rewrite Hm in Hm'. injection Hm' as <- <- <-.
    destruct (Hpass fc doc0 Hsum Hsize Hh Hs) as [doc' Hk].
    pose proof (Close_run md5sum h fc w w1 w2 doc0 tm Hc He Hm) as Hrun.
    subst doc. rewrite Hk in Hrun, Hi |- *. simpl in Hi |- *. rewrite Hi in Hrun.
    unfold result, trace. rewrite Hrun. simpl.
    split; [reflexivity|].
    rewrite List.filter_app, Hfs. simpl.
    unfold vfsafero.Close_index, rollback_ops.
    destruct (vfsafero.fc_olddoc fc); reflexivity.
  - intros fc w w1 e fl Hc He Hh Hs Hfl Hok w'. subst w'.
    destruct (Close_metadata_run Env.handle fc w1)
      as (d & w2 & tm & Hm & Hsum & Hsize & _).
    assert (w2 = w1) as ->.
    { destruct (Env_Close_metadata_frame fc w1) as [Hw _].
      unfold final in Hw. rewrite Hm in Hw. exact Hw. }
    destruct (Hpass fc d Hsum Hsize Hh Hs) as [doc Hk].
    assert (Hi : index_answer Env.handle fc doc w1 = (Some e, Env.with_faults w1 fl)).
    { unfold index_answer, Env.handle.
      destruct (vfsafero.fc_olddoc fc); simpl; rewrite Hfl; reflexivity. }
    pose proof (Close_run md5sum Env.handle fc w w1 w1 d tm Hc He Hm) as Hrun.
    rewrite Hk, Hi in Hrun. unfold result, final at 1 2 3. rewrite Hrun. simpl.
    pose proof (Env_FileClose_frame (vfsafero.fc_f fc) w) as [Hf Hd].
    rewrite Hc in Hf, Hd. simpl in Hf, Hd.
    split; [eauto|]. split.
    + rewrite Env_deferred_docs. simpl. exact Hd.
    + destruct (vfsafero.fc_olddoc fc) as [o|] eqn:Ho.
      * intros c Hb.
        apply (Env_rollback_restores fc (Env.with_faults w1 fl) o c e Ho);
          [|exact Hok]. simpl. rewrite Hf. exact Hb.
      * apply (Env_rollback_removes fc (Env.with_faults w1 fl) e Ho Hok).
Qed.

(** An overwrite of [/foo] whose index update fails. *)
Lemma Close_index_failure_witness :
  let fc := Fixtures.overwrite_session (-1) None in
  let w := Env.with_faults Fixtures.overwrite_world
             [None; Some (ErrOther "index unavailable")] in
  let w1 := Env.with_faults Fixtures.overwrite_world
              [Some (ErrOther "index unavailable")] in
  (Env.handle (FileClose (vfsafero.fc_f fc)) w = (None, w1) /\
   vfsafero.fc_err fc = None /\
   ~ hash_mismatch (vfsafero.fc_newdoc fc)
                   (Fixtures.plain_sum (vfsafero.fc_hash fc)) /\
   ~ size_mismatch (vfsafero.fc_newdoc fc) (vfsafero.fc_w fc) /\
   Env.faults w1 = [Some (ErrOther "index unavailable")] /\
   next_ok (Env.with_faults w1 []) = true) /\
  (exists doc, result Env.handle (vfsafero.Close Fixtures.plain_sum fc) w
               = Returned (Some (ErrOther "index unavailable"), doc)) /\
  Env.files (final Env.handle (vfsafero.Close Fixtures.plain_sum fc) w) !! "/foo"
    = Some Fixtures.abc.
Proof.
  intros fc w w1.
  assert (H1 : Env.handle (FileClose (vfsafero.fc_f fc)) w = (None, w1))
    by reflexivity.
  assert (H2 : vfsafero.fc_err fc = None) by reflexivity.
  assert (H3 : ~ hash_mismatch (vfsafero.fc_newdoc fc)
                               (Fixtures.plain_sum (vfsafero.fc_hash fc)))
    by (intros (s & Hs & _); discriminate Hs).
  assert (H4 : ~ size_mismatch (vfsafero.fc_newdoc fc) (vfsafero.fc_w fc))
    by (intros [Hs _]; vm_compute in Hs; apply Hs; reflexivity).
  assert (H5 : Env.faults w1 = [Some (ErrOther "index unavailable")])
    by reflexivity.
  assert (H6 : next_ok (Env.with_faults w1 []) = true) by reflexivity.
  destruct (Close_index_failure Fixtures.plain_sum) as [_ Href].
  destruct (Href fc w w1 _ _ H1 H2 H3 H4 H5 H6) as (Hr & _ & Hc).
  split; [auto 10|]. split; [exact Hr|].
  apply (Hc Fixtures.abc). reflexivity.
Defined.

(** The claim fails: [/foo], holding [abc], is overwritten with [hello]
    without declared expectations; the content is written and closed, the
    index update fails.  [Close] returns the Indexer's error, and [/foo]
    holds [abc] again, not [hello]; a new file whose indexing fails is
    removed. *)
Lemma Close_index_failure_rolls_back :
  let down := ErrOther "index unavailable" in
  let w0 := Env.with_faults (Fixtures.with_foo Fixtures.abc)
              [None; None; None; None; None; None; Some down] in
  let p := Fixtures.upload Fixtures.plain_sum (Fixtures.foo (-1) None)
                           (Some Fixtures.foo_old) [Fixtures.hello] in
  let w1 := Env.with_faults Fixtures.indexed [None; None; None; None; Some down] in
  let q := Fixtures.upload Fixtures.plain_sum (Fixtures.foo (-1) None) None
                           [Fixtures.hello] in
  result Env.handle p w0 = Returned (Some down) /\
  List.filter (fun o => is_fs_op o || is_index_write o) (trace Env.handle p w0)
    = [FsStat "/.id1_1-a"; FsRename "/foo" "/.id1_1-a";
       FsOpenFile "/foo" vfsafero.O_WRONLY_CREATE_EXCL 420;
       FileWrite "/foo" Fixtures.hello; FileClose "/foo";
       IdxUpdateFileDoc Fixtures.foo_old
         (SetByteSize (SetMD5Sum (SetCreatedAt (SetRev (SetID (Fixtures.foo (-1) None) "id1") "1-a") 0) Fixtures.hello) 5);
       FsRename "/.id1_1-a" "/foo"] /\
  Env.files (final Env.handle p w0) !! "/foo" = Some Fixtures.abc /\
  Env.files (final Env.handle p w0) !! "/foo" <> Some Fixtures.hello /\
  result Env.handle q w1 = Returned (Some down) /\
  Env.files (final Env.handle q w1) !! "/foo" = None.
Proof.
  compute_conj.
Qed.

Section NoExpectations.
Variable md5sum : bytes -> bytes.
Context {W : Type} (h : @handler W).

(** C10: when no expected hash and no expected size are declared, the
    checks of [Close] cannot fail.  Once the backend has closed the file
    and when no write error was recorded, [Close] reaches the Indexer with
    a document that carries the computed digest and the written count, and
    returns the Indexer's answer.  Hence, in an environment whose own
    errors are not integrity errors, [Close] never returns one. *)
Theorem Close_no_expectations (fc : vfsafero.aferoFileCreation) (w : W) :
  MD5Sum (vfsafero.fc_newdoc fc) = None ->
  (ByteSize (vfsafero.fc_newdoc fc) < 0)%Z ->
  (forall w1, h (FileClose (vfsafero.fc_f fc)) w = (None, w1) ->
     vfsafero.fc_err fc = None ->
     exists doc w2 w3 err,
       MD5Sum doc = Some (md5sum (vfsafero.fc_hash fc)) /\
       ByteSize doc = vfsafero.fc_w fc /\
       index_answer h fc doc w2 = (err, w3) /\
       result h (vfsafero.Close md5sum fc) w = Returned (err, doc) /\
       vfsafero.Close_index fc doc ∈ trace h (vfsafero.Close md5sum fc) w) /\
  ((forall e w1, h (FileClose (vfsafero.fc_f fc)) w = (Some e, w1) ->
      is_integrity_error e = false) ->
   (forall e, vfsafero.fc_err fc = Some e -> is_integrity_error e = false) ->
   (forall doc w2 e w3, index_answer h fc doc w2 = (Some e, w3) ->
      is_integrity_error e = false) ->
   forall e doc, result h (vfsafero.Close md5sum fc) w = Returned (Some e, doc) ->
     is_integrity_error e = false).
Proof.
  intros Hsum Hsize.
  assert (Hreach : forall w1, h (FileClose (vfsafero.fc_f fc)) w = (None, w1) ->
     vfsafero.fc_err fc = None ->
     exists doc w2 w3 err,
       MD5Sum doc = Some (md5sum (vfsafero.fc_hash fc)) /\
       ByteSize doc = vfsafero.fc_w fc /\
       index_answer h fc doc w2 = (err, w3) /\
       result h (vfsafero.Close md5sum fc) w = Returned (err, doc) /\
       vfsafero.Close_index fc doc ∈ trace h (vfsafero.Close md5sum fc) w).
  { intros w1 Hc He.
    destruct (Close_metadata_run h fc w1)
      as (d & w2 & tm & Hm & Hdsum & Hdsize & _).
    pose proof (Close_run md5sum h fc w w1 w2 d tm Hc He Hm) as Hrun.
    rewrite check_integrity_undeclared in Hrun by congruence.
    destruct (index_answer h fc _ w2) as [err w3] eqn:Hi.
    exists (SetByteSize (SetMD5Sum d (md5sum (vfsafero.fc_hash fc)))
                        (vfsafero.fc_w fc)), w2, w3, err.
    unfold result, trace. rewrite Hrun. simpl.
    repeat split; try reflexivity; try assumption.
    apply elem_of_cons. right. apply elem_of_app. right.
    apply elem_of_cons. left. reflexivity. }
  split; [exact Hreach|].
  intros Hclose Hwrite Hindex e doc Hr.
  destruct (h (FileClose (vfsafero.fc_f fc)) w) as [[e0|] w1] eqn:Hc.
  - destruct (Close_run_failed md5sum h fc w w1 (Some e0) e0 Hc) as [Hr' _];
      [auto|].
    rewrite Hr in Hr'. injection Hr' as -> _. eapply Hclose. reflexivity.
  - destruct (vfsafero.fc_err fc) as [e0|] eqn:He.
    + destruct (Close_run_failed md5sum h fc w w1 None e0 Hc) as [Hr' _];
        [auto|].
      rewrite Hr in Hr'. injection Hr' as -> _. apply Hwrite. reflexivity.
    + destruct (Hreach w1 eq_refl eq_refl)
        as (doc' & w2 & w3 & err & _ & _ & Hi & Hr' & _).
      rewrite Hr in Hr'. injection Hr' as <- <-.
      eapply Hindex. exact Hi.
Qed.

End NoExpectations.

(** [/foo] is created with [hello] and nothing declared. *)
Lemma Close_no_expectations_witness :
  let fc := Fixtures.create_session (-1) None in
  let w := Fixtures.create_world in
  (MD5Sum (vfsafero.fc_newdoc fc) = None /\
   (ByteSize (vfsafero.fc_newdoc fc) < 0)%Z /\
   Env.handle (FileClose (vfsafero.fc_f fc)) w = (None, w) /\
   vfsafero.fc_err fc = None) /\
  exists doc w2 w3 err,
    MD5Sum doc = Some (Fixtures.plain_sum (vfsafero.fc_hash fc)) /\
    ByteSize doc = vfsafero.fc_w fc /\
    index_answer Env.handle fc doc w2 = (err, w3) /\
    result Env.handle (vfsafero.Close Fixtures.plain_sum fc) w = Returned (err, doc) /\
    vfsafero.Close_index fc doc
      ∈ trace Env.handle (vfsafero.Close Fixtures.plain_sum fc) w.
Proof.
  intros fc w.
  assert (H1 : MD5Sum (vfsafero.fc_newdoc fc) = None) by reflexivity.
  assert (H2 : (ByteSize (vfsafero.fc_newdoc fc) < 0)%Z) by reflexivity.
  assert (H3 : Env.handle (FileClose (vfsafero.fc_f fc)) w = (None, w))
    by reflexivity.
  assert (H4 : vfsafero.fc_err fc = None) by reflexivity.
  split; [auto|].
  destruct (Close_no_expectations Fixtures.plain_sum Env.handle fc w H1 H2)
    as [Hreach _].
  exact (Hreach w H3 H4).
Defined.

(** ** The copiers *)

Example swift_stage_run :
  result Env.handle Fixtures.swift_stage Env.empty = Returned Fixtures.weather /\
  Env.objects Fixtures.swift_staged !! "apps/tmp-0xxxxxxxxxxxxxxxxxxx/manifest.json"
    = Some (rd_data Fixtures.manifest_src) /\
  Env.objects Fixtures.swift_staged !! "apps/tmp-0xxxxxxxxxxxxxxxxxxx/icon.png"
    = Some Fixtures.abc /\
  size (Env.objects Fixtures.swift_staged) = 2.
Proof. compute_conj. Qed.

Example afero_stage_run :
  result Env.handle Fixtures.afero_stage Env.empty = Returned Fixtures.weather_fs /\
  Env.files Fixtures.afero_staged !! "/weather/tmp0/manifest.json.gz"
    = Some (rd_data Fixtures.manifest_src) /\
  Env.files Fixtures.afero_staged !! "/weather/tmp0/icon.png.gz"
    = Some Fixtures.abc /\
  size (Env.files Fixtures.afero_staged) = 2.
Proof. compute_conj. Qed.

Section Copiers.
Variable gzip : bytes -> bytes.
Variable MIMETypeByExtension : string -> string.
Variable MIMETypeFromReader : Reader -> string * Reader.
Context {W : Type} (h : @handler W).

(** [Copy] panics exactly when the [started] flag is unset. *)
Lemma swift_Copy_not_started (f : apps.swiftCopier) stat src (w : W) :
  apps.sc_started f = false ->
  run h (apps.swift_Copy gzip MIMETypeByExtension MIMETypeFromReader f stat src) w
    = (Panicked apps.panic_msg, w, []).
Proof. intros Hs. unfold apps.swift_Copy. rewrite Hs. reflexivity. Qed.

Lemma afero_Copy_not_started (f : apps.aferoCopier) stat src (w : W) :
  apps.ac_started f = false ->
  run h (apps.afero_Copy gzip f stat src) w = (Panicked apps.panic_msg, w, []).
Proof. intros Hs. unfold apps.afero_Copy. rewrite Hs. reflexivity. Qed.

Lemma swift_Copy_started (f : apps.swiftCopier) stat src (w : W) :
  apps.sc_started f = true ->
  exists err,
    result h (apps.swift_Copy gzip MIMETypeByExtension MIMETypeFromReader
                              f stat src) w = Returned err.
Proof.
  intros Hs. unfold apps.swift_Copy, result. rewrite Hs. simpl.
  destruct (apps.content_type _ _ _ _) as [ct src']. simpl.
  answer h. destruct x as [file|e]; simpl; [|eauto].
  answer h. destruct x as [n errc]. simpl.
  answer h. eauto.
Qed.

Lemma afero_Copy_started (f : apps.aferoCopier) stat src (w : W) :
  apps.ac_started f = true ->
  exists err, result h (apps.afero_Copy gzip f stat src) w = Returned err.
Proof.
  intros Hs. unfold apps.afero_Copy, result. rewrite Hs. simpl.
  answer h. destruct x as [e|]; simpl; [eauto|].
  answer h. destruct x as [dst|e]; simpl; [|eauto].
  answer h. destruct x as [n errc]. simpl.
  answer h. eauto.
Qed.

(** [aferoCopier.Start] sets the flag exactly when it returns
    [(false, nil)]. *)
Lemma afero_Start_started (f : apps.aferoCopier) slug version (w : W) :
  apps.ac_started f = false ->
  exists f' exists_ err,
    result h (apps.afero_Start f slug version) w = Returned (f', (exists_, err)) /\
    (apps.ac_started f' = true <-> exists_ = false /\ err = None).
Proof.
  intros Hs. unfold apps.afero_Start, result. simpl.
  answer h. destruct x as [ex err]. simpl.
  destruct (bool_decide (err ≠ None) || ex) eqn:Hb; simpl.
  - do 3 eexists. split; [reflexivity|]. simpl. rewrite Hs.
    split; [discriminate|]. intros [-> ->]. simpl in Hb.
    try (rewrite bool_decide_eq_false_2 in Hb by auto). discriminate.
  - answer h. destruct x as [e|]; simpl.
    + do 3 eexists. split; [reflexivity|]. simpl. rewrite Hs.
      split; [discriminate|]. intros [_ [=]].
    + answer h. destruct x as [tmp|e]; simpl.
      * do 3 eexists. split; [reflexivity|]. simpl. tauto.
      * do 3 eexists. split; [reflexivity|]. simpl. rewrite Hs.
        split; [discriminate|]. intros [_ [=]].
Qed.

(** C9, where the code departs from it: when the account answers the
    object probe with [ObjectNotFound] and the container probe with an
    error other than [ContainerNotFound], [swiftCopier.Start] returns that
    error, so it did not succeed, and yet it has set the [started] flag: a
    later [Copy] does not panic. *)
Theorem swift_Start_fails_but_starts
    (container slug version rnd : string) (e : error) (w w1 w2 w3 : W) :
  h (SwObject container (path.Join [slug; version])) w = (Some ObjectNotFound, w1) ->
  h (SwContainer container) w1 = (Some e, w2) ->
  e <> ContainerNotFound ->
  h (RandomString 20) w2 = (rnd, w3) ->
  exists f,
    run h (apps.swift_Start (apps.NewSwiftCopier container) slug version) w
      = (Returned (f, (false, Some e)), w3,
         [SwObject container (path.Join [slug; version]);
          SwContainer container; RandomString 20]) /\
    apps.sc_started f = true /\
    forall stat src w',
      exists err,
        result h (apps.swift_Copy gzip MIMETypeByExtension MIMETypeFromReader
                                  f stat src) w' = Returned err.
Proof.
  intros Ho Hc Hne Hr.
  exists (apps.mkSwiftCopier (path.Join [slug; version]) ("tmp-" ++ rnd ++ "/")
                             container true).
  split; [|split; [reflexivity|]].
  - unfold apps.swift_Start, apps.NewSwiftCopier. simpl. rewrite Ho. simpl.
    rewrite Hc. simpl.
    rewrite bool_decide_eq_false_2 by congruence. simpl. rewrite Hr. reflexivity.
  - intros stat src w'. apply swift_Copy_started. reflexivity.
Qed.

End Copiers.

(** The container probe times out on an empty account. *)
Lemma swift_Start_fails_but_starts_witness :
  let timeout := ErrOther "timeout" in
  let w := Env.with_faults Env.empty [None; Some timeout] in
  exists f,
    result Env.handle
      (apps.swift_Start (apps.NewSwiftCopier "apps") "weather" "1.0.0") w
      = Returned (f, (false, Some timeout)) /\
    apps.sc_started f = true /\
    exists err,
      result Env.handle
        (apps.swift_Copy Fixtures.store Fixtures.no_type Fixtures.no_sniff f
                         Fixtures.manifest Fixtures.manifest_src)
        (final Env.handle
           (apps.swift_Start (apps.NewSwiftCopier "apps") "weather" "1.0.0") w)
      = Returned err.
Proof.
  intros timeout w.
  destruct (swift_Start_fails_but_starts Fixtures.store Fixtures.no_type
              Fixtures.no_sniff Env.handle "apps" "weather" "1.0.0"
              "0xxxxxxxxxxxxxxxxxxx" timeout w
              (Env.with_faults Env.empty [Some timeout])
              Env.empty (Env.with_seed Env.empty 1))
    as (f & Hrun & Hs & Hcopy);
    [reflexivity | reflexivity | discriminate | reflexivity |].
  exists f. unfold result, final. rewrite Hrun. simpl.
  split; [reflexivity|]. split; [exact Hs|]. apply Hcopy.
Defined.

Section StartExists.
Context {W : Type} (h : @handler W).

(** What [Start] returns as [exists] is what the probe of the final path
    answered: the object probe of [identifier/version] for the swift
    copier, the directory probe of [/identifier/version] for the afero
    copier. *)
Lemma swift_Start_probe (f : apps.swiftCopier) slug version (w : W) :
  exists f' exists_ err rest,
    run h (apps.swift_Start f slug version) w
      = (Returned (f', (exists_, err)), final h (apps.swift_Start f slug version) w,
         SwObject (apps.sc_container f) (path.Join [slug; version]) :: rest) /\
    apps.sc_appObj f' = path.Join [slug; version] /\
    (exists_ = true <->
     (h (SwObject (apps.sc_container f) (path.Join [slug; version])) w).1 = None).
Proof.
  unfold apps.swift_Start, final. simpl.
  destruct (h (SwObject _ _) w) as [[e|] w1]; simpl.
  - destruct (bool_decide (e ≠ ObjectNotFound)); simpl.
    + do 4 eexists. split; [reflexivity|]. split; [reflexivity|].
      split; discriminate.
    + answer h. destruct (bool_decide (x = Some ContainerNotFound)); simpl.
      * answer h. destruct x0; simpl.
        -- do 4 eexists. split; [reflexivity|]. split; [reflexivity|].
           split; discriminate.
        -- answer h. do 4 eexists. split; [reflexivity|]. split; [reflexivity|].
           split; discriminate.
      * answer h. do 4 eexists. split; [reflexivity|]. split; [reflexivity|].
        split; discriminate.
  - do 4 eexists. split; [reflexivity|]. split; [reflexivity|]. tauto.
Qed.

Lemma afero_Start_probe (f : apps.aferoCopier) slug version (w : W) :
  exists f' exists_ err rest,
    run h (apps.afero_Start f slug version) w
      = (Returned (f', (exists_, err)), final h (apps.afero_Start f slug version) w,
         FsDirExists (path.Join ["/"; slug; version]) :: rest) /\
    apps.ac_appDir f' = path.Join ["/"; slug; version] /\
    exists_ = (h (FsDirExists (path.Join ["/"; slug; version])) w).1.1.
Proof.
  unfold apps.afero_Start, final. simpl.
  destruct (h (FsDirExists _) w) as [[ex err] w1]; simpl.
  destruct (bool_decide (err ≠ None) || ex) eqn:Hb; simpl.
  - do 4 eexists. split; [reflexivity|]. split; reflexivity.
  - apply orb_false_iff in Hb as [_ ->].
    answer h. destruct x; simpl.
    + do 4 eexists. split; [reflexivity|]. split; reflexivity.
    + answer h. destruct x; simpl;
        do 4 eexists; (split; [reflexivity|]); split; reflexivity.
Qed.

(** C4: when the artifact is already at [identifier/version] (the probe of
    the final path answers that it is there, and leaves the store as it
    is), [Start] returns [exists = true] and no error, issues nothing but
    that probe, which does not change the store, allocates no staging
    namespace and does not set the [started] flag; a second [Start] for the
    same pair does the same, in the same store. *)
Theorem Start_existing_artifact (slug version : string) (w : W) :
  (forall f : apps.swiftCopier,
     let probe := SwObject (apps.sc_container f) (path.Join [slug; version]) in
     let f' := apps.mkSwiftCopier (path.Join [slug; version]) (apps.sc_tmpObj f)
                                  (apps.sc_container f) (apps.sc_started f) in
     h probe w = (None, w) ->
     run h (apps.swift_Start f slug version) w
       = (Returned (f', (true, None)), w, [probe]) /\
     run h (apps.swift_Start f' slug version) w
       = (Returned (f', (true, None)), w, [probe]) /\
     mutates_store probe = false) /\
  (forall f : apps.aferoCopier,
     let probe := FsDirExists (path.Join ["/"; slug; version]) in
     let f' := apps.mkAferoCopier (path.Join ["/"; slug; version])
                                  (apps.ac_tmpDir f) (apps.ac_started f) in
     h probe w = ((true, None), w) ->
     run h (apps.afero_Start f slug version) w
       = (Returned (f', (true, None)), w, [probe]) /\
     run h (apps.afero_Start f' slug version) w
       = (Returned (f', (true, None)), w, [probe]) /\
     mutates_store probe = false).
Proof.
  split.
  - intros f probe f' Hp. subst probe.
    repeat split; unfold apps.swift_Start; simpl; rewrite Hp; reflexivity.
  - intros f probe f' Hp. subst probe.
    repeat split; unfold apps.afero_Start; simpl; rewrite Hp; reflexivity.
Qed.

End StartExists.

Example committed_worlds :
  Env.objects Fixtures.swift_committed !! "apps/weather/1.0.0" = Some [] /\
  Env.objects Fixtures.swift_committed !! "apps/weather/1.0.0/manifest.json"
    = Some (rd_data Fixtures.manifest_src) /\
  Env.objects Fixtures.swift_committed !! "apps/weather/1.0.0/icon.png"
    = Some Fixtures.abc /\
  size (Env.objects Fixtures.swift_committed) = 3 /\
  Env.files Fixtures.afero_committed !! "/weather/1.0.0/manifest.json.gz"
    = Some (rd_data Fixtures.manifest_src) /\
  Env.files Fixtures.afero_committed !! "/weather/1.0.0/icon.png.gz"
    = Some Fixtures.abc /\
  size (Env.files Fixtures.afero_committed) = 2 /\
  elements (Env.dirs Fixtures.afero_committed) = ["/weather/1.0.0"; "/weather"; "/"].
Proof. compute_conj. Qed.

(** [Start("weather", "1.0.0")], twice, after the artifact was committed. *)
Lemma Start_existing_artifact_witness :
  (Env.handle (SwObject "apps" (path.Join ["weather"; "1.0.0"])) Fixtures.swift_committed
     = (None, Fixtures.swift_committed) /\
   Env.handle (FsDirExists (path.Join ["/"; "weather"; "1.0.0"])) Fixtures.afero_committed
     = ((true, None), Fixtures.afero_committed)) /\
  (let f' := apps.mkSwiftCopier "weather/1.0.0" "" "apps" false in
   run Env.handle (apps.swift_Start (apps.NewSwiftCopier "apps") "weather" "1.0.0")
       Fixtures.swift_committed
     = (Returned (f', (true, None)), Fixtures.swift_committed,
        [SwObject "apps" "weather/1.0.0"]) /\
   run Env.handle (apps.swift_Start f' "weather" "1.0.0") Fixtures.swift_committed
     = (Returned (f', (true, None)), Fixtures.swift_committed,
        [SwObject "apps" "weather/1.0.0"])) /\
  (let f' := apps.mkAferoCopier "/weather/1.0.0" "" false in
   run Env.handle (apps.afero_Start apps.NewAferoCopier "weather" "1.0.0")
       Fixtures.afero_committed
     = (Returned (f', (true, None)), Fixtures.afero_committed,
        [FsDirExists "/weather/1.0.0"]) /\
   run Env.handle (apps.afero_Start f' "weather" "1.0.0") Fixtures.afero_committed
     = (Returned (f', (true, None)), Fixtures.afero_committed,
        [FsDirExists "/weather/1.0.0"])).
Proof.
  assert (H1 : Env.handle (SwObject "apps" (path.Join ["weather"; "1.0.0"]))
                 Fixtures.swift_committed = (None, Fixtures.swift_committed))
    by (vm_compute; reflexivity).
  assert (H2 : Env.handle (FsDirExists (path.Join ["/"; "weather"; "1.0.0"]))
                 Fixtures.afero_committed = ((true, None), Fixtures.afero_committed))
    by (vm_compute; reflexivity).
  destruct (Start_existing_artifact Env.handle "weather" "1.0.0"
              Fixtures.swift_committed) as [Hs _].
  destruct (Start_existing_artifact Env.handle "weather" "1.0.0"
              Fixtures.afero_committed) as [_ Ha].
  destruct (Hs (apps.NewSwiftCopier "apps") H1) as (Hs1 & Hs2 & _).
  destruct (Ha apps.NewAferoCopier H2) as (Ha1 & Ha2 & _).
  split; [auto|]. split; [split; [exact Hs1 | exact Hs2]|].
  split; [exact Ha1 | exact Ha2].
Defined.

Section Commit.
Context {W : Type} (h : @handler W).

(** The loop of [Commit] while the moves succeed. *)
Lemma swift_moves_all (f : apps.swiftCopier) (names : list string) (w w2 : W) :
  all_moved h f names w = Some w2 ->
  run h (apps.swift_moves f names) w =
  let '(r, w3, t) := run h (apps.swift_marker f) w2 in
  (r, w3, List.map (move_op f) names ++ t).
Proof.
  revert w. induction names as [|n rest IH]; intros w Hall; simpl in Hall.
  - injection Hall as ->.
    change (apps.swift_moves f []) with (apps.swift_marker f).
    destruct (run h (apps.swift_marker f) w2) as [[r w3] t]. reflexivity.
  - cbn [apps.swift_moves]. fold (move_op f n).
    rewrite (run_call_bind h (move_op f n)).
    destruct (h (move_op f n) w) as [[e|] w1]; [discriminate|].
    rewrite (IH w1 Hall).
    destruct (run h (apps.swift_marker f) w2) as [[r w3] t]. reflexivity.
Qed.

(** The loop of [Commit] up to the first move that fails. *)
Lemma swift_moves_fail (f : apps.swiftCopier) (pre post : list string) n e
    (w w2 w3 : W) :
  all_moved h f pre w = Some w2 ->
  h (move_op f n) w2 = (Some e, w3) ->
  run h (apps.swift_moves f (pre ++ n :: post)) w =
  let '(r, w4, t) := run h (apps.swift_Abort f) w3 in
  (r, w4, List.map (move_op f) pre ++ move_op f n :: t).
Proof.
  revert w. induction pre as [|m rest IH]; intros w Hall Hn; simpl in Hall.
  - injection Hall as ->.
    cbn [apps.swift_moves app]. fold (move_op f n).
    rewrite (run_call_bind h (move_op f n)), Hn.
    destruct (run h (apps.swift_Abort f) w3) as [[r w4] t]. reflexivity.
  - cbn [apps.swift_moves app]. fold (move_op f m).
    rewrite (run_call_bind h (move_op f m)).
    destruct (h (move_op f m) w) as [[e'|] w1]; [discriminate|].
    rewrite (IH w1 Hall Hn).
    destruct (run h (apps.swift_Abort f) w3) as [[r w4] t]. reflexivity.
Qed.

(** The marker of the swift copier: an object created at [appObj] and
    closed, nothing written into it. *)
Lemma swift_marker_trace (f : apps.swiftCopier) (w : W) :
  let create := SwObjectCreate (apps.sc_container f) (apps.sc_appObj f)
                               true "" "" [] in
  exists t, trace h (apps.swift_marker f) w = create :: t /\
            List.filter is_write t = [] /\ List.filter is_create t = [] /\
            List.filter is_move t = [].
Proof.
  unfold apps.swift_marker, trace. simpl.
  answer h. destruct x as [o|e]; simpl.
  - answer h. eexists. split; [reflexivity|]. auto.
  - eexists. split; [reflexivity|]. auto.
Qed.

(** [Abort] lists the staging namespace and bulk-deletes what is listed. *)
Lemma swift_Abort_trace (f : apps.swiftCopier) (w : W) :
  let list_ := SwObjectNamesAll (apps.sc_container f) (apps.sc_tmpObj f) in
  trace h (apps.swift_Abort f) w = [list_] \/
  exists names, trace h (apps.swift_Abort f) w
                = [list_; SwBulkDelete (apps.sc_container f) names].
Proof.
  unfold apps.swift_Abort, trace. simpl.
  answer h. destruct x as [names|e]; simpl.
  - answer h. right. eexists. reflexivity.
  - left. reflexivity.
Qed.



End Commit.





(** ** Recursive destruction *)

Lemma entry_ind' (P : vfsafero.entry -> Prop) :
  (forall f, P (vfsafero.EFile f)) ->
  (forall d cs, Forall P cs -> P (vfsafero.EDir d cs)) ->
  forall e, P e.
Proof.
  intros Hf Hd. fix IH 1. intros [f|d cs].
  - apply Hf.
  - apply Hd. induction cs as [|c cs IHcs]; constructor; [apply IH | exact IHcs].
Qed.

Lemma DestroyEntry_dir doc children :
  vfsafero.DestroyEntry (vfsafero.EDir doc children)
  = vfsafero.DestroyDirAndContent doc children.
Proof. reflexivity. Qed.

Lemma postorder_dir doc children :
  postorder (vfsafero.EDir doc children)
  = postorder_all children ++ [IdxDeleteDirDoc doc].
Proof. reflexivity. Qed.

Section Destroy.
Context {W : Type} (h : @handler W).

(** Destroying a file: its path is looked up, the backend removes it, then
    the Indexer deletes its document; each step only if the previous one
    succeeded. *)
Lemma DestroyFile_run (f : FileDoc) (w : W) :
  exists r w1 t,
    run h (vfsafero.DestroyFile f) w = (Returned r, w1, t) /\
    (exists p, t `prefix_of` [FilePath f; FsRemove p; IdxDeleteFileDoc f]) /\
    List.filter is_index_write t `prefix_of` [IdxDeleteFileDoc f] /\
    (r = None -> List.filter is_index_write t = [IdxDeleteFileDoc f]).
Proof.
  unfold vfsafero.DestroyFile. simpl.
  answer h. destruct x as [p|e]; simpl.
  - answer h. destruct x as [e|]; simpl.
    + do 3 eexists. split; [reflexivity|]. split; [|split].
      * exists p. exists [IdxDeleteFileDoc f]. reflexivity.
      * apply prefix_nil.
      * discriminate.
    + answer h. do 3 eexists. split; [reflexivity|]. split; [|split].
      * exists p. reflexivity.
      * reflexivity.
      * reflexivity.
  - do 3 eexists. split; [reflexivity|]. split; [|split].
    + exists "". exists [FsRemove ""; IdxDeleteFileDoc f]. reflexivity.
    + apply prefix_nil.
    + discriminate.
Qed.

(** A directory removing itself: its path is looked up, the backend removes
    the object, then the Indexer deletes the document. *)
Lemma remove_dir_run (d : DirDoc) (w : W) :
  exists r w1 t,
    run h (remove_dir d) w = (Returned r, w1, t) /\
    (exists p, t `prefix_of` [DirPath d; FsRemoveAll p; IdxDeleteDirDoc d]) /\
    List.filter is_index_write t `prefix_of` [IdxDeleteDirDoc d] /\
    (r = None -> List.filter is_index_write t = [IdxDeleteDirDoc d]).
Proof.
  unfold remove_dir. simpl.
  answer h. destruct x as [p|e]; simpl.
  - answer h. destruct x as [e|]; simpl.
    + do 3 eexists. split; [reflexivity|]. split; [|split].
      * exists p. exists [IdxDeleteDirDoc d]. reflexivity.
      * apply prefix_nil.
      * discriminate.
    + answer h. do 3 eexists. split; [reflexivity|]. split; [|split].
      * exists p. reflexivity.
      * reflexivity.
      * reflexivity.
  - do 3 eexists. split; [reflexivity|]. split; [|split].
    + exists "". exists [FsRemoveAll ""; IdxDeleteDirDoc d]. reflexivity.
    + apply prefix_nil.
    + discriminate.
Qed.

(** [DestroyDirAndContent] is [DestroyDirContent] followed, if it returned
    no error, by the directory removing itself. *)
Lemma DestroyDirAndContent_run (d : DirDoc) (cs : list vfsafero.entry) (w : W) :
  run h (vfsafero.DestroyDirAndContent d cs) w =
  match run h (vfsafero.DestroyDirContent cs) w with
  | (Returned None, w1, t1) =>
      let '(r, w2, t2) := run h (remove_dir d) w1 in (r, w2, t1 ++ t2)
  | (Returned (Some e), w1, t1) => (Returned (Some e), w1, t1)
  | (Panicked msg, w1, t1) => (Panicked msg, w1, t1)
  end.
Proof.
  unfold vfsafero.DestroyDirAndContent. rewrite run_mbind.
  destruct (run h (vfsafero.DestroyDirContent cs) w) as [[[[e|]|msg] w1] t1];
    simpl; rewrite ?app_nil_r; reflexivity.
Qed.

Lemma DestroyDirContent_cons (c : vfsafero.entry) (cs : list vfsafero.entry) (w : W) :
  run h (vfsafero.DestroyDirContent (c :: cs)) w =
  match run h (vfsafero.DestroyEntry c) w with
  | (Returned None, w1, t1) =>
      let '(r, w2, t2) := run h (vfsafero.DestroyDirContent cs) w1 in
      (r, w2, t1 ++ t2)
  | (Returned (Some e), w1, t1) => (Returned (Some e), w1, t1)
  | (Panicked msg, w1, t1) => (Panicked msg, w1, t1)
  end.
Proof.
  cbn [vfsafero.DestroyDirContent]. rewrite run_mbind.
  destruct (run h (vfsafero.DestroyEntry c) w) as [[[[e|]|msg] w1] t1];
    simpl; rewrite ?app_nil_r; reflexivity.
Qed.

Lemma DestroyDirContent_destroys (cs : list vfsafero.entry) :
  Forall (fun c => destroys h (vfsafero.DestroyEntry c) (postorder c)) cs ->
  destroys h (vfsafero.DestroyDirContent cs) (postorder_all cs).
Proof.
  induction 1 as [|c cs Hc _ IH]; intros w.
  - exists None, w, []. repeat split. reflexivity.
  - rewrite DestroyDirContent_cons.
    destruct (Hc w) as (r1 & w1 & t1 & -> & Hp1 & He1).
    destruct r1 as [e|].
    + do 3 eexists. split; [reflexivity|]. split; [|discriminate].
      cbn [postorder_all]. apply prefix_app_r. exact Hp1.
    + destruct (IH w1) as (r2 & w2 & t2 & -> & Hp2 & He2).
      do 3 eexists. split; [reflexivity|].
      rewrite List.filter_app, (He1 eq_refl). cbn [postorder_all].
      split; [apply prefix_app; exact Hp2|].
      intros Hr. rewrite (He2 Hr). reflexivity.
Qed.

Lemma DestroyEntry_destroys (e : vfsafero.entry) :
  destroys h (vfsafero.DestroyEntry e) (postorder e).
Proof.
  induction e as [f|d cs IH] using entry_ind'; intros w.
  - destruct (DestroyFile_run f w) as (r & w1 & t & Hrun & _ & Hp & He).
    exists r, w1, t. auto.
  - rewrite DestroyEntry_dir, DestroyDirAndContent_run, postorder_dir.
    destruct (DestroyDirContent_destroys cs IH w) as (r1 & w1 & t1 & -> & Hp1 & He1).
    destruct r1 as [e|].
    + do 3 eexists. split; [reflexivity|]. split; [|discriminate].
      apply prefix_app_r. exact Hp1.
    + destruct (remove_dir_run d w1) as (r2 & w2 & t2 & -> & _ & Hp2 & He2).
      do 3 eexists. split; [reflexivity|].
      rewrite List.filter_app, (He1 eq_refl).
      split; [apply prefix_app; exact Hp2|].
      intros Hr. rewrite (He2 Hr). reflexivity.
Qed.


End Destroy.

Example Destroy_tree :
  let w := Fixtures.tree_world in
  let t := vfsafero.EDir Fixtures.dir_d
             [vfsafero.EFile (Fixtures.file_in_d "a");
              vfsafero.EFile (Fixtures.file_in_d "b")] in
  run Env.handle (vfsafero.DestroyEntry t) w
  = (Returned None, final Env.handle (vfsafero.DestroyEntry t) w,
     [FilePath (Fixtures.file_in_d "a"); FsRemove "/d/a";
      IdxDeleteFileDoc (Fixtures.file_in_d "a");
      FilePath (Fixtures.file_in_d "b"); FsRemove "/d/b";
      IdxDeleteFileDoc (Fixtures.file_in_d "b");
      DirPath Fixtures.dir_d; FsRemoveAll "/d"; IdxDeleteDirDoc Fixtures.dir_d]) /\
  size (Env.files (final Env.handle (vfsafero.DestroyEntry t) w)) = 0 /\
  elements (Env.dirs (final Env.handle (vfsafero.DestroyEntry t) w)) = ["/"] /\
  size (Env.file_docs (final Env.handle (vfsafero.DestroyEntry t) w)) = 1 /\
  dom (Env.dir_docs (final Env.handle (vfsafero.DestroyEntry t) w)) = {["root"]}.
Proof. compute_conj. Qed.


(** ** The healthy reference environment *)

Lemma Env_serve_faults (o : op) (w : Env.World) :
  Env.faults (Env.serve o w).2 = Env.faults w.
Proof.
  destruct o; simpl; try reflexivity; repeat case_match; reflexivity.
Qed.

Lemma Env_healthy_handle (o : op) (w : Env.World) :
  Env.faults w = [] -> Env.handle o w = Env.serve o w.
Proof. intros Hf. unfold Env.handle. rewrite Hf. destruct (Env.fallible o); reflexivity. Qed.

(** In a healthy environment every request is served, and the environment
    stays healthy. *)
Lemma run_healthy {R} (p : prog R) (w : Env.World) :
  Env.faults w = [] ->
  run Env.handle p w = run (@Env.serve) p w /\
  Env.faults (final Env.handle p w) = [].
Proof.
  revert w. induction p as [r|msg|o k IH]; intros w Hf.
  - split; [reflexivity | exact Hf].
  - split; [reflexivity | exact Hf].
  - unfold final. simpl. rewrite (Env_healthy_handle o w Hf).
    pose proof (Env_serve_faults o w) as Hs.
    destruct (Env.serve o w) as [x w1]. simpl in Hs.
    destruct (IH x w1) as [Hrun Hfin]; [congruence|].
    unfold final in Hfin. rewrite Hrun in Hfin |- *.
    destruct (run (@Env.serve) (k x) w1) as [[r w2] t]. auto.
Qed.

Lemma result_healthy {R} (p : prog R) (w : Env.World) :
  Env.faults w = [] -> result Env.handle p w = result (@Env.serve) p w.
Proof. intros Hf. unfold result. rewrite (proj1 (run_healthy p w Hf)). reflexivity. Qed.

Lemma final_healthy {R} (p : prog R) (w : Env.World) :
  Env.faults w = [] -> final Env.handle p w = final (@Env.serve) p w.
Proof. intros Hf. unfold final. rewrite (proj1 (run_healthy p w Hf)). reflexivity. Qed.

Lemma trace_healthy {R} (p : prog R) (w : Env.World) :
  Env.faults w = [] -> trace Env.handle p w = trace (@Env.serve) p w.
Proof. intros Hf. unfold trace. rewrite (proj1 (run_healthy p w Hf)). reflexivity. Qed.

(** * Further properties of package vfsafero *)

Section RenameFile.
Context {W : Type} (h : @handler W).

(** X1: [safeRenameFile] never overwrites.  Whatever the backend answers,
    a rename reaches it only for the two cleaned paths, both absolute, and
    only after the backend has answered the [Stat] of the destination with
    a not-exist error; in particular, a destination that exists ([Stat]
    answers nil) is refused with [os.ErrExist] and left alone. *)
Theorem safeRenameFile_never_overwrites (oldpath newpath : string) (w : W) :
  (forall a b, FsRename a b ∈ trace h (vfsafero.safeRenameFile oldpath newpath) w ->
     a = path.Clean oldpath /\ b = path.Clean newpath /\
     path.IsAbs a = true /\ path.IsAbs b = true /\
     exists e w1, h (FsStat b) w = (Some e, w1) /\ IsNotExist e = true) /\
  (forall w1, path.IsAbs (path.Clean oldpath) = true ->
     path.IsAbs (path.Clean newpath) = true ->
     h (FsStat (path.Clean newpath)) w = (None, w1) ->
     run h (vfsafero.safeRenameFile oldpath newpath) w
       = (Returned (Some ErrExist), w1, [FsStat (path.Clean newpath)])) /\
  (path.IsAbs (path.Clean oldpath) && path.IsAbs (path.Clean newpath) = false ->
     run h (vfsafero.safeRenameFile oldpath newpath) w
       = (Returned (Some ErrNonAbsolutePath), w, [])).
Proof.
  unfold vfsafero.safeRenameFile, trace.
  destruct (path.IsAbs (path.Clean newpath)) eqn:Hn;
    destruct (path.IsAbs (path.Clean oldpath)) eqn:Ho; simpl;
    try (split; [intros a b Hin; inversion Hin|];
         split; [intros; discriminate | reflexivity]).
  destruct (h (FsStat (path.Clean newpath)) w) as [[e|] w1] eqn:Hs; simpl.
  - destruct (IsNotExist e) eqn:He; simpl.
    + destruct (h (FsRename _ _) w1) as [r w2]. simpl.
      split; [|split; [intros; discriminate | discriminate]].
      intros a b Hin.
      apply elem_of_cons in Hin as [Hin|Hin]; [discriminate|].
      apply elem_of_cons in Hin as [Hin|Hin]; [|inversion Hin].
      injection Hin as -> ->. rewrite Ho, Hn. eauto 10.
    + split; [|split; [intros; discriminate | discriminate]].
      intros a b Hin.
      apply elem_of_cons in Hin as [Hin|Hin]; [discriminate|inversion Hin].
  - split; [|split; [|discriminate]].
    + intros a b Hin.
      apply elem_of_cons in Hin as [Hin|Hin]; [discriminate|inversion Hin].
    + intros w1' _ _ [= <-]. reflexivity.
Qed.

End RenameFile.

(** The backup path of [foo_old] is taken: [/foo] is not moved. *)
Lemma safeRenameFile_never_overwrites_witness :
  let w := Env.with_files Fixtures.indexed
             {["/foo" := Fixtures.hello; "/.id1_1-a" := Fixtures.abc]} in
  (path.IsAbs (path.Clean "/foo") = true /\
   path.IsAbs (path.Clean "/.id1_1-a") = true /\
   Env.handle (FsStat (path.Clean "/.id1_1-a")) w = (None, w)) /\
  run Env.handle (vfsafero.safeRenameFile "/foo" "/.id1_1-a") w
    = (Returned (Some ErrExist), w, [FsStat "/.id1_1-a"]).
Proof.
  intros w.
  assert (H1 : path.IsAbs (path.Clean "/foo") = true) by reflexivity.
  assert (H2 : path.IsAbs (path.Clean "/.id1_1-a") = true) by reflexivity.
  assert (H3 : Env.handle (FsStat (path.Clean "/.id1_1-a")) w = (None, w))
    by (vm_compute; reflexivity).
  split; [auto|].
  destruct (safeRenameFile_never_overwrites Env.handle "/foo" "/.id1_1-a" w)
    as (_ & H & _).
  exact (H w H1 H2 H3).
Defined.

(** X2: on the reference backend, [safeRenameFile] between absolute paths,
    in a healthy environment: when the destination exists it answers
    [os.ErrExist] and changes nothing; when the source is a file and the
    destination is free it returns nil, the destination then holds the
    content of the source, the source is gone and every other file is as it
    was. *)
Theorem safeRenameFile_moves (oldpath newpath : string) (w : Env.World) :
  Env.faults w = [] ->
  path.IsAbs oldpath = true -> path.IsAbs newpath = true ->
  let old := path.Clean oldpath in
  let new := path.Clean newpath in
  let w' := final Env.handle (vfsafero.safeRenameFile oldpath newpath) w in
  (Env.exists_path w new = true ->
     result Env.handle (vfsafero.safeRenameFile oldpath newpath) w
       = Returned (Some ErrExist) /\ w' = w) /\
  (forall c, Env.exists_path w new = false -> Env.files w !! old = Some c ->
     result Env.handle (vfsafero.safeRenameFile oldpath newpath) w = Returned None /\
     Env.files w' !! new = Some c /\
     Env.files w' !! old = None /\
     (forall p, p <> old -> p <> new -> Env.files w' !! p = Env.files w !! p) /\
     Env.dirs w' = Env.dirs w).
Proof.
  intros Hf Ho Hn old new w'. subst w'.
  rewrite result_healthy, final_healthy by exact Hf.
  unfold vfsafero.safeRenameFile, result, final.
  rewrite !clean_is_abs by assumption. fold old new. simpl.
  split.
  - intros ->. simpl. destruct w. auto.
  - intros c Hex Hc. rewrite Hex. simpl. rewrite Hc. simpl.
    assert (Hne : old <> new).
    { intros E. unfold Env.exists_path in Hex. rewrite <- E, Hc in Hex.
      rewrite bool_decide_eq_true_2 in Hex by eauto. discriminate. }
    split; [reflexivity|]. split; [apply lookup_insert_eq|].
    split; [rewrite lookup_insert_ne by auto; apply lookup_delete_eq|].
    split; [|reflexivity].
    intros p Hpo Hpn. rewrite lookup_insert_ne by auto.
    apply lookup_delete_ne. auto.
Qed.

(** [/foo], holding [abc], is renamed to [/bar]. *)
Lemma safeRenameFile_moves_witness :
  let w := Fixtures.with_foo Fixtures.abc in
  let w' := final Env.handle (vfsafero.safeRenameFile "/foo" "/bar//") w in
  (Env.faults w = [] /\ path.IsAbs "/foo" = true /\ path.IsAbs "/bar//" = true /\
   Env.exists_path w (path.Clean "/bar//") = false /\
   Env.files w !! path.Clean "/foo" = Some Fixtures.abc) /\
  result Env.handle (vfsafero.safeRenameFile "/foo" "/bar//") w = Returned None /\
  Env.files w' !! "/bar" = Some Fixtures.abc /\
  Env.files w' !! "/foo" = None.
Proof.
  intros w w'.
  assert (H1 : Env.faults w = []) by reflexivity.
  assert (H2 : path.IsAbs "/foo" = true) by reflexivity.
  assert (H3 : path.IsAbs "/bar//" = true) by reflexivity.
  assert (H4 : Env.exists_path w (path.Clean "/bar//") = false)
    by (vm_compute; reflexivity).
  assert (H5 : Env.files w !! path.Clean "/foo" = Some Fixtures.abc)
    by (vm_compute; reflexivity).
  split; [auto 10|].
  destruct (safeRenameFile_moves "/foo" "/bar//" w H1 H2 H3) as [_ H].
  destruct (H Fixtures.abc H4 H5) as (Hr & Hnew & Hold & _).
  split; [exact Hr|]. split; [exact Hnew | exact Hold].
Defined.

Section DocUpdates.
Context {W : Type} (h : @handler W).

(** The renames return, and reach the backend only. *)
Lemma safeRename_run (dir : bool) (oldpath newpath : string) (w : W) :
  let p := if dir then vfsafero.safeRenameDir oldpath newpath
           else vfsafero.safeRenameFile oldpath newpath in
  exists r w1 t,
    run h p w = (Returned r, w1, t) /\
    List.filter is_index_write t = [] /\ List.filter is_chmod t = [] /\
    forallb is_fs_op t = true.
Proof.
  destruct dir; simpl;
    unfold vfsafero.safeRenameDir, vfsafero.safeRenameFile;
    destruct (_ || _); simpl; eauto 10;
    try (destruct (strings.HasPrefix _ _); simpl; eauto 10);
    answer h; destruct x as [e|]; simpl; eauto 10;
    destruct (negb (IsNotExist e)); simpl; eauto 10;
    answer h; eauto 10.
Qed.

(** X3: [UpdateDirDoc] keeps the index behind the backend.  When the path
    is unchanged, the Indexer's update is the only call and the backend is
    not touched.  When the path changes, the directory is renamed first:
    if the rename is refused or fails, that error is returned and the
    Indexer is not called; if it succeeds, the Indexer's update follows and
    its answer is returned. *)
Theorem UpdateDirDoc_index_follows_backend (olddoc newdoc : DirDoc) (w : W) :
  (Fullpath newdoc = Fullpath olddoc ->
     run h (vfsafero.UpdateDirDoc olddoc newdoc) w
       = (Returned (h (IdxUpdateDirDoc olddoc newdoc) w).1,
          (h (IdxUpdateDirDoc olddoc newdoc) w).2,
          [IdxUpdateDirDoc olddoc newdoc])) /\
  (Fullpath newdoc <> Fullpath olddoc ->
     forall r w1 t,
       run h (vfsafero.safeRenameDir (Fullpath olddoc) (Fullpath newdoc)) w
         = (Returned r, w1, t) ->
       match r with
       | Some e =>
           run h (vfsafero.UpdateDirDoc olddoc newdoc) w
             = (Returned (Some e), w1, t) /\
           List.filter is_index_write t = []
       | None =>
           run h (vfsafero.UpdateDirDoc olddoc newdoc) w
             = (Returned (h (IdxUpdateDirDoc olddoc newdoc) w1).1,
                (h (IdxUpdateDirDoc olddoc newdoc) w1).2,
                t ++ [IdxUpdateDirDoc olddoc newdoc])
       end).
Proof.
  unfold vfsafero.UpdateDirDoc. split.
  - intros E. rewrite bool_decide_eq_false_2 by auto. simpl.
    destruct (h (IdxUpdateDirDoc olddoc newdoc) w). reflexivity.
  - intros E r w1 t Hr. rewrite bool_decide_eq_true_2 by auto.
    rewrite run_mbind, Hr.
    destruct (safeRename_run true (Fullpath olddoc) (Fullpath newdoc) w)
      as (r' & w1' & t' & Hr' & Hi & _).
    simpl in Hr'. rewrite Hr in Hr'. injection Hr' as <- <- <-.
    destruct r as [e|]; simpl.
    + rewrite app_nil_r. auto.
    + destruct (h (IdxUpdateDirDoc olddoc newdoc) w1). reflexivity.
Qed.


End DocUpdates.

(** [/d] becomes [/e]: the backend moves the tree, then the index is
    updated. *)
Lemma UpdateDirDoc_index_follows_backend_witness :
  let w := Fixtures.tree_world in
  let newdoc := mkDirDoc "d" "1-d" "/e" in
  let p := vfsafero.UpdateDirDoc Fixtures.dir_d newdoc in
  Fullpath newdoc <> Fullpath Fixtures.dir_d /\
  result Env.handle (vfsafero.safeRenameDir "/d" "/e") w = Returned None /\
  trace Env.handle p w
    = [FsStat "/e"; FsRename "/d" "/e"; IdxUpdateDirDoc Fixtures.dir_d newdoc] /\
  result Env.handle p w = Returned None.
Proof.
  intros w newdoc p.
  set (w1 := final Env.handle (vfsafero.safeRenameDir "/d" "/e") w).
  assert (H1 : Fullpath newdoc <> Fullpath Fixtures.dir_d) by discriminate.
  assert (H2 : run Env.handle (vfsafero.safeRenameDir (Fullpath Fixtures.dir_d)
                                                       (Fullpath newdoc)) w
               = (Returned None, w1, [FsStat "/e"; FsRename "/d" "/e"]))
    by (vm_compute; reflexivity).
  split; [exact H1|].
  split; [exact (f_equal (fun x => x.1.1) H2)|].
  destruct (UpdateDirDoc_index_follows_backend Env.handle Fixtures.dir_d newdoc w)
    as [_ H].
  specialize (H H1 _ _ _ H2). cbv beta iota in H.
  unfold trace, result. subst p. rewrite H. split; [reflexivity|].
  vm_compute. reflexivity.
Defined.


Section CreateDir.
Context {W : Type} (h : @handler W).

(** X5: [CreateDir] undoes the backend when the index refuses.  The
    directory is made in the backend before the Indexer is asked; if
    [Mkdir] fails the Indexer is not called; if the Indexer fails, the
    directory just made is removed again and the Indexer's error is
    returned, whatever the removal answers. *)
Theorem CreateDir_rolls_back (doc : DirDoc) (pth : string) (w w1 : W) :
  h (DirPath doc) w = (inl pth, w1) ->
  (forall e w2, h (FsMkdir pth 493) w1 = (Some e, w2) ->
     run h (vfsafero.CreateDir doc) w
       = (Returned (Some e), w2, [DirPath doc; FsMkdir pth 493])) /\
  (forall e w2 w3,
     h (FsMkdir pth 493) w1 = (None, w2) ->
     h (IdxCreateDirDoc doc) w2 = (Some e, w3) ->
     run h (vfsafero.CreateDir doc) w
       = (Returned (Some e), (h (FsRemove pth) w3).2,
          [DirPath doc; FsMkdir pth 493; IdxCreateDirDoc doc; FsRemove pth])) /\
  (forall w2 w3,
     h (FsMkdir pth 493) w1 = (None, w2) ->
     h (IdxCreateDirDoc doc) w2 = (None, w3) ->
     run h (vfsafero.CreateDir doc) w
       = (Returned None, w3, [DirPath doc; FsMkdir pth 493; IdxCreateDirDoc doc])).
Proof.
  intros Hp. unfold vfsafero.CreateDir. simpl. rewrite Hp. simpl.
  split; [|split].
  - intros e w2 ->. reflexivity.
  - intros e w2 w3 -> . simpl. intros ->. simpl.
    destruct (h (FsRemove pth) w3). reflexivity.
  - intros w2 w3 ->. simpl. intros ->. reflexivity.
Qed.

End CreateDir.

(** X6: on the reference backend, a [CreateDir] whose index request fails
    leaves no trace: when nothing was at the directory's path and the
    removal is served, the directories, the files and the documents are
    what they were, and the Indexer's error is returned. *)
Theorem CreateDir_failed_index_leaves_no_trace
    (doc : DirDoc) (w : Env.World) (e : error) (fl : list (option error)) :
  Env.faults w = None :: Some e :: fl ->
  next_ok (Env.with_faults w fl) = true ->
  Env.exists_path w (Fullpath doc) = false ->
  let w' := final Env.handle (vfsafero.CreateDir doc) w in
  result Env.handle (vfsafero.CreateDir doc) w = Returned (Some e) /\
  Env.dirs w' = Env.dirs w /\ Env.files w' = Env.files w /\
  Env.dir_docs w' = Env.dir_docs w.
Proof.
  intros Hf Hok Hex w'. subst w'.
  apply orb_false_iff in Hex as [Hfile Hdir].
  assert (Hnone : Env.files w !! Fullpath doc = None).
  { apply bool_decide_eq_false in Hfile.
    destruct (Env.files w !! Fullpath doc) eqn:E; [|reflexivity].
    exfalso. apply Hfile. eauto. }
  assert (Hnotin : Fullpath doc ∉ Env.dirs w)
    by (apply bool_decide_eq_false in Hdir; exact Hdir).
  assert (Hin : bool_decide (Fullpath doc ∈ Env.dirs w ∪ {[Fullpath doc]}) = true)
    by (apply bool_decide_eq_true_2; set_solver).
  unfold vfsafero.CreateDir, result, final. simpl.
  unfold Env.handle. simpl. rewrite Hf. simpl.
  unfold Env.exists_path. simpl. rewrite Hfile, Hdir. simpl.
  unfold next_ok in Hok. simpl in Hok.
  assert (Hex2 : forall w0, Env.dirs w0 = Env.dirs w ∪ {[Fullpath doc]} ->
                            Env.exists_path w0 (Fullpath doc) = true).
  { intros w0 E. unfold Env.exists_path. rewrite E, Hin. apply orb_true_r. }
  destruct fl as [|[e'|] fl]; try discriminate Hok; simpl;
    rewrite Hex2 by reflexivity; simpl;
    (split; [reflexivity|]); (split; [set_solver|]);
    (split; [apply delete_id; exact Hnone | reflexivity]).
Qed.

(** [/new] cannot be indexed. *)
Lemma CreateDir_failed_index_leaves_no_trace_witness :
  let doc := mkDirDoc "n" "1-n" "/new" in
  let down := ErrOther "index unavailable" in
  let w := Env.with_faults Fixtures.tree_world [None; Some down] in
  (Env.faults w = [None; Some down] /\
   next_ok (Env.with_faults w []) = true /\
   Env.exists_path w (Fullpath doc) = false) /\
  result Env.handle (vfsafero.CreateDir doc) w = Returned (Some down) /\
  Env.dirs (final Env.handle (vfsafero.CreateDir doc) w) = Env.dirs w.
Proof.
  intros doc down w.
  assert (H1 : Env.faults w = [None; Some down]) by reflexivity.
  assert (H2 : next_ok (Env.with_faults w []) = true) by reflexivity.
  assert (H3 : Env.exists_path w (Fullpath doc) = false)
    by (vm_compute; reflexivity).
  split; [auto|].
  destruct (CreateDir_failed_index_leaves_no_trace doc w down [] H1 H2 H3)
    as (Hr & Hd & _).
  split; assumption.
Defined.

(** [/new] is made, then refused by the index, then removed. *)
Lemma CreateDir_rolls_back_witness :
  let doc := mkDirDoc "n" "1-n" "/new" in
  let down := ErrOther "index unavailable" in
  let w := Env.with_faults Fixtures.tree_world [None; Some down] in
  Env.handle (DirPath doc) w = (inl "/new", w) /\
  trace Env.handle (vfsafero.CreateDir doc) w
    = [DirPath doc; FsMkdir "/new" 493; IdxCreateDirDoc doc; FsRemove "/new"] /\
  result Env.handle (vfsafero.CreateDir doc) w = Returned (Some down).
Proof.
  intros doc down w.
  assert (H1 : Env.handle (DirPath doc) w = (inl "/new", w)) by reflexivity.
  split; [exact H1|].
  destruct (CreateDir_rolls_back Env.handle doc "/new" w w H1) as (_ & H & _).
  set (w2 := (Env.handle (FsMkdir "/new" 493) w).2).
  set (w3 := (Env.handle (IdxCreateDirDoc doc) w2).2).
  assert (H2 : Env.handle (FsMkdir "/new" 493) w = (None, w2))
    by (vm_compute; reflexivity).
  assert (H3 : Env.handle (IdxCreateDirDoc doc) w2 = (Some down, w3))
    by (vm_compute; reflexivity).
  specialize (H down w2 w3 H2 H3).
  unfold trace, result. rewrite H. split; reflexivity.
Defined.

(** X7: [New] accepts a storage url exactly when the domain is not empty
    and the scheme is [mem], or [file] with a non-empty path.  The file
    system it returns is rooted at the url's path joined with the domain,
    and only the [file] scheme asks for the initialisation of a root
    directory on the host.  An empty path is reported before an empty
    domain, and both before an unsupported scheme. *)
Theorem New_accepts (fsURL : vfsafero.URL) (domain : string) :
  let pth := path.Join [vfsafero.Path fsURL; domain] in
  ((exists afs, vfsafero.New fsURL domain = inl afs) <->
   domain <> "" /\
   (vfsafero.Scheme fsURL = "mem" \/
    vfsafero.Scheme fsURL = "file" /\ vfsafero.Path fsURL <> "")) /\
  (forall afs, vfsafero.New fsURL domain = inl afs ->
     vfsafero.afs_pth afs = pth /\
     (vfsafero.afs_osFS afs = true <-> vfsafero.Scheme fsURL = "file") /\
     vfsafero.afs_fs afs
       = if vfsafero.afs_osFS afs then vfsafero.BasePathOsFs pth
         else vfsafero.MemMapFs) /\
  (vfsafero.Scheme fsURL <> "mem" -> vfsafero.Path fsURL = "" ->
     vfsafero.New fsURL domain
       = inr (ErrOther ("vfsafero: please check the supplied fs url: "
                        ++ vfsafero.URLString fsURL))) /\
  ((vfsafero.Scheme fsURL = "mem" \/ vfsafero.Path fsURL <> "") -> domain = "" ->
     vfsafero.New fsURL domain
       = inr (ErrOther "vfsafero: specified domain is empty")).
Proof.
  intros pth. subst pth. unfold vfsafero.New.
  destruct (String.eqb_spec (vfsafero.Scheme fsURL) "mem") as [Hm|Hm];
    destruct (String.eqb_spec (vfsafero.Path fsURL) "") as [Hp|Hp];
    destruct (String.eqb_spec domain "") as [Hd|Hd];
    destruct (String.eqb_spec (vfsafero.Scheme fsURL) "file") as [Hf|Hf];
    simpl; repeat split; intros;
    repeat match goal with
           | H : exists _, _ |- _ => destruct H
           | H : _ /\ _ |- _ => destruct H
           | H : _ \/ _ |- _ => destruct H
           | H : inl _ = inl _ |- _ => injection H as <-
           | H : inl _ = inr _ |- _ => discriminate H
           | H : inr _ = inl _ |- _ => discriminate H
           end;
    simpl in *; try congruence; eauto.
Qed.

(** A [mem] url without path and the domain [cozy.local] on one hand, no
    domain on the other. *)
Lemma New_accepts_witness :
  let u := vfsafero.mkURL "mem" "" "mem://" in
  (vfsafero.New u "cozy.local"
     = inl (vfsafero.mkAferoVFS vfsafero.MemMapFs "cozy.local" false)) /\
  ((vfsafero.Scheme u = "mem" \/ vfsafero.Path u <> "") /\
   vfsafero.New u "" = inr (ErrOther "vfsafero: specified domain is empty")).
Proof.
  intros u. split; [reflexivity|].
  assert (H : vfsafero.Scheme u = "mem" \/ vfsafero.Path u <> "")
    by (left; reflexivity).
  split; [exact H|].
  destruct (New_accepts u "") as (_ & _ & _ & Hd).
  exact (Hd H eq_refl).
Defined.

Section InitFs.
Variable TrashDirName : string.
Context {W : Type} (h : @handler W).


End InitFs.

(** X9: on the reference backend, [InitFs] of an in-memory file system can
    be repeated: in a healthy environment it returns nil, the trash
    directory exists afterwards, and a second [InitFs] returns nil again
    and changes nothing. *)
Theorem InitFs_idempotent (TrashDirName : string) (afs : vfsafero.aferoVFS)
    (w : Env.World) :
  Env.faults w = [] ->
  vfsafero.afs_osFS afs = false ->
  let p := vfsafero.InitFs TrashDirName afs in
  let w1 := final Env.handle p w in
  result Env.handle p w = Returned None /\
  Env.exists_path w1 TrashDirName = true /\
  result Env.handle p w1 = Returned None /\
  final Env.handle p w1 = w1.
Proof.
  intros Hf Hos p w1.
  assert (Hstep : forall w0, Env.faults w0 = [] ->
            result Env.handle p w0 = Returned None /\
            Env.exists_path (final Env.handle p w0) TrashDirName = true /\
            (Env.exists_path w0 TrashDirName = true -> final Env.handle p w0 = w0)).
  { intros w0 Hf0. rewrite result_healthy, final_healthy by exact Hf0.
    subst p. unfold vfsafero.InitFs, result, final. simpl. rewrite Hos. simpl.
    destruct (Env.exists_path w0 TrashDirName) eqn:Hex; simpl.
    - split; [reflexivity|]. split; [exact Hex|]. intros _. reflexivity.
    - split; [reflexivity|]. split; [|discriminate].
      unfold Env.exists_path. simpl.
      rewrite (bool_decide_eq_true_2 (TrashDirName ∈ _)) by set_solver.
      apply orb_true_r. }
  destruct (Hstep w Hf) as (Hr & Hex & _).
  assert (Hf1 : Env.faults w1 = []) by (apply run_healthy; exact Hf).
  destruct (Hstep w1 Hf1) as (Hr1 & _ & Hsame).
  auto.
Qed.

Lemma InitFs_idempotent_witness :
  let afs := vfsafero.mkAferoVFS vfsafero.MemMapFs "cozy.local" false in
  let p := vfsafero.InitFs "/.cozy_trash" afs in
  (Env.faults Env.empty = [] /\ vfsafero.afs_osFS afs = false) /\
  result Env.handle p Env.empty = Returned None /\
  result Env.handle p (final Env.handle p Env.empty) = Returned None /\
  final Env.handle p (final Env.handle p Env.empty) = final Env.handle p Env.empty.
Proof.
  intros afs p.
  assert (H1 : Env.faults Env.empty = []) by reflexivity.
  assert (H2 : vfsafero.afs_osFS afs = false) by reflexivity.
  split; [auto|].
  destruct (InitFs_idempotent "/.cozy_trash" afs Env.empty H1 H2)
    as (Ha & _ & Hb & Hc).
  auto.
Defined.


(** ** The write session: [Write] *)

Section WriteSession.
Variable md5sum : bytes -> bytes.
Context {W : Type} (h : @handler W).

(** [Write] returns, reaches neither the Indexer nor any backend call but
    the write itself, and never clears a recorded error. *)
Lemma Write_run (fc : vfsafero.aferoFileCreation) (p : bytes) (w : W) :
  exists fc' r w1 t,
    run h (vfsafero.Write fc p) w = (Returned (fc', r), w1, t) /\
    List.filter is_index_write t = [] /\
    List.filter is_fs_op t = [FileWrite (vfsafero.fc_f fc) p] /\
    vfsafero.fc_f fc' = vfsafero.fc_f fc /\
    vfsafero.fc_olddoc fc' = vfsafero.fc_olddoc fc /\
    vfsafero.fc_newpath fc' = vfsafero.fc_newpath fc /\
    vfsafero.fc_bakpath fc' = vfsafero.fc_bakpath fc /\
    (vfsafero.fc_err fc <> None -> vfsafero.fc_err fc' <> None) /\
    (r.2 <> None -> vfsafero.fc_err fc' = r.2).
Proof.
  unfold vfsafero.Write. simpl.
  destruct (h (FileWrite _ _) w) as [[n [e|]] w1]; simpl.
  - do 4 eexists. split; [reflexivity|]. simpl. repeat split; auto; discriminate.
  - destruct (vfsafero.fc_meta fc) as [m|]; simpl.
    + answer h. destruct x as [e|]; simpl.
      * answer h. do 4 eexists. split; [reflexivity|]. simpl.
        repeat split; auto; intros H; exfalso; apply H; reflexivity.
      * do 4 eexists. split; [reflexivity|]. simpl.
        repeat split; auto; intros H; exfalso; apply H; reflexivity.
    + do 4 eexists. split; [reflexivity|]. simpl.
      repeat split; auto; intros H; exfalso; apply H; reflexivity.
Qed.

Lemma write_each_run (chunks : list bytes) :
  forall (fc : vfsafero.aferoFileCreation) (w : W),
  exists fc' w1 t,
    run h (write_each fc chunks) w = (Returned fc', w1, t) /\
    List.filter is_index_write t = [] /\
    vfsafero.fc_f fc' = vfsafero.fc_f fc /\
    vfsafero.fc_olddoc fc' = vfsafero.fc_olddoc fc /\
    vfsafero.fc_newpath fc' = vfsafero.fc_newpath fc /\
    vfsafero.fc_bakpath fc' = vfsafero.fc_bakpath fc /\
    (vfsafero.fc_err fc <> None -> vfsafero.fc_err fc' <> None).
Proof.
  induction chunks as [|p ps IH]; intros fc w.
  - do 3 eexists. split; [reflexivity|]. auto 10.
  - cbn [write_each]. rewrite run_mbind.
    destruct (Write_run fc p w)
      as (fc1 & r & w1 & t1 & -> & Hi1 & _ & Hf1 & Ho1 & Hn1 & Hb1 & He1 & _).
    destruct (IH fc1 w1) as (fc2 & w2 & t2 & -> & Hi2 & Hf2 & Ho2 & Hn2 & Hb2 & He2).
    do 3 eexists. split; [reflexivity|].
    rewrite List.filter_app, Hi1, Hi2.
    repeat split; try congruence. auto.
Qed.


(** X11: metadata extraction is best-effort.  When the backend accepts a
    write but the extractor refuses it, [Write] aborts the extractor,
    detaches it from the session and still returns the backend's count with
    no error; the bytes are counted and hashed as usual. *)
Theorem Write_extractor_failure
    (fc : vfsafero.aferoFileCreation) (p : bytes) (m : MetaExtractor)
    (n : Z) (e : error) (w w1 w2 : W) :
  vfsafero.fc_meta fc = Some m ->
  h (FileWrite (vfsafero.fc_f fc) p) w = ((n, None), w1) ->
  h (MetaWrite m p) w1 = (Some e, w2) ->
  exists fc',
    run h (vfsafero.Write fc p) w
      = (Returned (fc', (n, None)), (h (MetaAbort m e) w2).2,
         [FileWrite (vfsafero.fc_f fc) p; MetaWrite m p; MetaAbort m e]) /\
    vfsafero.fc_meta fc' = None /\
    vfsafero.fc_err fc' = vfsafero.fc_err fc /\
    vfsafero.fc_w fc' = int64 (vfsafero.fc_w fc + int64 n) /\
    vfsafero.fc_hash fc' = vfsafero.fc_hash fc ++ p.
Proof.
  intros Hm Hw Hx. unfold vfsafero.Write. simpl. rewrite Hw. simpl.
  rewrite Hm. simpl. rewrite Hx. simpl.
  destruct (h (MetaAbort m e) w2) as [[] w3]. simpl.
  eexists. split; [reflexivity|]. auto.
Qed.

End WriteSession.


(** The extractor of [/foo] refuses [hello]. *)
Lemma Write_extractor_failure_witness :
  let fc := vfsafero.mkFileCreation "/foo" 0 (Fixtures.foo (-1) None) None
              "/foo" "" [] (Some 0) None in
  let w := Env.with_files Fixtures.indexed {["/foo" := []]} in
  let w1 := Env.with_files Fixtures.indexed {["/foo" := Fixtures.hello]} in
  let unsupported := ErrOther "unsupported format" in
  (vfsafero.fc_meta fc = Some 0 /\
   Fixtures.with_picky_extractor (FileWrite "/foo" Fixtures.hello) w
     = ((5%Z, None), w1) /\
   Fixtures.with_picky_extractor (MetaWrite 0 Fixtures.hello) w1
     = (Some unsupported, w1)) /\
  exists fc',
    result Fixtures.with_picky_extractor (vfsafero.Write fc Fixtures.hello) w
      = Returned (fc', (5%Z, None)) /\
    vfsafero.fc_meta fc' = None /\ vfsafero.fc_err fc' = None /\
    vfsafero.fc_w fc' = 5%Z /\ vfsafero.fc_hash fc' = Fixtures.hello.
Proof.
  intros fc w w1 unsupported.
  assert (H1 : vfsafero.fc_meta fc = Some 0) by reflexivity.
  assert (H2 : Fixtures.with_picky_extractor (FileWrite "/foo" Fixtures.hello) w
               = ((5%Z, None), w1)) by (vm_compute; reflexivity).
  assert (H3 : Fixtures.with_picky_extractor (MetaWrite 0 Fixtures.hello) w1
               = (Some unsupported, w1)) by reflexivity.
  split; [auto|].
  destruct (Write_extractor_failure Fixtures.with_picky_extractor fc Fixtures.hello
              0 5 unsupported w w1 w1 H1 H2 H3) as (fc' & Hrun & Hm & He & Hw & Hh).
  exists fc'. unfold result. rewrite Hrun.
  split; [reflexivity|]. split; [exact Hm|]. split; [exact He|].
  split; [rewrite Hw; reflexivity | rewrite Hh; reflexivity].
Defined.

(** ** Sessions on the reference backend *)

Lemma int64_add_l (a b : Z) : int64 (int64 a + b) = int64 (a + b).
Proof.
  unfold int64. f_equal.
  replace ((a + 2 ^ 63) mod 2 ^ 64 - 2 ^ 63 + b + 2 ^ 63)%Z
    with ((a + 2 ^ 63) mod 2 ^ 64 + b)%Z by lia.
  rewrite Zplus_mod_idemp_l. f_equal. lia.
Qed.

Lemma int64_add_r (a b : Z) : int64 (a + int64 b) = int64 (a + b).
Proof. rewrite (Z.add_comm a), int64_add_l. f_equal. lia. Qed.

Lemma int64_idem (a : Z) : int64 (int64 a) = int64 a.
Proof.
  transitivity (int64 (int64 a + 0)); [f_equal; lia|].
  rewrite int64_add_l. f_equal. lia.
Qed.

Lemma int64_small (a : Z) : (- 2 ^ 63 <= a < 2 ^ 63)%Z -> int64 a = a.
Proof. intros H. unfold int64. rewrite Z.mod_small by lia. lia. Qed.

(** Writing chunks into an open file of the healthy backend: the file
    grows by the chunks, the session counts and hashes them. *)
Lemma write_chunks_serve (chunks : list bytes) :
  forall (fc : vfsafero.aferoFileCreation) (w : Env.World) (c : bytes),
    Env.files w !! vfsafero.fc_f fc = Some c ->
    vfsafero.fc_meta fc = None ->
    int64 (vfsafero.fc_w fc) = vfsafero.fc_w fc ->
    exists w' t,
      run (@Env.serve) (Fixtures.write_chunks fc chunks) w
        = (Returned
             (vfsafero.mkFileCreation (vfsafero.fc_f fc)
                (int64 (vfsafero.fc_w fc + Z.of_nat (List.length (concat chunks))))
                (vfsafero.fc_newdoc fc) (vfsafero.fc_olddoc fc)
                (vfsafero.fc_newpath fc) (vfsafero.fc_bakpath fc)
                (vfsafero.fc_hash fc ++ concat chunks) None (vfsafero.fc_err fc)),
           w', t) /\
      (chunks = [] \/ Env.files w'
                      = <[vfsafero.fc_f fc := c ++ concat chunks]> (Env.files w)) /\
      (chunks = [] -> w' = w) /\
      same_but_files w w' /\
      List.filter is_index_write t = [].
Proof.
  induction chunks as [|p ps IH]; intros fc w c Hc Hm Hr.
  - exists w, []. simpl. rewrite Z.add_0_r, app_nil_r, Hr.
    split; [destruct fc; simpl in *; subst; reflexivity|].
    unfold same_but_files. auto 20.
  - cbn [Fixtures.write_chunks]. unfold vfsafero.Write. simpl.
    rewrite Hc, Hm. simpl.
    set (fc1 := vfsafero.mkFileCreation _ _ _ _ _ _ _ _ _).
    set (w1 := Env.with_files w _).
    destruct (IH fc1 w1 (c ++ p)) as (w' & t & Hrun & Hfiles & Hnil & Hsame & Hidx).
    { simpl. apply lookup_insert_eq. }
    { reflexivity. }
    { simpl. apply int64_idem. }
    rewrite Hrun. simpl.
    exists w', (FileWrite (vfsafero.fc_f fc) p :: t).
    split; [|split; [|split; [|split]]].
    + f_equal. f_equal. f_equal. f_equal.
      * rewrite int64_add_l, length_app, Nat2Z.inj_add.
        match goal with
        | |- int64 (?a + int64 ?n + ?m) = _ =>
            replace (a + int64 n + m)%Z with ((a + m) + int64 n)%Z by lia
        end.
        rewrite int64_add_r. f_equal. lia.
      * rewrite <- app_assoc. reflexivity.
    + right. destruct Hfiles as [-> | Hfiles].
      * rewrite (Hnil eq_refl). simpl. rewrite app_nil_r. reflexivity.
      * rewrite Hfiles. simpl. rewrite insert_insert_eq, <- app_assoc. reflexivity.
    + discriminate.
    + unfold same_but_files in *. simpl in Hsame. exact Hsame.
    + simpl. exact Hidx.
Qed.

Section Upload.
Variable md5sum : bytes -> bytes.

(** What the checks of [Close] leave in the document when they pass. *)
Lemma check_integrity_accepts (newdoc : FileDoc) (sum : bytes) (written : Z) :
  ~ hash_mismatch newdoc sum -> ~ size_mismatch newdoc written ->
  exists doc,
    vfsafero.check_integrity newdoc sum written = (None, doc) /\
    MD5Sum doc = Some sum /\ ByteSize doc = written /\
    DocID doc = DocID newdoc /\ DocRev doc = DocRev newdoc /\
    DirID doc = DirID newdoc /\ DocName doc = DocName newdoc.
Proof.
  intros Hh Hs.
  destruct (check_integrity_pass newdoc sum written Hh Hs) as (doc & Hk & Hm & Hb).
  exists doc. split; [exact Hk|]. split; [|split; [exact Hb|]].
  - rewrite Hm. destruct (MD5Sum newdoc) as [s|] eqn:E; simpl; [|reflexivity].
    destruct (decide (s = sum)) as [->|Hne]; [reflexivity|].
    exfalso. apply Hh. exists s. auto.
  - unfold vfsafero.check_integrity in Hk.
    destruct (negb (bytes_Equal _ sum)); [discriminate Hk|].
    destruct (negb (_ =? written)%Z); [discriminate Hk|].
    injection Hk as <-.
    destruct (MD5Sum newdoc); destruct (_ <? 0)%Z; simpl; auto.
Qed.

(** X12: round trip of a creation on the reference backend.  In a healthy
    environment, when the parent directory is indexed, nothing sits at the
    file's path and the declared hash and size, if any, are those of the
    content, creating the file, writing the chunks and closing returns nil;
    afterwards the backend holds at the file's path exactly the
    concatenation of the chunks, no other file has changed, and the index
    holds the document with the digest and the length of that content. *)
Theorem upload_creates (newdoc : FileDoc) (d : DirDoc) (chunks : list bytes)
    (w : Env.World) :
  Env.faults w = [] ->
  Env.dir_docs w !! DirID newdoc = Some d ->
  let p := path.Join [Fullpath d; DocName newdoc] in
  let data := concat chunks in
  Env.exists_path w p = false ->
  ~ hash_mismatch newdoc (md5sum data) ->
  ~ size_mismatch newdoc (int64 (Z.of_nat (List.length data))) ->
  let session := Fixtures.upload md5sum newdoc None chunks in
  let w' := final Env.handle session w in
  result Env.handle session w = Returned None /\
  Env.files w' !! p = Some data /\
  (forall q, q <> p -> Env.files w' !! q = Env.files w !! q) /\
  exists doc,
    Env.file_docs w' !! DocID newdoc = Some doc /\
    MD5Sum doc = Some (md5sum data) /\
    ByteSize doc = int64 (Z.of_nat (List.length data)) /\
    DirID doc = DirID newdoc /\ DocName doc = DocName newdoc.
Proof.
  intros Hf Hd p data Hex Hh Hs session w'. subst w' session.
  rewrite result_healthy, final_healthy by exact Hf.
  unfold Fixtures.upload, result, final.
  (* CreateFile *)
  rewrite run_mbind.
  assert (Hcreate :
    run (@Env.serve) (vfsafero.CreateFile newdoc None) w
    = (Returned (inl (vfsafero.mkFileCreation p 0 newdoc None p "" [] None None)),
       Env.with_files w (<[p := []]> (Env.files w)),
       [FilePath newdoc; FsOpenFile p vfsafero.O_WRONLY_CREATE_EXCL (Mode newdoc);
        MetaNew newdoc])).
  { unfold vfsafero.CreateFile. simpl. rewrite Hd. simpl. fold p.
    rewrite Hex. reflexivity. }
  rewrite Hcreate. cbv beta iota.
  (* the writes *)
  rewrite run_mbind.
  set (fc0 := vfsafero.mkFileCreation p 0 newdoc None p "" [] None None).
  set (w0 := Env.with_files w (<[p := []]> (Env.files w))).
  destruct (write_chunks_serve chunks fc0 w0 [])
    as (w1 & t1 & Hrun & Hfiles & Hnil & Hsame & _);
    [apply lookup_insert_eq | reflexivity | reflexivity |].
  subst fc0.
  cbn [vfsafero.fc_f vfsafero.fc_w vfsafero.fc_newdoc vfsafero.fc_olddoc
       vfsafero.fc_newpath vfsafero.fc_bakpath vfsafero.fc_hash
       vfsafero.fc_meta vfsafero.fc_err app Z.add] in Hrun, Hfiles.
  fold data in Hrun, Hfiles. rewrite Z.add_0_l in Hrun.
  rewrite Hrun. cbv beta iota.
  set (fc1 := vfsafero.mkFileCreation _ _ _ _ _ _ _ _ _).
  assert (Hfiles1 : Env.files w1 = <[p := data]> (Env.files w)).
  { destruct Hfiles as [-> | Hfiles].
    - rewrite (Hnil eq_refl). reflexivity.
    - rewrite Hfiles. simpl. apply insert_insert_eq. }
  (* Close *)
  rewrite run_mbind.
  destruct (check_integrity_accepts newdoc (md5sum data)
              (int64 (Z.of_nat (List.length data))) Hh Hs)
    as (doc & Hk & Hm & Hb & Hid & _ & Hdir & Hname).
  pose proof (Close_run md5sum (@Env.serve) fc1 w1 w1 w1 newdoc []
                eq_refl eq_refl eq_refl) as Hclose.
  subst fc1.
  cbn [vfsafero.fc_hash vfsafero.fc_w vfsafero.fc_olddoc vfsafero.fc_f] in Hclose.
  rewrite Hk in Hclose.
  change (index_answer (@Env.serve) _ doc w1)
    with (@None error,
          Env.with_file_docs w1 (<[DocID doc := doc]> (Env.file_docs w1)))
    in Hclose.
  cbv beta iota in Hclose.
  change (final (@Env.serve) (vfsafero.Close_deferred _ None) ?x) with x in Hclose.
  rewrite Hclose. cbn.
  split; [reflexivity|].
  rewrite Hfiles1.
  split; [apply lookup_insert_eq|].
  split; [intros q Hq; apply lookup_insert_ne; auto|].
  exists doc. rewrite Hid. split; [apply lookup_insert_eq|]. auto.
Qed.

End Upload.

(** [/foo] is created with [hello] and [abc], the size 8 being declared. *)
Lemma upload_creates_witness :
  let newdoc := Fixtures.foo 8 None in
  let chunks := [Fixtures.hello; Fixtures.abc] in
  let session := Fixtures.upload Fixtures.plain_sum newdoc None chunks in
  (Env.faults Fixtures.indexed = [] /\
   Env.dir_docs Fixtures.indexed !! DirID newdoc = Some Fixtures.root /\
   Env.exists_path Fixtures.indexed "/foo" = false) /\
  result Env.handle session Fixtures.indexed = Returned None /\
  Env.files (final Env.handle session Fixtures.indexed) !! "/foo"
    = Some (list_byte_of_string "helloabc").
Proof.
  intros newdoc chunks session.
  assert (H1 : Env.faults Fixtures.indexed = []) by reflexivity.
  assert (H2 : Env.dir_docs Fixtures.indexed !! DirID newdoc = Some Fixtures.root)
    by (vm_compute; reflexivity).
  assert (H3 : Env.exists_path Fixtures.indexed
                 (path.Join [Fullpath Fixtures.root; DocName newdoc]) = false)
    by (vm_compute; reflexivity).
  assert (H4 : ~ hash_mismatch newdoc (Fixtures.plain_sum (concat chunks)))
    by (intros (s & Hs & _); discriminate Hs).
  assert (H5 : ~ size_mismatch newdoc (int64 (Z.of_nat (List.length (concat chunks)))))
    by (intros [_ Hs]; apply Hs; reflexivity).
  split; [auto|].
  destruct (upload_creates Fixtures.plain_sum newdoc Fixtures.root chunks
              Fixtures.indexed H1 H2 H3 H4 H5) as (Hr & Hc & _).
  split; [exact Hr | exact Hc].
Defined.

(** ** Opening a write session *)

Section CreateSession.
Context {W : Type} (h : @handler W).

(** X13: [CreateFile] does not put the backup back.  When a document is
    overwritten, its file has been renamed to the backup path and the
    exclusive creation of the new file then fails, [CreateFile] returns the
    error of the creation and issues no further request: the former content
    is left at the backup path, and nothing is left at the document's
    path by [CreateFile]. *)
Theorem CreateFile_create_failure_strands_backup
    (newdoc olddoc : FileDoc) (newpath : string) (e : error)
    (w w1 w2 w3 : W) (t : list op) :
  h (FilePath newdoc) w = (inl newpath, w1) ->
  run h (vfsafero.safeRenameFile newpath (vfsafero.backup_path olddoc)) w1
    = (Returned None, w2, t) ->
  h (FsOpenFile newpath vfsafero.O_WRONLY_CREATE_EXCL (Mode newdoc)) w2
    = (inr e, w3) ->
  run h (vfsafero.CreateFile newdoc (Some olddoc)) w
    = (Returned (inr e), w3,
       FilePath newdoc :: t ++
       [FsOpenFile newpath vfsafero.O_WRONLY_CREATE_EXCL (Mode newdoc)]).
Proof.
  intros Hp Hr Ho. unfold vfsafero.CreateFile.
  rewrite (run_call_bind h (FilePath newdoc)), Hp. cbv beta iota.
  rewrite run_mbind. cbn [from_option]. rewrite Hr. cbv beta iota.
  unfold vfsafero.safeCreateFile.
  change (Mode (SetCreatedAt (SetRev (SetID newdoc (DocID olddoc)) (DocRev olddoc))
                             (CreatedAt olddoc))) with (Mode newdoc).
  rewrite (run_call_bind h (FsOpenFile newpath _ _)), Ho. reflexivity.
Qed.

(** X14: the session that [CreateFile] opens.  Whenever [CreateFile]
    returns a session for the overwrite of [olddoc], the document of the
    session carries the identifier, the revision and the creation date of
    [olddoc] and every other field of [newdoc]; the session remembers
    [olddoc] and its hidden backup path [/.<id>_<rev>], has counted no byte,
    hashed nothing and recorded no error, and the file was opened
    exclusively at the path of [newdoc]. *)
Theorem CreateFile_session (newdoc olddoc : FileDoc)
    (fc : vfsafero.aferoFileCreation) (w : W) :
  result h (vfsafero.CreateFile newdoc (Some olddoc)) w = Returned (inl fc) ->
  let doc := vfsafero.fc_newdoc fc in
  (DocID doc = DocID olddoc /\ DocRev doc = DocRev olddoc /\
   CreatedAt doc = CreatedAt olddoc) /\
  (DirID doc = DirID newdoc /\ DocName doc = DocName newdoc /\
   ByteSize doc = ByteSize newdoc /\ MD5Sum doc = MD5Sum newdoc /\
   Executable doc = Executable newdoc) /\
  vfsafero.fc_olddoc fc = Some olddoc /\
  vfsafero.fc_bakpath fc = vfsafero.backup_path olddoc /\
  vfsafero.fc_w fc = 0%Z /\ vfsafero.fc_hash fc = [] /\
  vfsafero.fc_err fc = None /\
  FsOpenFile (vfsafero.fc_newpath fc) vfsafero.O_WRONLY_CREATE_EXCL (Mode newdoc)
    ∈ trace h (vfsafero.CreateFile newdoc (Some olddoc)) w.
Proof.
  unfold result, trace, vfsafero.CreateFile.
  rewrite (run_call_bind h (FilePath newdoc)).
  destruct (h (FilePath newdoc) w) as [[newpath|e] w1]; [|discriminate].
  cbv beta iota. rewrite run_mbind. cbn [from_option].
  destruct (run h (vfsafero.safeRenameFile _ _) w1) as [[[[e|]|msg] w2] t];
    cbv beta iota; try discriminate.
  unfold vfsafero.safeCreateFile.
  change (Mode (SetCreatedAt (SetRev (SetID newdoc (DocID olddoc)) (DocRev olddoc))
                             (CreatedAt olddoc))) with (Mode newdoc).
  rewrite (run_call_bind h (FsOpenFile newpath _ _)).
  destruct (h (FsOpenFile newpath _ _) w2) as [[f|e] w3]; [|discriminate].
  cbv beta iota.
  rewrite (run_call_bind h (MetaNew _)).
  destruct (h (MetaNew _) w3) as [m w4]. simpl.
  intros [= <-]. simpl. repeat split; try reflexivity.
  rewrite !elem_of_cons, !elem_of_app, !elem_of_cons. tauto.
Qed.

End CreateSession.

(** [/foo] is moved to its backup path, then the creation fails. *)
Lemma CreateFile_create_failure_strands_backup_witness :
  let newdoc := Fixtures.foo 5 None in
  let full := ErrOther "no space left on device" in
  let w := Env.with_faults (Fixtures.with_foo Fixtures.abc)
             [None; None; None; Some full] in
  let w' := final Env.handle (vfsafero.CreateFile newdoc (Some Fixtures.foo_old)) w in
  result Env.handle (vfsafero.CreateFile newdoc (Some Fixtures.foo_old)) w
    = Returned (inr full) /\
  Env.files w' !! "/foo" = None /\
  Env.files w' !! "/.id1_1-a" = Some Fixtures.abc.
Proof.
  intros newdoc full w w'.
  set (w1 := (Env.handle (FilePath newdoc) w).2).
  set (rn := run Env.handle
               (vfsafero.safeRenameFile "/foo"
                  (vfsafero.backup_path Fixtures.foo_old)) w1).
  set (w2 := rn.1.2).
  set (w3 := (Env.handle (FsOpenFile "/foo" vfsafero.O_WRONLY_CREATE_EXCL
                                     (Mode newdoc)) w2).2).
  assert (H1 : Env.handle (FilePath newdoc) w = (inl "/foo", w1))
    by (vm_compute; reflexivity).
  assert (H2 : rn = (Returned None, w2, rn.2)) by (vm_compute; reflexivity).
  assert (H3 : Env.handle (FsOpenFile "/foo" vfsafero.O_WRONLY_CREATE_EXCL
                                      (Mode newdoc)) w2 = (inr full, w3))
    by (vm_compute; reflexivity).
  pose proof (CreateFile_create_failure_strands_backup Env.handle newdoc
                Fixtures.foo_old "/foo" full w w1 w2 w3 rn.2 H1 H2 H3) as H.
  subst w'. unfold result, final. rewrite H. cbn [fst snd].
  split; [reflexivity|]. split; vm_compute; reflexivity.
Defined.

(** The session opened to overwrite [/foo]. *)
Lemma CreateFile_session_witness :
  let newdoc := Fixtures.foo 5 None in
  let w := Fixtures.with_foo Fixtures.abc in
  let fc := vfsafero.mkFileCreation "/foo" 0
              (SetCreatedAt (SetRev (SetID newdoc "id1") "1-a") 0)
              (Some Fixtures.foo_old) "/foo" "/.id1_1-a" [] None None in
  result Env.handle (vfsafero.CreateFile newdoc (Some Fixtures.foo_old)) w
    = Returned (inl fc) /\
  vfsafero.fc_bakpath fc = vfsafero.backup_path Fixtures.foo_old /\
  FsOpenFile "/foo" vfsafero.O_WRONLY_CREATE_EXCL 420
    ∈ trace Env.handle (vfsafero.CreateFile newdoc (Some Fixtures.foo_old)) w.
Proof.
  intros newdoc w fc.
  assert (Hr : result Env.handle
                 (vfsafero.CreateFile newdoc (Some Fixtures.foo_old)) w
               = Returned (inl fc)) by (vm_compute; reflexivity).
  split; [exact Hr|].
  destruct (CreateFile_session Env.handle newdoc Fixtures.foo_old fc w Hr)
    as (_ & _ & _ & Hbak & _ & _ & _ & Hopen).
  split; [exact Hbak | exact Hopen].
Defined.

Section Overwrite.
Variable md5sum : bytes -> bytes.

(** X15: round trip of an overwrite on the reference backend.  In a healthy
    environment, when the file of the document holds [old], nothing sits at
    the backup path and the declared hash and size, if any, are those of
    the new content, overwriting returns nil; afterwards the backend holds
    the concatenation of the chunks at the file's path and nothing at the
    backup path, no other file has changed, and the index holds, under the
    identifier of the old document, a document with the digest and the
    length of the new content and the revision of the old one. *)
Theorem upload_overwrites (newdoc olddoc : FileDoc) (d : DirDoc)
    (chunks : list bytes) (old : bytes) (w : Env.World) :
  Env.faults w = [] ->
  Env.dir_docs w !! DirID newdoc = Some d ->
  let p := path.Join [Fullpath d; DocName newdoc] in
  let bak := vfsafero.backup_path olddoc in
  let data := concat chunks in
  path.IsAbs p = true -> path.Clean p = p ->
  path.IsAbs bak = true -> path.Clean bak = bak ->
  p <> bak ->
  Env.files w !! p = Some old -> p ∉ Env.dirs w ->
  Env.exists_path w bak = false ->
  ~ hash_mismatch newdoc (md5sum data) ->
  ~ size_mismatch newdoc (int64 (Z.of_nat (List.length data))) ->
  let session := Fixtures.upload md5sum newdoc (Some olddoc) chunks in
  let w' := final Env.handle session w in
  result Env.handle session w = Returned None /\
  Env.files w' !! p = Some data /\
  Env.files w' !! bak = None /\
  (forall q, q <> p -> q <> bak -> Env.files w' !! q = Env.files w !! q) /\
  exists doc,
    Env.file_docs w' !! DocID olddoc = Some doc /\
    MD5Sum doc = Some (md5sum data) /\
    ByteSize doc = int64 (Z.of_nat (List.length data)) /\
    DocRev doc = DocRev olddoc /\ DocName doc = DocName newdoc.
Proof.
  intros Hf Hd p bak data Hpa Hpc Hba Hbc Hne Hold Hnd Hbak Hh Hs session w'.
  subst w' session.
  rewrite result_healthy, final_healthy by exact Hf.
  unfold Fixtures.upload, result, final.
  set (newdoc' := SetCreatedAt (SetRev (SetID newdoc (DocID olddoc)) (DocRev olddoc))
                               (CreatedAt olddoc)).
  set (w1 := Env.with_files w (<[bak := old]> (delete p (Env.files w)))).
  set (w2 := Env.with_files w1 (<[p := []]> (Env.files w1))).
  (* CreateFile *)
  assert (Hex1 : Env.exists_path w1 p = false).
  { unfold Env.exists_path. subst w1. simpl.
    rewrite lookup_insert_ne by auto. rewrite lookup_delete_eq.
    rewrite bool_decide_eq_false_2 by (intros [? [=]]).
    rewrite bool_decide_eq_false_2 by exact Hnd. reflexivity. }
  assert (Hcreate :
    run (@Env.serve) (vfsafero.CreateFile newdoc (Some olddoc)) w
    = (Returned (inl (vfsafero.mkFileCreation p 0 newdoc' (Some olddoc) p bak
                                              [] None None)),
       w2,
       [FilePath newdoc; FsStat bak; FsRename p bak;
        FsOpenFile p vfsafero.O_WRONLY_CREATE_EXCL (Mode newdoc); MetaNew newdoc'])).
  { unfold vfsafero.CreateFile.
    rewrite (run_call_bind (@Env.serve) (FilePath newdoc)).
    assert (Hpath : Env.serve (FilePath newdoc) w = (inl p, w)).
    { simpl. rewrite Hd. reflexivity. }
    rewrite Hpath. cbv beta iota. rewrite run_mbind. cbn [from_option].
    fold bak.
    assert (Hren : run (@Env.serve) (vfsafero.safeRenameFile p bak) w
                   = (Returned None, w1, [FsStat bak; FsRename p bak])).
    { unfold vfsafero.safeRenameFile. rewrite Hpc, Hbc, Hpa, Hba. simpl.
      rewrite Hbak. simpl. rewrite Hold. reflexivity. }
    rewrite Hren. cbv beta iota. fold newdoc'.
    unfold vfsafero.safeCreateFile.
    rewrite (run_call_bind (@Env.serve) (FsOpenFile p _ _)).
    assert (Hopen : Env.serve (FsOpenFile p vfsafero.O_WRONLY_CREATE_EXCL
                                          (Mode newdoc')) w1 = (inl p, w2)).
    { simpl. rewrite Hex1. reflexivity. }
    rewrite Hopen. reflexivity. }
  rewrite run_mbind, Hcreate. cbv beta iota.
  (* the writes *)
  rewrite run_mbind.
  set (fc0 := vfsafero.mkFileCreation p 0 newdoc' (Some olddoc) p bak [] None None).
  destruct (write_chunks_serve chunks fc0 w2 [])
    as (w3 & t3 & Hrun & Hfiles & Hnil & Hsame & _);
    [apply lookup_insert_eq | reflexivity | reflexivity |].
  subst fc0.
  cbn [vfsafero.fc_f vfsafero.fc_w vfsafero.fc_newdoc vfsafero.fc_olddoc
       vfsafero.fc_newpath vfsafero.fc_bakpath vfsafero.fc_hash
       vfsafero.fc_meta vfsafero.fc_err app] in Hrun, Hfiles.
  fold data in Hrun, Hfiles. rewrite Z.add_0_l in Hrun.
  rewrite Hrun. cbv beta iota.
  set (fc1 := vfsafero.mkFileCreation _ _ _ _ _ _ _ _ _).
  assert (Hfiles3 : Env.files w3 = <[p := data]> (<[bak := old]> (delete p (Env.files w)))).
  { destruct Hfiles as [-> | Hfiles].
    - rewrite (Hnil eq_refl). reflexivity.
    - rewrite Hfiles. simpl. apply insert_insert_eq. }
  assert (Hdocs3 : Env.file_docs w3 = Env.file_docs w).
  { destruct Hsame as (_ & _ & -> & _). reflexivity. }
  assert (Hdirs3 : Env.dirs w3 = Env.dirs w).
  { destruct Hsame as (-> & _). reflexivity. }
  (* Close *)
  rewrite run_mbind.
  assert (Hh' : ~ hash_mismatch newdoc' (md5sum data)) by exact Hh.
  assert (Hs' : ~ size_mismatch newdoc' (int64 (Z.of_nat (List.length data))))
    by exact Hs.
  destruct (check_integrity_accepts newdoc' (md5sum data)
              (int64 (Z.of_nat (List.length data))) Hh' Hs')
    as (doc & Hk & Hm & Hb & Hid & Hrev & Hdir & Hname).
  pose proof (Close_run md5sum (@Env.serve) fc1 w3 w3 w3 newdoc' []
                eq_refl eq_refl eq_refl) as Hclose.
  subst fc1.
  cbn [vfsafero.fc_hash vfsafero.fc_w vfsafero.fc_olddoc vfsafero.fc_f] in Hclose.
  rewrite Hk in Hclose.
  set (w4 := Env.with_file_docs w3 (<[DocID doc := doc]> (Env.file_docs w3))).
  change (index_answer (@Env.serve) _ doc w3) with (@None error, w4) in Hclose.
  cbv beta iota in Hclose.
  assert (Hex4 : Env.exists_path w4 bak = true).
  { unfold Env.exists_path. subst w4. simpl. rewrite Hfiles3.
    rewrite lookup_insert_ne by auto. rewrite lookup_insert_eq.
    rewrite bool_decide_eq_true_2 by eauto. reflexivity. }
  assert (Hdef : final (@Env.serve)
                   (vfsafero.Close_deferred
                      (vfsafero.mkFileCreation p
                         (int64 (Z.of_nat (List.length data))) newdoc'
                         (Some olddoc) p bak data None None) None) w4
                 = Env.with_dirs (Env.with_files w4 (delete bak (Env.files w4)))
                                 (Env.dirs w4 ∖ {[bak]})).
  { unfold vfsafero.Close_deferred, final. simpl. rewrite Hex4. reflexivity. }
  rewrite Hdef in Hclose. rewrite Hclose. cbn.
  split; [reflexivity|].
  rewrite Hfiles3.
  split; [rewrite lookup_delete_ne by auto; apply lookup_insert_eq|].
  split; [apply lookup_delete_eq|].
  split.
  - intros q Hq1 Hq2. rewrite lookup_delete_ne by auto.
    rewrite !lookup_insert_ne by auto. apply lookup_delete_ne. auto.
  - exists doc. rewrite Hdocs3.
    replace (DocID olddoc) with (DocID doc) by exact Hid.
    split; [apply lookup_insert_eq|]. auto.
Qed.

End Overwrite.

(** [/foo], holding [abc], is overwritten with [hello]. *)
Lemma upload_overwrites_witness :
  let newdoc := Fixtures.foo (-1) None in
  let w := Fixtures.with_foo Fixtures.abc in
  let session := Fixtures.upload Fixtures.plain_sum newdoc
                   (Some Fixtures.foo_old) [Fixtures.hello] in
  (Env.faults w = [] /\ Env.files w !! "/foo" = Some Fixtures.abc /\
   Env.exists_path w "/.id1_1-a" = false) /\
  result Env.handle session w = Returned None /\
  Env.files (final Env.handle session w) !! "/foo" = Some Fixtures.hello /\
  Env.files (final Env.handle session w) !! "/.id1_1-a" = None.
Proof.
  intros newdoc w session.
  assert (H1 : Env.faults w = []) by reflexivity.
  assert (H2 : Env.dir_docs w !! DirID newdoc = Some Fixtures.root)
    by (vm_compute; reflexivity).
  assert (H3 : path.IsAbs (path.Join [Fullpath Fixtures.root; DocName newdoc]) = true)
    by (vm_compute; reflexivity).
  assert (H4 : path.Clean (path.Join [Fullpath Fixtures.root; DocName newdoc])
               = path.Join [Fullpath Fixtures.root; DocName newdoc])
    by (vm_compute; reflexivity).
  assert (H5 : path.IsAbs (vfsafero.backup_path Fixtures.foo_old) = true)
    by (vm_compute; reflexivity).
  assert (H6 : path.Clean (vfsafero.backup_path Fixtures.foo_old)
               = vfsafero.backup_path Fixtures.foo_old)
    by (vm_compute; reflexivity).
  assert (H7 : path.Join [Fullpath Fixtures.root; DocName newdoc]
               <> vfsafero.backup_path Fixtures.foo_old)
    by (intros H; vm_compute in H; discriminate H).
  assert (H8 : Env.files w !! path.Join [Fullpath Fixtures.root; DocName newdoc]
               = Some Fixtures.abc)
    by (vm_compute; reflexivity).
  assert (H9 : path.Join [Fullpath Fixtures.root; DocName newdoc] ∉ Env.dirs w).
  { apply (bool_decide_eq_false_1 (_ ∈ _)). vm_compute. reflexivity. }
  assert (H10 : Env.exists_path w (vfsafero.backup_path Fixtures.foo_old) = false)
    by (vm_compute; reflexivity).
  assert (H11 : ~ hash_mismatch newdoc
                  (Fixtures.plain_sum (concat [Fixtures.hello])))
    by (intros (s & Hs & _); discriminate Hs).
  assert (H12 : ~ size_mismatch newdoc
                  (int64 (Z.of_nat (List.length (concat [Fixtures.hello])))))
    by (intros [Hs _]; apply Hs; reflexivity).
  split; [auto|].
  destruct (upload_overwrites Fixtures.plain_sum newdoc Fixtures.foo_old
              Fixtures.root [Fixtures.hello] Fixtures.abc w
              H1 H2 H3 H4 H5 H6 H7 H8 H9 H10 H11 H12) as (Hr & Hc & Hb & _).
  split; [exact Hr|]. split; [exact Hc | exact Hb].
Defined.

(** ** Removing a file, and the file system itself *)

Section DestroyOne.
Context {W : Type} (h : @handler W).

(** X16: [DestroyFile] removes the file before the document and undoes
    nothing.  If the path cannot be resolved or the backend cannot remove
    the file, that error is returned and the Indexer is not called, so the
    document stays.  If the file is removed and the Indexer then fails,
    its error is returned and nothing is issued after it: the file is not
    restored. *)
Theorem DestroyFile_backend_before_index (doc : FileDoc) (w : W) :
  (forall e w1, h (FilePath doc) w = (inr e, w1) ->
     run h (vfsafero.DestroyFile doc) w = (Returned (Some e), w1, [FilePath doc])) /\
  (forall p e w1 w2,
     h (FilePath doc) w = (inl p, w1) -> h (FsRemove p) w1 = (Some e, w2) ->
     run h (vfsafero.DestroyFile doc) w
       = (Returned (Some e), w2, [FilePath doc; FsRemove p])) /\
  (forall p r w1 w2 w3,
     h (FilePath doc) w = (inl p, w1) -> h (FsRemove p) w1 = (None, w2) ->
     h (IdxDeleteFileDoc doc) w2 = (r, w3) ->
     run h (vfsafero.DestroyFile doc) w
       = (Returned r, w3, [FilePath doc; FsRemove p; IdxDeleteFileDoc doc])).
Proof.
  unfold vfsafero.DestroyFile. split; [|split].
  - intros e w1 Hp. rewrite (run_call_bind h (FilePath doc)), Hp. reflexivity.
  - intros p e w1 w2 Hp Hr.
    rewrite (run_call_bind h (FilePath doc)), Hp. cbv beta iota.
    rewrite (run_call_bind h (FsRemove p)), Hr. reflexivity.
  - intros p r w1 w2 w3 Hp Hr Hi.
    rewrite (run_call_bind h (FilePath doc)), Hp. cbv beta iota.
    rewrite (run_call_bind h (FsRemove p)), Hr. cbv beta iota.
    simpl. rewrite Hi. reflexivity.
Qed.

(** X17: [Delete] after [New].  A file system that [New] built from a
    [mem] url is deleted without any request, and it returns nil; one built
    from a [file] url asks the host, once, to remove the url's path joined
    with the domain, and returns the host's answer.  The backend and the
    index are never asked anything. *)
Theorem Delete_after_New (fsURL : vfsafero.URL) (domain : string)
    (afs : vfsafero.aferoVFS) (w : W) :
  vfsafero.New fsURL domain = inl afs ->
  let root := OsRemoveAll (path.Join [vfsafero.Path fsURL; domain]) in
  (vfsafero.Scheme fsURL = "mem" /\
   run h (vfsafero.Delete afs) w = (Returned None, w, [])) \/
  (vfsafero.Scheme fsURL = "file" /\
   run h (vfsafero.Delete afs) w = (Returned (h root w).1, (h root w).2, [root])).
Proof.
  intros Hnew root. unfold vfsafero.New in Hnew.
  destruct (negb (String.eqb (vfsafero.Scheme fsURL) "mem")
            && String.eqb (vfsafero.Path fsURL) ""); [discriminate|].
  destruct (String.eqb domain ""); [discriminate|].
  destruct (String.eqb (vfsafero.Scheme fsURL) "file") eqn:Hfile.
  - right. apply String.eqb_eq in Hfile. split; [exact Hfile|].
    injection Hnew as <-. unfold vfsafero.Delete. simpl. fold root.
    destruct (h root w) as [r w1]. reflexivity.
  - destruct (String.eqb (vfsafero.Scheme fsURL) "mem") eqn:Hmem; [|discriminate].
    left. apply String.eqb_eq in Hmem. split; [exact Hmem|].
    injection Hnew as <-. reflexivity.
Qed.

End DestroyOne.

(** The index refuses to delete the document of [/d/a]: the file is gone,
    the document is still there.  The document [ghost] has no file: the
    index is not asked.  A document of an unknown directory has no path. *)
Lemma DestroyFile_backend_before_index_witness :
  let doc := Fixtures.file_in_d "a" in
  let ghost := Fixtures.file_in_d "ghost" in
  let orphan := mkFileDoc "o" "1-o" "nowhere" "o" 0 0 None false None in
  let down := ErrOther "index unavailable" in
  let w := Env.with_faults Fixtures.tree_world [None; None; Some down] in
  let w' := final Env.handle (vfsafero.DestroyFile doc) w in
  (result Env.handle (vfsafero.DestroyFile doc) w = Returned (Some down) /\
   Env.files w' !! "/d/a" = None /\
   Env.file_docs w' !! "a" = Some doc) /\
  trace Env.handle (vfsafero.DestroyFile ghost) Fixtures.tree_world
    = [FilePath ghost; FsRemove "/d/ghost"] /\
  trace Env.handle (vfsafero.DestroyFile orphan) Fixtures.tree_world
    = [FilePath orphan].
Proof.
  intros doc ghost orphan down w w'.
  split; [|split].
  - set (w1 := (Env.handle (FilePath doc) w).2).
    set (w2 := (Env.handle (FsRemove "/d/a") w1).2).
    set (w3 := (Env.handle (IdxDeleteFileDoc doc) w2).2).
    assert (H1 : Env.handle (FilePath doc) w = (inl "/d/a", w1))
      by (vm_compute; reflexivity).
    assert (H2 : Env.handle (FsRemove "/d/a") w1 = (None, w2))
      by (vm_compute; reflexivity).
    assert (H3 : Env.handle (IdxDeleteFileDoc doc) w2 = (Some down, w3))
      by (vm_compute; reflexivity).
    destruct (DestroyFile_backend_before_index Env.handle doc w) as (_ & _ & H).
    specialize (H "/d/a" (Some down) w1 w2 w3 H1 H2 H3).
    subst w'. unfold result, final. rewrite H. cbn [fst snd].
    split; [reflexivity|]. split; vm_compute; reflexivity.
  - assert (H1 : Env.handle (FilePath ghost) Fixtures.tree_world
                 = (inl "/d/ghost", Fixtures.tree_world))
      by (vm_compute; reflexivity).
    assert (H2 : Env.handle (FsRemove "/d/ghost") Fixtures.tree_world
                 = (Some (PathError "remove" "/d/ghost" ErrNotExist),
                    Fixtures.tree_world))
      by (vm_compute; reflexivity).
    destruct (DestroyFile_backend_before_index Env.handle ghost Fixtures.tree_world)
      as (_ & H & _).
    unfold trace. rewrite (H _ _ _ _ H1 H2). reflexivity.
  - assert (H1 : Env.handle (FilePath orphan) Fixtures.tree_world
                 = (inr (ErrOther "parent directory does not exist"),
                    Fixtures.tree_world))
      by (vm_compute; reflexivity).
    destruct (DestroyFile_backend_before_index Env.handle orphan Fixtures.tree_world)
      as (H & _).
    unfold trace. rewrite (H _ _ H1). reflexivity.
Defined.

(** A file system on the host, and one in memory. *)
Lemma Delete_after_New_witness :
  let url := vfsafero.mkURL "file" "/var/lib/cozy" "file:///var/lib/cozy" in
  let afs := vfsafero.mkAferoVFS (vfsafero.BasePathOsFs "/var/lib/cozy/alice.example")
               "/var/lib/cozy/alice.example" true in
  vfsafero.New url "alice.example" = inl afs /\
  trace Env.handle (vfsafero.Delete afs) Env.empty
    = [OsRemoveAll "/var/lib/cozy/alice.example"].
Proof.
  intros url afs.
  assert (H1 : vfsafero.New url "alice.example" = inl afs)
    by (vm_compute; reflexivity).
  split; [exact H1|].
  destruct (Delete_after_New Env.handle url "alice.example" afs Env.empty H1)
    as [[Hs _] | [_ H]]; [discriminate Hs|].
  unfold trace. rewrite H. vm_compute. reflexivity.
Defined.

(** ** The copiers: staging and promotion *)

Lemma prefix_app_self (pre s : string) : String.prefix pre (pre ++ s) = true.
Proof.
  induction pre as [|c pre IH]; simpl.
  - destruct s; reflexivity.
  - destruct (Ascii.ascii_dec c c) as [_|Hne]; [exact IH | contradiction].
Qed.

Lemma substring_whole (s : string) : String.substring 0 (String.length s) s = s.
Proof. induction s as [|c s IH]; simpl; [reflexivity | rewrite IH; reflexivity]. Qed.

Lemma length_app_string (a b : string) :
  String.length (a ++ b) = String.length a + String.length b.
Proof. induction a as [|c a IH]; simpl; [reflexivity | rewrite IH; reflexivity]. Qed.

Lemma substring_skip (pre s : string) :
  String.substring (String.length pre) (String.length s) (pre ++ s) = s.
Proof.
  induction pre as [|c pre IH]; simpl; [apply substring_whole | exact IH].
Qed.

Lemma TrimPrefix_app (pre s : string) : strings.TrimPrefix (pre ++ s) pre = s.
Proof.
  unfold strings.TrimPrefix, strings.HasPrefix. rewrite prefix_app_self.
  rewrite length_app_string.
  replace (String.length pre + String.length s - String.length pre)
    with (String.length s) by lia.
  apply substring_skip.
Qed.

Section Staging.
Variable gzip : bytes -> bytes.
Variable MIMETypeByExtension : string -> string.
Variable MIMETypeFromReader : Reader -> string * Reader.
Context {W : Type} (h : @handler W).

(** X18: a [Start] that finds the application installed leaves the copier
    unusable.  Whenever [Start], on a copier fresh from its constructor,
    reports that the artifact exists, a [Copy] on that copier panics and
    issues no request.  This holds for the swift and for the afero
    copier. *)
Theorem Copy_after_existing_panics (slug version : string) :
  (forall container f' err (w : W),
     result h (apps.swift_Start (apps.NewSwiftCopier container) slug version) w
       = Returned (f', (true, err)) ->
     forall stat src (w' : W),
       run h (apps.swift_Copy gzip MIMETypeByExtension MIMETypeFromReader
                              f' stat src) w'
         = (Panicked apps.panic_msg, w', [])) /\
  (forall f' err (w : W),
     result h (apps.afero_Start apps.NewAferoCopier slug version) w
       = Returned (f', (true, err)) ->
     forall stat src (w' : W),
       run h (apps.afero_Copy gzip f' stat src) w'
         = (Panicked apps.panic_msg, w', [])).
Proof.
  split.
  - intros container f' err w Hs stat src w'.
    apply swift_Copy_not_started.
    revert Hs. unfold apps.swift_Start, result. simpl.
    answer h. destruct x as [e|]; simpl.
    + destruct (bool_decide (e ≠ ObjectNotFound)); simpl; [intros [=]|].
      answer h.
      destruct (bool_decide (x = Some ContainerNotFound)); simpl.
      * answer h. destruct x0 as [e'|]; simpl; [intros [=]|].
        answer h. intros [=].
      * answer h. intros [=].
    + intros [= <- _]. reflexivity.
  - intros f' err w Hs stat src w'.
    apply afero_Copy_not_started.
    revert Hs. unfold apps.afero_Start, result. simpl.
    answer h. destruct x as [ex e]. simpl.
    destruct (bool_decide (e ≠ None) || ex); simpl.
    + intros [= <- _ _]. reflexivity.
    + answer h. destruct x as [e'|]; simpl; [intros [=]|].
      answer h. destruct x as [tmp|e']; simpl; intros [=].
Qed.

(** X19: where [Commit] moves a staged object.  An object named by the
    staging prefix followed by [rel] is moved to [rel] joined to
    [identifier/version]; an object whose name does not start with the
    staging prefix keeps its whole name under [identifier/version]. *)
Theorem dst_name_relative (f : apps.swiftCopier) :
  (forall rel, apps.dst_name f (apps.sc_tmpObj f ++ rel)
               = path.Join [apps.sc_appObj f; rel]) /\
  (forall name, strings.HasPrefix name (apps.sc_tmpObj f) = false ->
                apps.dst_name f name = path.Join [apps.sc_appObj f; name]).
Proof.
  unfold apps.dst_name. split.
  - intros rel. rewrite TrimPrefix_app. reflexivity.
  - intros name Hp. unfold strings.TrimPrefix. rewrite Hp. reflexivity.
Qed.

(** X20: when the staging namespace cannot be listed, [Commit] and [Abort]
    of the swift copier return the error of the listing and issue no other
    request: nothing is moved, no marker is created, nothing is deleted. *)
Theorem swift_listing_failure (f : apps.swiftCopier) (e : error) (w w1 : W) :
  let list_ := SwObjectNamesAll (apps.sc_container f) (apps.sc_tmpObj f) in
  h list_ w = (inr e, w1) ->
  run h (apps.swift_Commit f) w = (Returned (Some e), w1, [list_]) /\
  run h (apps.swift_Abort f) w = (Returned (Some e), w1, [list_]).
Proof.
  intros list_ Hl. unfold apps.swift_Commit, apps.swift_Abort.
  rewrite !(run_call_bind h list_), Hl. split; reflexivity.
Qed.

(** X21: what the swift [Copy] stages.  A started copier first creates one
    object, in its container, named by the staging prefix joined with the
    file's name, with a content type that is never empty; if the creation
    fails, [Copy] returns its error and nothing else is requested. *)
Theorem swift_Copy_creates (f : apps.swiftCopier) (stat : FileInfo) (src : Reader)
    (w : W) :
  apps.sc_started f = true ->
  let copy := apps.swift_Copy gzip MIMETypeByExtension MIMETypeFromReader
                              f stat src in
  exists ct hs,
    ct <> "" /\
    let create := SwObjectCreate (apps.sc_container f)
                    (path.Join [apps.sc_tmpObj f; fi_name stat]) true "" ct hs in
    (exists t, trace h copy w = create :: t /\ List.filter is_create t = []) /\
    (forall e w1, h create w = (inr e, w1) ->
       run h copy w = (Returned (Some e), w1, [create])).
Proof.
  intros Hs copy. subst copy. unfold apps.swift_Copy, trace. rewrite Hs.
  cbn [negb].
  assert (Hct : (apps.content_type MIMETypeByExtension MIMETypeFromReader
                                   stat src).1 <> "").
  { unfold apps.content_type.
    destruct (String.eqb (MIMETypeByExtension _) "") eqn:E1.
    - destruct (MIMETypeFromReader src) as [ct src'].
      destruct (String.eqb ct "") eqn:E2; simpl; [discriminate|].
      apply String.eqb_neq. exact E2.
    - rewrite E1. simpl. apply String.eqb_neq. exact E1. }
  destruct (apps.content_type _ _ _ _) as [ct src']. simpl in Hct.
  exists ct, (apps.ObjectHeaders
                [("content-encoding", "gzip");
                 ("original-content-length", pretty (fi_size stat))]).
  split; [exact Hct|]. cbv zeta. split.
  - rewrite (run_call_bind h (SwObjectCreate _ _ _ _ _ _)).
    match goal with |- context [h ?o w] => destruct (h o w) as [[file|e] w1] end;
      cbv beta iota.
    + simpl. answer h. destruct x as [n errc]. simpl. answer h.
      eexists. split; [reflexivity|]. reflexivity.
    + eexists. split; [reflexivity|]. reflexivity.
  - intros e w1 Hc. rewrite (run_call_bind h (SwObjectCreate _ _ _ _ _ _)), Hc.
    reflexivity.
Qed.



(** X24: the afero copier stages beside its target.  Whenever [Start], on
    a fresh copier, reports a new application without error, it has asked
    the backend, in this order, whether [/identifier/version] is a
    directory, to make its parent directory, and for a temporary directory
    in that parent; the copier is started, its target is
    [/identifier/version] and its staging directory is the one the backend
    handed out. *)
Theorem afero_Start_stages_beside_target (slug version : string)
    (f' : apps.aferoCopier) (w : W) :
  result h (apps.afero_Start apps.NewAferoCopier slug version) w
    = Returned (f', (false, None)) ->
  let appDir := path.Join ["/"; slug; version] in
  let dir := path.Dir appDir in
  trace h (apps.afero_Start apps.NewAferoCopier slug version) w
    = [FsDirExists appDir; FsMkdirAll dir 493; FsTempDir dir "tmp"] /\
  apps.ac_appDir f' = appDir /\ apps.ac_started f' = true /\
  exists w1 w2, h (FsTempDir dir "tmp") w1 = (inl (apps.ac_tmpDir f'), w2).
Proof.
  intros Hr appDir dir. revert Hr.
  unfold apps.afero_Start, result, trace. simpl. fold appDir. fold dir.
  answer h. destruct x as [ex e]. simpl.
  destruct (bool_decide (e ≠ None) || ex) eqn:Hb; simpl.
  - intros [= <- -> ->].
    rewrite bool_decide_eq_false_2 in Hb by (intros H; apply H; reflexivity).
    discriminate Hb.
  - answer h. destruct x as [e'|]; simpl; [intros [=]|].
    match goal with
    | |- context [h (FsTempDir dir "tmp") ?w1] =>
        destruct (h (FsTempDir dir "tmp") w1) as [[tmp|e'] w2] eqn:Ht
    end; simpl; [|intros [=]].
    intros [= <-]. simpl. repeat split. eauto.
Qed.

End Staging.

(** [weather/1.0.0] is installed in both stores: [Start] says so, and
    [Copy] then panics. *)
Lemma Copy_after_existing_panics_witness :
  let sf := apps.mkSwiftCopier "weather/1.0.0" "" "apps" false in
  let af := apps.mkAferoCopier "/weather/1.0.0" "" false in
  (result Env.handle (apps.swift_Start (apps.NewSwiftCopier "apps")
                                       "weather" "1.0.0") Fixtures.swift_committed
     = Returned (sf, (true, None)) /\
   result Env.handle (apps.afero_Start apps.NewAferoCopier "weather" "1.0.0")
          Fixtures.afero_committed
     = Returned (af, (true, None))) /\
  run Env.handle (apps.swift_Copy Fixtures.store Fixtures.no_type Fixtures.no_sniff
                                  sf Fixtures.icon Fixtures.icon_src) Env.empty
    = (Panicked apps.panic_msg, Env.empty, []) /\
  run Env.handle (apps.afero_Copy Fixtures.store af Fixtures.icon Fixtures.icon_src)
      Env.empty
    = (Panicked apps.panic_msg, Env.empty, []).
Proof.
  intros sf af.
  assert (H1 : result Env.handle (apps.swift_Start (apps.NewSwiftCopier "apps")
                                    "weather" "1.0.0") Fixtures.swift_committed
               = Returned (sf, (true, None))) by (vm_compute; reflexivity).
  assert (H2 : result Env.handle
                 (apps.afero_Start apps.NewAferoCopier "weather" "1.0.0")
                 Fixtures.afero_committed
               = Returned (af, (true, None))) by (vm_compute; reflexivity).
  split; [auto|].
  destruct (Copy_after_existing_panics Fixtures.store Fixtures.no_type
              Fixtures.no_sniff Env.handle "weather" "1.0.0") as [Hs Ha].
  split.
  - exact (Hs "apps" sf None Fixtures.swift_committed H1
              Fixtures.icon Fixtures.icon_src Env.empty).
  - exact (Ha af None Fixtures.afero_committed H2
              Fixtures.icon Fixtures.icon_src Env.empty).
Defined.

(** A staged object, and one outside the staging namespace. *)
Lemma dst_name_relative_witness :
  strings.HasPrefix "stray/icon.png" (apps.sc_tmpObj Fixtures.weather) = false /\
  apps.dst_name Fixtures.weather "tmp-0xxxxxxxxxxxxxxxxxxx/icon.png"
    = "weather/1.0.0/icon.png" /\
  apps.dst_name Fixtures.weather "stray/icon.png"
    = "weather/1.0.0/stray/icon.png".
Proof.
  assert (H1 : strings.HasPrefix "stray/icon.png" (apps.sc_tmpObj Fixtures.weather)
               = false) by reflexivity.
  split; [exact H1|].
  destruct (dst_name_relative Fixtures.weather) as [Hrel Hout].
  split.
  - change "tmp-0xxxxxxxxxxxxxxxxxxx/icon.png"
      with (apps.sc_tmpObj Fixtures.weather ++ "icon.png")%string.
    rewrite Hrel. vm_compute. reflexivity.
  - rewrite (Hout "stray/icon.png" H1). vm_compute. reflexivity.
Defined.

(** The account does not answer the listing. *)
Lemma swift_listing_failure_witness :
  let down := ErrOther "503 service unavailable" in
  let w := Env.with_faults Fixtures.swift_staged [Some down] in
  Env.handle (SwObjectNamesAll "apps" "tmp-0xxxxxxxxxxxxxxxxxxx/") w
    = (inr down, Fixtures.swift_staged) /\
  run Env.handle (apps.swift_Commit Fixtures.weather) w
    = (Returned (Some down), Fixtures.swift_staged,
       [SwObjectNamesAll "apps" "tmp-0xxxxxxxxxxxxxxxxxxx/"]).
Proof.
  intros down w.
  assert (H1 : Env.handle (SwObjectNamesAll (apps.sc_container Fixtures.weather)
                                            (apps.sc_tmpObj Fixtures.weather)) w
               = (inr down, Fixtures.swift_staged)) by (vm_compute; reflexivity).
  split; [exact H1|].
  exact (proj1 (swift_listing_failure Env.handle Fixtures.weather down w
                  Fixtures.swift_staged H1)).
Defined.

(** The icon is staged by a started copier. *)
Lemma swift_Copy_creates_witness :
  apps.sc_started Fixtures.weather = true /\
  exists ct hs,
    ct <> "" /\
    exists t,
      trace Env.handle
        (apps.swift_Copy Fixtures.store Fixtures.no_type Fixtures.no_sniff
                         Fixtures.weather Fixtures.icon Fixtures.icon_src) Env.empty
      = SwObjectCreate "apps" (path.Join ["tmp-0xxxxxxxxxxxxxxxxxxx/"; "icon.png"])
                       true "" ct hs :: t.
Proof.
  assert (H1 : apps.sc_started Fixtures.weather = true) by reflexivity.
  split; [exact H1|].
  destruct (swift_Copy_creates Fixtures.store Fixtures.no_type Fixtures.no_sniff
              Env.handle Fixtures.weather Fixtures.icon Fixtures.icon_src
              Env.empty H1) as (ct & hs & Hct & (t & Ht & _) & _).
  exists ct, hs. split; [exact Hct|]. exists t. exact Ht.
Defined.



(** [Start] on the empty backend. *)
Lemma afero_Start_stages_beside_target_witness :
  result Env.handle (apps.afero_Start apps.NewAferoCopier "weather" "1.0.0")
         Env.empty
    = Returned (Fixtures.weather_fs, (false, None)) /\
  trace Env.handle (apps.afero_Start apps.NewAferoCopier "weather" "1.0.0")
        Env.empty
    = [FsDirExists "/weather/1.0.0"; FsMkdirAll "/weather" 493;
       FsTempDir "/weather" "tmp"].
Proof.
  assert (H1 : result Env.handle
                 (apps.afero_Start apps.NewAferoCopier "weather" "1.0.0") Env.empty
               = Returned (Fixtures.weather_fs, (false, None)))
    by (vm_compute; reflexivity).
  split; [exact H1|].
  exact (proj1 (afero_Start_stages_beside_target Env.handle "weather" "1.0.0"
                  Fixtures.weather_fs Env.empty H1)).
Defined.
